(** * GitHub trending scraper: a shallow embedding of [scraper.py]

    The scraper checks robots.txt, fetches the trending page with a retry
    policy, extracts one record per [article.Box-row] element and stores the
    records once per UTC day.  This file embeds the five functions of
    [scraper.py] ([can_fetch], [fetch_trending], [parse_trending],
    [save_data], [main]) and proves the properties the specification
    states about them.

    Python values are modelled as follows.
    - A [str] is a list of Unicode code points ([N]); [py "..."] turns an
      ASCII literal into one.
    - The document tree BeautifulSoup builds is the inductive [PageElement];
      its attribute dictionaries are finite maps.
    - Logging, console output, the file system and the requests put on the
      wire are fields of an explicit [World] that every function threads;
      what the outside answers (robots.txt, the HTTP transport, the clock,
      I/O faults) is read from an [Env].
    - A Python exception is a value of [exn]; a call either [Return]s or
      [Raise]s.
    - The five functions are first embedded on a host where the HTML
      parser accepts the markup it is given and the console can print every
      line.  Module [Host] then embeds [parse_trending], [save_data] and
      [main] on a host where either can fail; on the ideal host the two
      embeddings coincide ([host_main_ideal]). *)

From Stdlib Require Import ZArith NArith String Ascii DecimalString List.
From stdpp Require Import gmap list.
Import ListNotations.

Local Open Scope N_scope.
Set Warnings "-register-all".

(** ** Python strings *)

Module PyStr.

Abbreviation str := (list N).

(** An ASCII literal as a Python string. *)
Definition py (s : string) : str :=
  List.map N_of_ascii (list_ascii_of_string s).
Arguments py s%_string.

(** [str.isspace] on one code point: the characters CPython's
    [Py_UNICODE_ISSPACE] accepts. *)
Definition isspace (c : N) : bool :=
  ((9 <=? c) && (c <=? 13)) || ((28 <=? c) && (c <=? 32))
  || (c =? 133) || (c =? 160) || (c =? 5760)
  || ((8192 <=? c) && (c <=? 8202))
  || (c =? 8232) || (c =? 8233) || (c =? 8239) || (c =? 8287)
  || (c =? 12288).

Definition mem (c : N) (chars : str) : bool := existsb (N.eqb c) chars.

Fixpoint lstrip_with (p : N -> bool) (s : str) : str :=
  match s with
  | [] => []
  | c :: s' => if p c then lstrip_with p s' else s
  end.

Definition rstrip_with (p : N -> bool) (s : str) : str :=
  rev (lstrip_with p (rev s)).

Definition strip_with (p : N -> bool) (s : str) : str :=
  rstrip_with p (lstrip_with p s).

(** [s.strip()] *)
Definition strip (s : str) : str := strip_with isspace s.

(** [s.strip(chars)] *)
Definition strip_chars (chars s : str) : str :=
  strip_with (fun c => mem c chars) s.

(** [s.replace(old, new)] for a one-character [old]. *)
Definition replace_char (old : N) (new s : str) : str :=
  flat_map (fun c => if c =? old then new else [c]) s.

(** [s.endswith(suffix)] *)
Definition endswith (s suffix : str) : bool :=
  bool_decide (drop (length s - length suffix)%nat s = suffix).

(** [bool(s)]: a string is truthy when it is not empty. *)
Definition truthy (s : str) : bool :=
  match s with [] => false | _ :: _ => true end.

(** [str(n)] for a natural number, as the f-strings print [len(...)]. *)
Definition of_nat (n : nat) : str :=
  py (NilZero.string_of_uint (Nat.to_uint n)).

(** [re.findall(r"\S+", s)]: the maximal runs of non-space characters. *)
Fixpoint split_ws_aux (cur : str) (s : str) : list str :=
  match s with
  | [] => match cur with [] => [] | _ => [rev cur] end
  | c :: s' =>
      if isspace c
      then match cur with
           | [] => split_ws_aux [] s'
           | _ => rev cur :: split_ws_aux [] s'
           end
      else split_ws_aux (c :: cur) s'
  end.

Definition split_ws (s : str) : list str := split_ws_aux [] s.

Definition COMMA : N := 44.

End PyStr.
Import PyStr.

(** ** Exceptions *)

Inductive exn_class :=
| AttributeError
| OSError
| URLError
| UnicodeDecodeError
| HTTPError
| RetryError
| ConnectionError
| ParserRejectedMarkup
| UnicodeEncodeError.

(** [isinstance(e, requests.RequestException)] *)
Definition is_RequestException (c : exn_class) : bool :=
  match c with
  | HTTPError | RetryError | ConnectionError => true
  | _ => false
  end.

Record exn := Exn { exn_cls : exn_class; exn_msg : str }.

Inductive outcome (A : Type) :=
| Return (a : A)
| Raise (e : exn).
Arguments Return {A} a.
Arguments Raise {A} e.

(** ** The document tree *)

Module Soup.

(** A node of the tree [BeautifulSoup(html, 'html.parser')] builds.
    [attrs] is the tag's attribute dictionary with the attribute text as
    written in the markup; [Comment] stands for the strings that [.text]
    leaves out (comments, declarations). *)
Inductive PageElement :=
| Tag (name : str) (attrs : gmap str str) (contents : list PageElement)
| NavigableString (s : str)
| Comment (s : str).

(** [tag.descendants]: every node below the tag, in document order. *)
Fixpoint descendants (e : PageElement) : list PageElement :=
  match e with
  | Tag _ _ cs =>
      (fix walk (l : list PageElement) : list PageElement :=
         match l with
         | [] => []
         | c :: l' => c :: descendants c ++ walk l'
         end) cs
  | _ => []
  end.

(** [tag.get(key, default)] *)
Definition get (e : PageElement) (key dflt : str) : str :=
  match e with
  | Tag _ a _ => default dflt (a !! key)
  | _ => dflt
  end.

(** [tag.text]: the strings below the tag, concatenated in document
    order. *)
Definition text (e : PageElement) : str :=
  flat_map (fun d => match d with NavigableString s => s | _ => [] end)
           (descendants e).

(** [tag.find(name, attrs)]: the first tag below [e], in document order,
    that has this name and whose attributes satisfy [p]. *)
Definition matches (name : str) (p : gmap str str -> bool)
           (d : PageElement) : bool :=
  match d with
  | Tag n a _ => bool_decide (n = name) && p a
  | _ => false
  end.

Definition find (name : str) (p : gmap str str -> bool)
           (e : PageElement) : option PageElement :=
  List.find (matches name p) (descendants e).

(** [tag.h2], [tag.a], [tag.p]: attribute access is [find] by name. *)
Definition child (name : str) (e : PageElement) : option PageElement :=
  find name (fun _ => true) e.

(** The tokens of the [class] attribute. *)
Definition classes (a : gmap str str) : list str :=
  split_ws (default [] (a !! py "class")).

(** [soup.select('article.Box-row')]: every [article] tag of the document
    that carries the class [Box-row], in document order. *)
Definition select_rows (soup : PageElement) : list PageElement :=
  List.filter
    (matches (py "article")
             (fun a => bool_decide (py "Box-row" ∈ classes a)))
    (descendants soup).

End Soup.
Import Soup.

(** ** The world the scraper acts on *)

Inductive level := INFO | WARNING | ERROR.

(** What one answer of the HTTP transport is: a response with its status
    code, whether it carries a [Retry-After] header and its body, or a
    connection-level failure (refused, reset, timed out).  Redirects are
    not followed here: a response is the one [requests] ends up with. *)
Inductive reply :=
| Response (status : Z) (retry_after : bool) (body : str)
| ConnectionFailure (cause : str).

(** How the write of the artifact goes: no fault; [open] fails and no file
    is created; or the file is opened and the write fails after [written]
    characters have reached it. *)
Inductive write_fault :=
| NoFault
| OpenFails (cause : str)
| DumpFails (written : nat) (cause : str).

Record World := mkWorld {
  dirs : gset str;              (* directories on disk *)
  files : gmap str str;         (* files on disk and their content *)
  log : list (level * str);     (* scraper.log, oldest entry first *)
  stdout : list str;            (* lines printed, oldest first *)
  wire : list str;              (* URLs requested, oldest first *)
  opened : list str             (* paths opened for writing, oldest first *)
}.

Record Env := mkEnv {
  (* rp.read() followed by rp.can_fetch(user_agent, url): the answer of
     the robots rules, or the exception one of the two calls raises *)
  robots : str -> str -> outcome bool;
  (* the answer to the k-th request for the trending page *)
  transport : nat -> reply;
  (* BeautifulSoup(html, 'html.parser'): the tree of the markup; what the
     call raises on markup the parser rejects is the host's
     [Host.parser_error] *)
  BeautifulSoup : str -> PageElement;
  (* datetime.now(timezone.utc).strftime('%Y-%m-%d') *)
  utc_today : str;
  (* whether os.makedirs fails when it has a directory to create *)
  makedirs_fault : option str;
  (* when it fails: whether the parent [data] was there or had been made
     by then (the failure is on the day's directory), or not (the failure
     is on [data] itself) *)
  makedirs_made_parent : bool;
  write : write_fault
}.

(** *** A state and exception monad over [World] *)

Definition M (A : Type) : Type := World -> outcome A * World.

Definition ret {A} (a : A) : M A := fun w => (Return a, w).

Definition raise {A} (e : exn) : M A := fun w => (Raise e, w).

Definition bind {A B} (m : M A) (k : A -> M B) : M B :=
  fun w =>
    match m w with
    | (Return a, w') => k a w'
    | (Raise e, w') => (Raise e, w')
    end.

(** [try: m  except Exception as e: h e] *)
Definition try_except {A} (m : M A) (h : exn -> M A) : M A :=
  fun w =>
    match m w with
    | (Return a, w') => (Return a, w')
    | (Raise e, w') => h e w'
    end.

(** [try: m  finally: f] *)
Definition try_finally {A} (m : M A) (f : M unit) : M A :=
  fun w =>
    match m w with
    | (r, w') =>
        match f w' with
        | (Return _, w'') => (r, w'')
        | (Raise e, w'') => (Raise e, w'')
        end
    end.

Definition lift {A} (o : outcome A) : M A := fun w => (o, w).

Declare Scope py_scope.
Delimit Scope py_scope with py.
Notation "'let*' x ':=' m 'in' k" := (bind m (fun x => k))
  (at level 10, x name, m at level 100, k at level 200) : py_scope.
Notation "m1 ';;' m2" := (bind m1 (fun _ => m2))
  (at level 100, m2 at level 200, right associativity) : py_scope.
Local Open Scope py_scope.

Definition logging (l : level) (msg : str) : M unit :=
  fun w => (Return tt,
            mkWorld (dirs w) (files w) (log w ++ [(l, msg)]) (stdout w)
                    (wire w) (opened w)).

(** [print(msg)] on a console that can encode the line; [Host.print] is
    [print] on any console. *)
Definition print (msg : str) : M unit :=
  fun w => (Return tt,
            mkWorld (dirs w) (files w) (log w) (stdout w ++ [msg])
                    (wire w) (opened w)).

(** ** Configuration *)

Definition USER_AGENT : str :=
  py "Mozilla/5.0 (compatible; AnansiScraper/1.0; +https://anansi.hackclub.com/)".
Definition TRENDING_URL : str := py "https://github.com/trending".
Definition ROBOTS_URL : str := py "https://github.com/robots.txt".
Definition MAX_RETRIES : nat := 3.

(** ** [parse_trending] *)

Record RepositoryRecord := mkRecord {
  name : str;
  description : str;
  language : str;
  stars : str
}.

(** [lambda x: x and x.endswith('/stargazers')] applied to the tag's
    [href], which is [None] when the attribute is missing. *)
Definition stargazers_href (a : gmap str str) : bool :=
  match a !! py "href" with
  | None => false
  | Some x => truthy x && endswith x (py "/stargazers")
  end.

(** [itemprop='programmingLanguage'] *)
Definition programming_language (a : gmap str str) : bool :=
  bool_decide (a !! py "itemprop" = Some (py "programmingLanguage")).

(** The four lookups of the loop body. *)
Definition name_of (name_element : option PageElement) : str :=
  match name_element with
  | Some a => strip_chars (py "/") (get a (py "href") [])
  | None => []
  end.

Definition desc_of (desc_element : option PageElement) : str :=
  match desc_element with
  | Some p => strip (text p)
  | None => []
  end.

Definition lang_of (lang_element : option PageElement) : str :=
  match lang_element with
  | Some s => strip (text s)
  | None => []
  end.

Definition stars_of (stars_element : option PageElement) : str :=
  match stars_element with
  | Some a => replace_char COMMA [] (strip (text a))
  | None => py "0"
  end.

(** The body of [for repo in repositories], inside the [try]: it returns
    the list after the optional [append], or raises.  [repo.h2.a] raises
    [AttributeError] when the row has no [h2], since [repo.h2] is then
    [None]. *)
Definition row_body (repo : PageElement) (repo_list : list RepositoryRecord)
  : outcome (list RepositoryRecord) :=
  match child (py "h2") repo with
  | None =>
      Raise (Exn AttributeError (py "'NoneType' object has no attribute 'a'"))
  | Some h2 =>
      let name_element := child (py "a") h2 in
      let name := name_of name_element in
      let desc := desc_of (child (py "p") repo) in
      let lang := lang_of (find (py "span") programming_language repo) in
      let stars := stars_of (find (py "a") stargazers_href repo) in
      if truthy name
      then Return (repo_list ++ [mkRecord name desc lang stars])
      else Return repo_list
  end.

(** The loop, with its [except Exception: warning; continue]. *)
Fixpoint for_repo (repositories : list PageElement)
         (repo_list : list RepositoryRecord) : M (list RepositoryRecord) :=
  match repositories with
  | [] => ret repo_list
  | repo :: rest =>
      let* repo_list' :=
        try_except (lift (row_body repo repo_list))
          (fun e =>
             logging WARNING (py "Error parsing repository: " ++ exn_msg e);;
             ret repo_list) in
      for_repo rest repo_list'
  end.

Definition parse_trending (env : Env) (html : str)
  : M (list RepositoryRecord) :=
  let soup := BeautifulSoup env html in
  let repositories := select_rows soup in
  logging INFO (py "Found " ++ of_nat (length repositories)
                ++ py " repositories on trending page");;
  let* repo_list := for_repo repositories [] in
  logging INFO (py "Successfully parsed " ++ of_nat (length repo_list)
                ++ py " repositories");;
  ret repo_list.


(** ** [can_fetch] *)

(** One request put on the wire. *)
Definition request (url : str) : M unit :=
  fun w => (Return tt,
            mkWorld (dirs w) (files w) (log w) (stdout w) (wire w ++ [url])
                    (opened w)).

Definition can_fetch (env : Env) (url user_agent : str) : M bool :=
  try_except
    (request ROBOTS_URL;;
     lift (robots env user_agent url))
    (fun e =>
       logging WARNING (py "Could not check robots.txt: " ++ exn_msg e);;
       ret true).

(** ** [fetch_trending] *)

Definition status_forcelist : list Z := [429; 500; 502; 503; 504]%Z.

(** urllib3's [Retry.RETRY_AFTER_STATUS_CODES]; [Retry] honours a
    [Retry-After] header on these by default. *)
Definition RETRY_AFTER_STATUS_CODES : list Z := [413; 429; 503]%Z.

Definition of_Z (z : Z) : str := py (NilZero.string_of_int (Z.to_int z)).

(** [Retry.is_retry] for a GET with [total] retries left. *)
Definition is_retry (total : nat) (status : Z) (has_retry_after : bool)
  : bool :=
  bool_decide (status ∈ status_forcelist)
  || (negb (Nat.eqb total 0) && has_retry_after
      && bool_decide (status ∈ RETRY_AFTER_STATUS_CODES)).

(** [session.get] through the mounted [HTTPAdapter(max_retries=retries)]:
    the [k]-th request is sent; a connection failure or a response that
    [is_retry] accepts uses up one of the [total] retries left and the
    request is sent again, unless none is left, which raises.  Any other
    response is handed back.  (With [total] retries left, urllib3 goes on
    until the count drops below zero, hence the extra request; the
    messages of its exceptions are shortened here.) *)
Fixpoint session_get (env : Env) (total : nat) (k : nat) : M (Z * str) :=
  request TRENDING_URL;;
  match transport env k with
  | ConnectionFailure cause =>
      match total with
      | O => raise (Exn ConnectionError cause)
      | S total' => session_get env total' (S k)
      end
  | Response status has_retry_after body =>
      if is_retry total status has_retry_after
      then match total with
           | O => raise (Exn RetryError
                             (py "too many " ++ of_Z status
                              ++ py " error responses"))
           | S total' => session_get env total' (S k)
           end
      else ret (status, body)
  end.

(** [response.raise_for_status()]; the message is shortened. *)
Definition raise_for_status (response : Z * str) : M unit :=
  let status := fst response in
  if ((400 <=? status) && (status <? 600))%Z
  then raise (Exn HTTPError
                  (of_Z status ++ py " Error for url: " ++ TRENDING_URL))
  else ret tt.

Definition fetch_trending (env : Env) : M str :=
  logging INFO (py "Fetching trending page from " ++ TRENDING_URL);;
  let* response := session_get env MAX_RETRIES 0 in
  raise_for_status response;;
  logging INFO (py "Successfully fetched trending page");;
  ret (snd response).

(** ** [save_data] *)

Module Json.

Definition hex_digit (n : N) : N :=
  if n <? 10 then 48 + n else 87 + n.

(** One character inside a JSON string, as [json] writes it with
    [ensure_ascii=False]. *)
Definition escape (c : N) : str :=
  if c =? 34 then py "\" ++ [34]
  else if c =? 92 then py "\\"
  else if c =? 10 then py "\n"
  else if c =? 13 then py "\r"
  else if c =? 9 then py "\t"
  else if c =? 8 then py "\b"
  else if c =? 12 then py "\f"
  else if c <? 32 then py "\u00" ++ [hex_digit (c / 16); hex_digit (c mod 16)]
  else [c].

Definition quote (s : str) : str := [34] ++ flat_map escape s ++ [34].

Definition member (key : string) (value : str) : str :=
  py "    " ++ quote (py key) ++ py ": " ++ quote value.

Definition object (r : RepositoryRecord) : str :=
  py "  {" ++ [10]
  ++ member "name" (name r) ++ py "," ++ [10]
  ++ member "description" (description r) ++ py "," ++ [10]
  ++ member "language" (language r) ++ py "," ++ [10]
  ++ member "stars" (stars r) ++ [10]
  ++ py "  }".

Fixpoint objects (data : list RepositoryRecord) : str :=
  match data with
  | [] => []
  | [r] => object r
  | r :: rest => object r ++ py "," ++ [10] ++ objects rest
  end.

(** [json.dumps(data, indent=2, ensure_ascii=False)] *)
Definition dumps (data : list RepositoryRecord) : str :=
  match data with
  | [] => py "[]"
  | _ => py "[" ++ [10] ++ objects data ++ [10] ++ py "]"
  end.

End Json.

(** [os.path.join(a, b)] on POSIX. *)
Definition path_join (a b : str) : str :=
  match b with
  | 47 :: _ => b
  | _ => if negb (truthy a) || endswith a (py "/") then a ++ b
         else a ++ py "/" ++ b
  end.

(** [os.makedirs(dir_path, exist_ok=True)] for [dir_path = data/<date>]:
    nothing to do when the directory is there.  Otherwise the missing
    parent [data] is made first and the day's directory after it; the
    operating system can refuse either step, and a refusal of the second
    leaves [data] behind. *)
Definition with_parent (w : World) : World :=
  mkWorld (dirs w ∪ {[ py "data" ]}) (files w) (log w) (stdout w) (wire w)
          (opened w).

Definition makedirs (env : Env) (dir_path : str) : M unit :=
  fun w =>
    if bool_decide (dir_path ∈ dirs w) then (Return tt, w)
    else
      match makedirs_fault env with
      | Some cause =>
          (Raise (Exn OSError cause),
           if makedirs_made_parent env then with_parent w else w)
      | None =>
          (Return tt,
           mkWorld (dirs w ∪ {[ py "data"; dir_path ]}) (files w) (log w)
                   (stdout w) (wire w) (opened w))
      end.

(** [os.path.exists(path)]: the path names a directory or a file. *)
Definition exists_on_disk (path : str) (w : World) : bool :=
  bool_decide (path ∈ dirs w) || bool_decide (is_Some (files w !! path)).

Definition path_exists (path : str) : M bool :=
  fun w => (Return (exists_on_disk path w), w).

(** [open(path, 'w')] followed by writing [content] and closing. *)
Definition set_file (path content : str) (w : World) : World :=
  mkWorld (dirs w) (<[path := content]> (files w)) (log w) (stdout w)
          (wire w) (opened w ++ [path]).

(** [with open(file_path, 'w', encoding='utf-8') as f: json.dump(data, f,
    indent=2, ensure_ascii=False)]: opening creates (or empties) the file,
    then the text is written to it. *)
Definition open_and_dump (env : Env) (file_path : str)
           (data : list RepositoryRecord) : M unit :=
  fun w =>
    match write env with
    | NoFault => (Return tt, set_file file_path (Json.dumps data) w)
    | OpenFails cause => (Raise (Exn OSError cause), w)
    | DumpFails written cause =>
        (Raise (Exn OSError cause),
         set_file file_path (take written (Json.dumps data)) w)
    end.

Definition save_data (env : Env) (data : list RepositoryRecord) : M bool :=
  let today := utc_today env in
  let dir_path := path_join (py "data") today in
  makedirs env dir_path;;
  let file_path := path_join dir_path (py "trending.json") in
  let* found := path_exists file_path in
  if found
  then
    logging INFO (py "File " ++ file_path ++ py " already exists. Skipping save.");;
    print (py "File " ++ file_path ++ py " already exists. Skipping save.");;
    ret false
  else
    try_except
      (open_and_dump env file_path data;;
       logging INFO (py "Successfully saved " ++ of_nat (length data)
                     ++ py " repositories to " ++ file_path);;
       print (py "Successfully saved " ++ of_nat (length data)
              ++ py " repositories to " ++ file_path);;
       ret true)
      (fun e =>
         logging ERROR (py "Error saving data to " ++ file_path ++ py ": "
                        ++ exn_msg e);;
         print (py "Error saving data: " ++ exn_msg e);;
         ret false).

(** ** [main] *)

Definition CROSS : str := [10060; 32].          (* U+274C *)
Definition CHECK : str := [9989; 32].           (* U+2705 *)
Definition WARN : str := [9888; 65039; 32; 32]. (* U+26A0 U+FE0F *)
Definition NOTE : str := [8505; 65039; 32; 32]. (* U+2139 U+FE0F *)

Definition FINISHED : level * str := (INFO, py "Scraper finished").

(** The body of the [try] block of [main]; each [return] ends it. *)
Definition scrape (env : Env) : M unit :=
  let* allowed := can_fetch env TRENDING_URL USER_AGENT in
  if negb allowed
  then
    logging WARNING (py "Scraping not allowed by robots.txt");;
    print (CROSS ++ py "Scraping not allowed by robots.txt")
  else
    logging INFO (py "Robots.txt check passed");;
    print (CHECK ++ py "Robots.txt check passed");;
    let* html := fetch_trending env in
    let* trending_repos := parse_trending env html in
    match trending_repos with
    | [] =>
        logging WARNING (py "No repositories found on trending page");;
        print (WARN ++ py "No repositories found on trending page")
    | _ :: _ =>
        let* saved := save_data env trending_repos in
        if (saved : bool)
        then
          print (CHECK ++ py "Successfully scraped "
                 ++ of_nat (length trending_repos)
                 ++ py " repositories.");;
          logging INFO (py "Scraping completed successfully. Found "
                        ++ of_nat (length trending_repos)
                        ++ py " repositories.")
        else
          print (NOTE ++ py "Data already exists for today.")
    end.

(** The two [except] clauses of [main]: [requests.RequestException]
    first, any other [Exception] after it. *)
Definition report (e : exn) : M unit :=
  if is_RequestException (exn_cls e)
  then
    let error_msg := py "Network error: " ++ exn_msg e in
    logging ERROR error_msg;;
    print (CROSS ++ error_msg)
  else
    let error_msg := py "Unexpected error: " ++ exn_msg e in
    logging ERROR error_msg;;
    print (CROSS ++ error_msg).

Definition main (env : Env) : M unit :=
  logging INFO (py "Starting GitHub trending scraper");;
  print (py "Starting GitHub trending scraper...");;
  try_finally
    (try_except (scrape env) report)
    (logging (fst FINISHED) (snd FINISHED);;
     print (py "Scraper finished.")).

(** ** What the robots oracle stands for

    [RobotFileParser.read] asks [urllib] for robots.txt.  The request can
    fail before any answer comes (no name, no route, a time-out), which
    raises; the server can answer with an error status, which [urllib]
    raises as [HTTPError] and [read] takes in without raising; or a body
    arrives, which [read] decodes as UTF-8, raising when it is not, and
    parses, leaving out the lines it cannot make out. *)
Inductive robots_txt :=
| Unreachable (e : exn)
| ErrorStatus (code : Z)
| Undecodable (e : exn)
| Rules (text : str).

(** [rp.read()] followed by [rp.can_fetch(user_agent, url)], given how the
    request for robots.txt ends and how the rules of a body judge a URL
    for a user agent.  On an error status, [read] sets [disallow_all] for
    401 and 403 and [allow_all] for any other status from 400 to 499; for
    every other status it sets neither and leaves [last_checked] unset, on
    which [can_fetch] answers [False]. *)
Definition RobotFileParser (allows : str -> str -> str -> bool)
           (answer : robots_txt) (user_agent url : str) : outcome bool :=
  match answer with
  | Unreachable e => Raise e
  | ErrorStatus code =>
      if bool_decide (code ∈ [401; 403]%Z) then Return false
      else if ((400 <=? code) && (code <? 500))%Z then Return true
      else Return false
  | Undecodable e => Raise e
  | Rules text => Return (allows text user_agent url)
  end.

(** ** The host the scraper runs on

    The embedding above takes two library calls for granted: that
    [BeautifulSoup] builds a tree from whatever markup it is given, and
    that [print] can write every line to the console.  Both can raise.
    [html.parser] gives up on some declarations (the text [<![x]>] is
    one), and the call at line 94 is outside the [try] of the loop.  The
    status lines of [main] start with a character outside ASCII, and
    [sys.stdout] raises [UnicodeEncodeError] on a line with a character
    its encoding does not have.  A [host] says which markup the parser
    rejects and which characters the console has; the functions of this
    module are [parse_trending], [save_data] and [main] on such a host. *)
Module Host.

Record host := mkHost {
  (* the exception BeautifulSoup(html, 'html.parser') raises, if any *)
  parser_error : str -> option exn;
  (* the characters outside ASCII that the encoding of sys.stdout has *)
  encodable : N -> bool
}.

(** The parser accepts every markup and the console has every
    character. *)
Definition ideal : host := mkHost (fun _ => None) (fun _ => true).

Definition encodes (h : host) (c : N) : bool := (c <? 128) || encodable h c.

Definition can_print (h : host) (msg : str) : bool := forallb (encodes h) msg.

(** The message is shortened. *)
Definition encode_error : exn :=
  Exn UnicodeEncodeError (py "codec can't encode character").

(** [print(msg)]: the line is encoded as a whole before anything is
    written. *)
Definition print (h : host) (msg : str) : M unit :=
  if can_print h msg then print msg else raise encode_error.

Definition parse_trending (h : host) (env : Env) (html : str)
  : M (list RepositoryRecord) :=
  match parser_error h html with
  | Some e => raise e
  | None => parse_trending env html
  end.

Definition save_data (h : host) (env : Env) (data : list RepositoryRecord)
  : M bool :=
  let today := utc_today env in
  let dir_path := path_join (py "data") today in
  makedirs env dir_path;;
  let file_path := path_join dir_path (py "trending.json") in
  let* found := path_exists file_path in
  if found
  then
    logging INFO (py "File " ++ file_path ++ py " already exists. Skipping save.");;
    print h (py "File " ++ file_path ++ py " already exists. Skipping save.");;
    ret false
  else
    try_except
      (open_and_dump env file_path data;;
       logging INFO (py "Successfully saved " ++ of_nat (length data)
                     ++ py " repositories to " ++ file_path);;
       print h (py "Successfully saved " ++ of_nat (length data)
                ++ py " repositories to " ++ file_path);;
       ret true)
      (fun e =>
         logging ERROR (py "Error saving data to " ++ file_path ++ py ": "
                        ++ exn_msg e);;
         print h (py "Error saving data: " ++ exn_msg e);;
         ret false).

(** The end of the [try] block of [main], from [if not trending_repos]. *)
Definition after_parse (h : host) (env : Env)
           (trending_repos : list RepositoryRecord) : M unit :=
  match trending_repos with
  | [] =>
      logging WARNING (py "No repositories found on trending page");;
      print h (WARN ++ py "No repositories found on trending page")
  | _ :: _ =>
      let* saved := save_data h env trending_repos in
      if (saved : bool)
      then
        print h (CHECK ++ py "Successfully scraped "
                 ++ of_nat (length trending_repos)
                 ++ py " repositories.");;
        logging INFO (py "Scraping completed successfully. Found "
                      ++ of_nat (length trending_repos)
                      ++ py " repositories.")
      else
        print h (NOTE ++ py "Data already exists for today.")
  end.

(** The body of the [try] block of [main]. *)
Definition scrape (h : host) (env : Env) : M unit :=
  let* allowed := can_fetch env TRENDING_URL USER_AGENT in
  if negb allowed
  then
    logging WARNING (py "Scraping not allowed by robots.txt");;
    print h (CROSS ++ py "Scraping not allowed by robots.txt")
  else
    logging INFO (py "Robots.txt check passed");;
    print h (CHECK ++ py "Robots.txt check passed");;
    let* html := fetch_trending env in
    let* trending_repos := parse_trending h env html in
    after_parse h env trending_repos.

(** The two [except] clauses of [main]. *)
Definition report (h : host) (e : exn) : M unit :=
  if is_RequestException (exn_cls e)
  then
    let error_msg := py "Network error: " ++ exn_msg e in
    logging ERROR error_msg;;
    print h (CROSS ++ error_msg)
  else
    let error_msg := py "Unexpected error: " ++ exn_msg e in
    logging ERROR error_msg;;
    print h (CROSS ++ error_msg).

Definition main (h : host) (env : Env) : M unit :=
  logging INFO (py "Starting GitHub trending scraper");;
  print h (py "Starting GitHub trending scraper...");;
  try_finally
    (try_except (scrape h env) (report h))
    (logging (fst FINISHED) (snd FINISHED);;
     print h (py "Scraper finished.")).

End Host.

(** ** Auxiliary definitions used in the statements *)

(** What one row contributes to the output: its record when the row has a
    heading and the name is not empty, nothing otherwise. *)
Definition emitted (repo : PageElement) : option RepositoryRecord :=
  match child (py "h2") repo with
  | None => None
  | Some h2 =>
      let name := name_of (child (py "a") h2) in
      if truthy name
      then Some (mkRecord name
                   (desc_of (child (py "p") repo))
                   (lang_of (find (py "span") programming_language repo))
                   (stars_of (find (py "a") stargazers_href repo)))
      else None
  end.

(** The name the loop body resolves for a row, when it gets that far. *)
Definition resolved_name (repo : PageElement) : option str :=
  match child (py "h2") repo with
  | None => None
  | Some h2 => Some (name_of (child (py "a") h2))
  end.

(** The warning a row leaves in the log. *)
Definition row_warning (repo : PageElement) : list (level * str) :=
  match row_body repo [] with
  | Raise e => [(WARNING, py "Error parsing repository: " ++ exn_msg e)]
  | Return _ => []
  end.

Definition add_log (w : World) (es : list (level * str)) : World :=
  mkWorld (dirs w) (files w) (log w ++ es) (stdout w) (wire w) (opened w).

(** The directory and the artifact of a UTC day. *)
Definition day_dir (today : str) : str := path_join (py "data") today.

Definition artifact (today : str) : str :=
  path_join (day_dir today) (py "trending.json").

(** The world once [save_data] has made sure the directory is there, and
    whether it got that far. *)
Definition prepared (env : Env) (w : World) : World :=
  snd (makedirs env (day_dir (utc_today env)) w).

Definition directory_ready (env : Env) (w : World) : Prop :=
  fst (makedirs env (day_dir (utc_today env)) w) = Return tt.

(** The world after one more log entry, and after one more printed line. *)
Definition logged (l : level) (msg : str) (w : World) : World :=
  snd (logging l msg w).

Definition printed (msg : str) (w : World) : World := snd (print msg w).

(** A reply that the retry policy answers with another attempt while
    retries are left. *)
Definition transient (r : reply) : bool :=
  match r with
  | ConnectionFailure _ => true
  | Response status has_retry_after _ =>
      bool_decide (status ∈ status_forcelist)
      || (has_retry_after && bool_decide (status ∈ RETRY_AFTER_STATUS_CODES))
  end.

(** What the answer to the last request makes of [session.get]. *)
Definition settles (total n : nat) (last : reply) (r : outcome (Z * str))
  : Prop :=
  match last, r with
  | ConnectionFailure c, Raise e =>
      e = Exn ConnectionError c /\ n = S total
  | Response s _ body, Return x => x = (s, body) /\ s ∉ status_forcelist
  | Response s _ _, Raise e =>
      exn_cls e = RetryError /\ s ∈ status_forcelist /\ n = S total
  | _, _ => False
  end.


(** The world after [n] more requests for the trending page. *)
Definition sent (n : nat) (w : World) : World :=
  mkWorld (dirs w) (files w) (log w) (stdout w)
          (wire w ++ replicate n TRENDING_URL) (opened w).

(** How many requests for the trending page are on the wire. *)
Definition fetches (w : World) : nat :=
  length (List.filter (fun u => bool_decide (u = TRENDING_URL)) (wire w)).

(** How often [path] was opened for writing. *)
Definition writes_to (path : str) (w : World) : nat :=
  length (List.filter (fun p => bool_decide (p = path)) (opened w)).

(** A series of [save_data] calls, each in its own environment; the
    results are collected in call order. *)
Fixpoint save_each (calls : list (Env * list RepositoryRecord)) (w : World)
  : list (outcome bool) * World :=
  match calls with
  | [] => ([], w)
  | (env, data) :: rest =>
      let (r, w') := save_data env data w in
      let (rs, w'') := save_each rest w' in
      (r :: rs, w'')
  end.

(** ** Further definitions used in the statements *)

Definition SLASH : N := 47.

(** [c.isdigit()] for an ASCII digit. *)
Definition isdigit (c : N) : bool := (48 <=? c) && (c <=? 57).

(** A row on which the loop body raises: it has no heading. *)
Definition headless (repo : PageElement) : bool :=
  match child (py "h2") repo with
  | None => true
  | Some _ => false
  end.

(** A row that has a heading but resolves to the empty name. *)
Definition nameless (repo : PageElement) : bool :=
  match resolved_name repo with
  | Some [] => true
  | _ => false
  end.

(** The records of a page, as [parse_trending] returns them. *)
Definition records (env : Env) (html : str) : list RepositoryRecord :=
  omap emitted (select_rows (BeautifulSoup env html)).

(** A world with nothing on disk, in the log or on the wire. *)
Definition blank : World := mkWorld ∅ ∅ [] [] [] [].

(** What [fetch_trending] returns or raises in an environment. *)
Definition fetch_outcome (env : Env) : outcome str :=
  fst (fetch_trending env blank).

(** The robots check lets the run go on: the rules allow the page, or they
    could not be read. *)
Definition goes_on (env : Env) : Prop :=
  robots env USER_AGENT TRENDING_URL <> Return false.

(** A date as [strftime('%Y-%m-%d')] gives it: not empty, no slash. *)
Definition plain_date (today : str) : Prop :=
  today <> [] /\ SLASH ∉ today.

(** The end of the [try] block of [main], from [if not trending_repos]. *)
Definition after_parse (env : Env) (trending_repos : list RepositoryRecord)
  : M unit :=
  match trending_repos with
  | [] =>
      logging WARNING (py "No repositories found on trending page");;
      print (WARN ++ py "No repositories found on trending page")
  | _ :: _ =>
      let* saved := save_data env trending_repos in
      if (saved : bool)
      then
        print (CHECK ++ py "Successfully scraped "
               ++ of_nat (length trending_repos)
               ++ py " repositories.");;
        logging INFO (py "Scraping completed successfully. Found "
                      ++ of_nat (length trending_repos)
                      ++ py " repositories.")
      else
        print (NOTE ++ py "Data already exists for today.")
  end.

(** The world at the start of the [try] block, after the robots check has
    let the run go on, after [n] requests for the page, and after the
    page has been parsed. *)
Definition started (w : World) : World :=
  printed (py "Starting GitHub trending scraper...")
          (logged INFO (py "Starting GitHub trending scraper") w).

Definition checked (env : Env) (w : World) : World :=
  printed (CHECK ++ py "Robots.txt check passed")
    (logged INFO (py "Robots.txt check passed")
       (snd (can_fetch env TRENDING_URL USER_AGENT w))).

Definition fetched (env : Env) (n : nat) (w : World) : World :=
  mkWorld (dirs w) (files w)
          (log w
           ++ [(INFO, py "Fetching trending page from " ++ TRENDING_URL)]
           ++ match fetch_outcome env with
              | Return _ => [(INFO, py "Successfully fetched trending page")]
              | Raise _ => []
              end)
          (stdout w) (wire w ++ replicate n TRENDING_URL) (opened w).

Definition parsed (env : Env) (html : str) (w : World) : World :=
  snd (parse_trending env html w).

(** The world after the closing messages of [main]. *)
Definition finished (w : World) : World :=
  printed (py "Scraper finished.") (logged INFO (py "Scraper finished") w).

(** Two worlds with the same disk. *)
Definition same_disk (w w' : World) : Prop :=
  dirs w' = dirs w /\ files w' = files w /\ opened w' = opened w.

(** The snapshot of a day is on disk: its directory and its artifact. *)
Definition snapshot_there (today : str) (w : World) : Prop :=
  day_dir today ∈ dirs w /\ exists_on_disk (artifact today) w = true.

(** An action that leaves the disk as it is when started in a world
    where the snapshot of the day is there. *)
Definition keeps_snapshot (today : str) {A} (m : M A) : Prop :=
  forall w, snapshot_there today w -> same_disk w (snd (m w)).

(** An action that sends nothing. *)
Definition keeps_wire {A} (m : M A) : Prop :=
  forall w, wire (snd (m w)) = wire w.

(** Reading back what [Json.quote] writes: the value of a hexadecimal
    digit, the character an escape letter stands for, and the string up to
    the closing quote together with the text after it. *)
Definition unhex (c : N) : N := if c <? 58 then c - 48 else c - 87.

Definition unescape (e : N) : N :=
  if e =? 110 then 10
  else if e =? 114 then 13
  else if e =? 116 then 9
  else if e =? 98 then 8
  else if e =? 102 then 12
  else e.

Definition push (c : N) (o : option (str * str)) : option (str * str) :=
  match o with
  | Some (v, rest) => Some (c :: v, rest)
  | None => None
  end.

Fixpoint read_string (s : str) : option (str * str) :=
  match s with
  | [] => None
  | c :: rest =>
      if c =? 34 then Some ([], rest)
      else if c =? 92 then
        match rest with
        | [] => None
        | e :: rest1 =>
            if e =? 117 then
              match rest1 with
              | _ :: _ :: h :: l :: rest2 =>
                  push (16 * unhex h + unhex l) (read_string rest2)
              | _ => None
              end
            else push (unescape e) (read_string rest1)
        end
      else push c (read_string rest)
  end.
(** ** The sample page of [test_scraper.py] *)

Module Sample.

Local Open Scope string_scope.

Definition nl : str := [10].
Definition txt (s : string) : PageElement := NavigableString (py s).
Definition el (n : string) (a : list (string * string))
           (cs : list PageElement) : PageElement :=
  Tag (py n) (list_to_map (List.map (fun kv => (py (fst kv), py (snd kv))) a)) cs.

(** One [article.Box-row] of [SAMPLE_HTML], with the line breaks and the
    indentation between its children. *)
Definition article (cs : list PageElement) : PageElement :=
  el "article" [("class", "Box-row")]
     (List.flat_map (fun c => [NavigableString (nl ++ py "  "); c]) cs
      ++ [NavigableString nl]).

Definition row (repo desc : string) (lang : option string) (stars : string)
  : PageElement :=
  article
    ([el "h2" [] [el "a" [("href", String "/" repo)] [txt repo]];
      el "p" [] [txt desc]]
     ++ match lang with
        | Some l => [el "span" [("itemprop", "programmingLanguage")] [txt l]]
        | None => []
        end
     ++ [el "a" [("href", String "/" (repo ++ "/stargazers"))] [txt stars]]).

(** [BeautifulSoup(SAMPLE_HTML, 'html.parser')] *)
Definition SAMPLE_SOUP : PageElement :=
  el "[document]" []
    [NavigableString nl;
     el "html" []
       [el "body" []
          [NavigableString nl;
           row "torvalds/linux" "Linux kernel source tree" (Some "C") "160,000";
           NavigableString nl;
           row "microsoft/vscode" "Visual Studio Code" (Some "TypeScript") "120,000";
           NavigableString nl;
           row "example/no-language" "Repository with no language specified"
               None "1,234";
           NavigableString nl]];
     NavigableString nl].

(** The rows of [SAMPLE_SOUP], and the stargazers link of the first. *)
Definition LINUX_ROW : PageElement :=
  row "torvalds/linux" "Linux kernel source tree" (Some "C") "160,000".
Definition VSCODE_ROW : PageElement :=
  row "microsoft/vscode" "Visual Studio Code" (Some "TypeScript") "120,000".
Definition NO_LANGUAGE_ROW : PageElement :=
  row "example/no-language" "Repository with no language specified"
      None "1,234".
Definition LINUX_LINK : PageElement :=
  el "a" [("href", "/torvalds/linux/stargazers")] [txt "160,000"].

(** [SAMPLE_HTML], the text [SAMPLE_SOUP] is the tree of. *)
Definition dq : str := [34].

Definition row_html (repo desc : string) (lang : option string)
           (stars : string) : str :=
  py "<article class=" ++ dq ++ py "Box-row" ++ dq ++ py ">" ++ nl
  ++ py "  <h2><a href=" ++ dq ++ py (String "/" repo) ++ dq ++ py ">"
  ++ py repo ++ py "</a></h2>" ++ nl
  ++ py "  <p>" ++ py desc ++ py "</p>" ++ nl
  ++ match lang with
     | Some l => py "  <span itemprop=" ++ dq ++ py "programmingLanguage"
                 ++ dq ++ py ">" ++ py l ++ py "</span>" ++ nl
     | None => []
     end
  ++ py "  <a href=" ++ dq ++ py (String "/" (repo ++ "/stargazers")) ++ dq
  ++ py ">" ++ py stars ++ py "</a>" ++ nl
  ++ py "</article>" ++ nl.

Definition SAMPLE_HTML : str :=
  nl ++ py "<html><body>" ++ nl
  ++ row_html "torvalds/linux" "Linux kernel source tree" (Some "C") "160,000"
  ++ row_html "microsoft/vscode" "Visual Studio Code" (Some "TypeScript")
              "120,000"
  ++ row_html "example/no-language" "Repository with no language specified"
              None "1,234"
  ++ py "</body></html>" ++ nl.

(** A page like [malformed_html]: one row with a name and nothing
    else but a comment. *)
Definition MALFORMED_ROW : PageElement :=
  article
    [el "h2" [] [el "a" [("href", "/incomplete/repo")]
                        [txt "incomplete/repo"]];
     Comment (py " Missing description and other elements ")].

Definition MALFORMED_SOUP : PageElement :=
  el "[document]" [] [el "html" [] [el "body" [] [MALFORMED_ROW]]].

(** [BeautifulSoup('<html><body></body></html>', 'html.parser')] *)
Definition EMPTY_SOUP : PageElement :=
  el "[document]" [] [el "html" [] [el "body" [] []]].

(** A page whose second row has no heading. *)
Definition HEADLESS_ROW : PageElement :=
  article [el "p" [] [txt "a row without a heading"]].

Definition FIRST_ROW : PageElement :=
  row "first/repo" "First" None "1,000".
Definition THIRD_ROW : PageElement :=
  row "third/repo" "Third" (Some "Coq") "2".

Definition MIXED_SOUP : PageElement :=
  el "[document]" [] [FIRST_ROW; HEADLESS_ROW; THIRD_ROW].

Definition rec (n d l s : string) : RepositoryRecord :=
  mkRecord (py n) (py d) (py l) (py s).

Definition world0 : World := mkWorld ∅ ∅ [] [] [] [].

Definition env_of (soup : PageElement) : Env :=
  mkEnv (fun _ _ => Return true) (fun _ => Response 200 false []) (fun _ => soup)
        (py "2024-01-01") None true NoFault.

(** Transports: the server is busy three times and then answers; a 413
    that names a [Retry-After] delay, then the page; a page that is not
    there; a server that cannot be reached. *)
Definition PAGE : str := py "<html><body></body></html>".

Definition busy_then_ok (k : nat) : reply :=
  if (k <? 3)%nat then Response 503 false [] else Response 200 false PAGE.


Definition not_found (k : nat) : reply := Response 404 false [].

Definition unreachable (k : nat) : reply :=
  ConnectionFailure (py "Connection refused").

Definition env_net (t : nat -> reply) : Env :=
  mkEnv (fun _ _ => Return true) t (fun _ => SAMPLE_SOUP)
        (py "2024-01-01") None true NoFault.

(** Environments for the snapshot store: the write succeeds, [open]
    is refused, the disk fills up after five characters. *)
Definition env_io (f : write_fault) : Env :=
  mkEnv (fun _ _ => Return true) (fun _ => Response 200 false PAGE)
        (fun _ => SAMPLE_SOUP) (py "2024-01-01") None true f.

Definition refused : write_fault := OpenFails (py "Permission denied").
Definition disk_full : write_fault :=
  DumpFails 5 (py "No space left on device").

Definition linux : list RepositoryRecord :=
  [rec "torvalds/linux" "Linux kernel source tree" "C" "160000"].
Definition vscode : list RepositoryRecord :=
  [rec "microsoft/vscode" "Visual Studio Code" "TypeScript" "120000"].

(** Environments for the policy check: robots.txt cannot be read; the
    rules deny the page. *)
Definition env_robots (o : outcome bool) : Env :=
  mkEnv (fun _ _ => o) (fun _ => Response 200 false PAGE)
        (fun _ => SAMPLE_SOUP) (py "2024-01-01") None true NoFault.

Definition dns_failure : exn :=
  Exn URLError (py "<urlopen error [Errno -2] Name or service not known>").

(** robots.txt answered with an error status: the server is down, the
    file is forbidden, the file is not there.  The rules of a body that
    is read allow every page here. *)
Definition env_robots_txt (answer : robots_txt) : Env :=
  env_robots (RobotFileParser (fun _ _ _ => true) answer
                              USER_AGENT TRENDING_URL).

Definition server_down : robots_txt := ErrorStatus 503.
Definition forbidden : robots_txt := ErrorStatus 403.
Definition not_there : robots_txt := ErrorStatus 404.

(** Hosts: a console that has ASCII only; a parser that rejects the
    declaration [<![x]>], as [html.parser] does. *)
Definition ascii_console : Host.host :=
  Host.mkHost (fun _ => None) (fun _ => false).

Definition REJECTED : str := py "<![x]>".

Definition rejected_markup : exn :=
  Exn ParserRejectedMarkup (py "unexpected '[' char in declaration").

Definition strict_parser : Host.host :=
  Host.mkHost (fun html => if bool_decide (html = REJECTED)
                           then Some rejected_markup else None)
              (fun _ => true).

End Sample.


(** ** The embedding on the cases of the test suite *)

Example strip_slashes :
  strip_chars (py "/") (py "/torvalds/linux") = py "torvalds/linux".
Proof. reflexivity. Qed.

Example strip_blanks :
  strip ([10] ++ py "  Linux kernel  " ++ [9; 10]) = py "Linux kernel".
Proof. reflexivity. Qed.

Example replace_commas :
  replace_char COMMA [] (py "1,160,000") = py "1160000".
Proof. reflexivity. Qed.

Example endswith_stargazers :
  endswith (py "/torvalds/linux/stargazers") (py "/stargazers") = true /\
  endswith (py "/torvalds/linux") (py "/stargazers") = false /\
  endswith (py "gazers") (py "/stargazers") = false.
Proof. repeat split; vm_compute; reflexivity. Qed.

Example classes_of_row :
  classes {[ py "class" := py "Box-row  d-flex" ]}
  = [py "Box-row"; py "d-flex"].
Proof. vm_compute. reflexivity. Qed.

(** [test_parse_trending_empty_html] *)
Example test_parse_trending_empty_html :
  fst (parse_trending (Sample.env_of Sample.EMPTY_SOUP) Sample.PAGE
                      Sample.world0)
  = Return [].
Proof. vm_compute. reflexivity. Qed.

(** [test_parse_trending_malformed_html] *)
Example test_parse_trending_malformed_html :
  fst (parse_trending (Sample.env_of Sample.MALFORMED_SOUP) []
                      Sample.world0)
  = Return [Sample.rec "incomplete/repo" "" "" "0"].
Proof. vm_compute. reflexivity. Qed.

(** A row without a heading is skipped with a warning. *)
Example headless_row_skipped :
  row_body Sample.HEADLESS_ROW []
  = Raise (Exn AttributeError (py "'NoneType' object has no attribute 'a'")).
Proof. vm_compute. reflexivity. Qed.

Example dumps_empty : Json.dumps [] = py "[]".
Proof. reflexivity. Qed.

Example dumps_escapes :
  Json.quote ([34] ++ py "a\b" ++ [10; 1; 233])
  = [34] ++ py "\" ++ [34] ++ py "a\\b\n\u0001" ++ [233; 34].
Proof. vm_compute. reflexivity. Qed.

Example artifact_path :
  artifact (py "2024-01-01") = py "data/2024-01-01/trending.json".
Proof. vm_compute. reflexivity. Qed.

(** A server that cannot be reached is tried four times. *)
Example fetch_unreachable :
  fst (fetch_trending (Sample.env_net Sample.unreachable) Sample.world0)
  = Raise (Exn ConnectionError (py "Connection refused")) /\
  fetches (snd (fetch_trending (Sample.env_net Sample.unreachable)
                               Sample.world0)) = 4%nat.
Proof. split; vm_compute; reflexivity. Qed.

(** A whole run on the sample page: three records end up in the artifact
    of the day. *)
Example main_on_sample :
  let w := snd (main (Sample.env_io NoFault) Sample.world0) in
  files w !! py "data/2024-01-01/trending.json"
  = Some (Json.dumps
            [Sample.rec "torvalds/linux" "Linux kernel source tree"
                        "C" "160000";
             Sample.rec "microsoft/vscode" "Visual Studio Code"
                        "TypeScript" "120000";
             Sample.rec "example/no-language"
                        "Repository with no language specified" "" "1234"]) /\
  wire w = [ROBOTS_URL; TRENDING_URL] /\
  last (log w) = Some FINISHED.
Proof. cbn zeta. repeat split; vm_compute; reflexivity. Qed.

(** Runs that end in the two [except] clauses. *)
Example main_network_error :
  let w := snd (main (Sample.env_net Sample.not_found) Sample.world0) in
  (ERROR, py "Network error: 404 Error for url: https://github.com/trending")
    ∈ log w /\
  files w = ∅ /\ last (log w) = Some FINISHED.
Proof.
  cbn zeta. split; [|split; vm_compute; reflexivity].
  vm_compute. do 3 apply list_elem_of_further. apply list_elem_of_here.
Qed.

Example main_unexpected_error :
  let env := mkEnv (fun _ _ => Return true) (fun _ => Response 200 false [])
                   (fun _ => Sample.SAMPLE_SOUP) (py "2024-01-01")
                   (Some (py "Permission denied")) true NoFault in
  let w := snd (main env Sample.world0) in
  fst (main env Sample.world0) = Return tt /\
  last (stdout w) = Some (py "Scraper finished.") /\
  files w = ∅ /\
  (ERROR, py "Unexpected error: Permission denied") ∈ log w.
Proof.
  cbn zeta. split; [|split; [|split]]; try (vm_compute; reflexivity).
  vm_compute. do 6 apply list_elem_of_further. apply list_elem_of_here.
Qed.
(** ** Properties of [parse_trending] *)

Section Extractor.

Lemma add_log_nil w : add_log w [] = w.
Proof. destruct w; unfold add_log; cbn. by rewrite app_nil_r. Qed.

Lemma add_log_app w es1 es2 :
  add_log (add_log w es1) es2 = add_log w (es1 ++ es2).
Proof. unfold add_log; cbn. by rewrite app_assoc. Qed.

Lemma logging_add_log l msg w :
  logging l msg w = (Return tt, add_log w [(l, msg)]).
Proof. reflexivity. Qed.

Lemma truthy_nonempty (s : str) : truthy s = true <-> s <> [].
Proof. destruct s; cbn; split; congruence. Qed.

Lemma row_body_emitted repo repo_list :
  row_body repo repo_list =
    match child (py "h2") repo with
    | None =>
        Raise (Exn AttributeError
                   (py "'NoneType' object has no attribute 'a'"))
    | Some _ => Return (repo_list ++ option_list (emitted repo))
    end.
Proof.
  unfold row_body, emitted.
  destruct (child (py "h2") repo) as [h2|]; [|done].
  cbn zeta. destruct (truthy _); cbn [option_list]; [done|].
  by rewrite app_nil_r.
Qed.

Lemma row_body_raises repo repo_list e :
  row_body repo repo_list = Raise e -> emitted repo = None.
Proof.
  rewrite row_body_emitted. unfold emitted.
  by destruct (child (py "h2") repo).
Qed.

Lemma for_repo_cons repo rest repo_list w :
  for_repo (repo :: rest) repo_list w =
    for_repo rest (repo_list ++ option_list (emitted repo))
             (add_log w (row_warning repo)).
Proof.
  cbn [for_repo]. unfold bind, try_except, lift, row_warning.
  rewrite !row_body_emitted. unfold emitted.
  destruct (child (py "h2") repo) as [h2|].
  - by rewrite add_log_nil.
  - cbn. by rewrite app_nil_r.
Qed.

(** The loop appends, in order, what each row contributes, and logs one
    warning per row that raised. *)
Lemma for_repo_spec repositories repo_list w :
  for_repo repositories repo_list w =
    (Return (repo_list ++ omap emitted repositories),
     add_log w (flat_map row_warning repositories)).
Proof.
  revert repo_list w.
  induction repositories as [|repo rest IH]; intros repo_list w.
  - cbn. by rewrite app_nil_r, add_log_nil.
  - rewrite for_repo_cons, IH, add_log_app, <- app_assoc.
    cbn [flat_map omap list_omap].
    by destruct (emitted repo).
Qed.

Lemma parse_trending_spec env html w :
  let rows := select_rows (BeautifulSoup env html) in
  let out := omap emitted rows in
  parse_trending env html w =
    (Return out,
     add_log w
       ([(INFO, py "Found " ++ of_nat (length rows)
                ++ py " repositories on trending page")]
        ++ flat_map row_warning rows
        ++ [(INFO, py "Successfully parsed " ++ of_nat (length out)
                   ++ py " repositories")])).
Proof.
  cbn zeta. unfold parse_trending, bind.
  rewrite logging_add_log, for_repo_spec, logging_add_log.
  cbn [app ret]. by rewrite !add_log_app.
Qed.

Lemma emitted_name repo r : emitted repo = Some r -> name r <> [].
Proof.
  unfold emitted. destruct (child (py "h2") repo) as [h2|]; [|done].
  cbn zeta. destruct (truthy _) eqn:Ht; [|done].
  intros [= <-]. cbn. by apply truthy_nonempty.
Qed.

Lemma emitted_iff_name repo :
  is_Some (emitted repo) <->
  exists n, resolved_name repo = Some n /\ n <> [].
Proof.
  unfold emitted, resolved_name.
  destruct (child (py "h2") repo) as [h2|].
  - cbn zeta. destruct (truthy _) eqn:Ht.
    + split; [|by eauto]. intros _. eexists; split; [done|].
      by apply truthy_nonempty.
    + split; [by intros [? ?]|]. intros (n & [= <-] & Hn).
      apply truthy_nonempty in Hn. congruence.
  - split; [by intros [? ?]|]. by intros (n & ? & _).
Qed.

Lemma length_omap_le {A B} (f : A -> option B) (l : list A) :
  (length (omap f l) <= length l)%nat.
Proof.
  induction l as [|a l IH]; cbn; [lia|]. destruct (f a); cbn; lia.
Qed.

Lemma replace_char_removes old s : old ∉ replace_char old [] s.
Proof.
  unfold replace_char. induction s as [|c s IH]; cbn [flat_map].
  - apply not_elem_of_nil.
  - destruct (N.eqb_spec c old) as [->|Hne]; [done|].
    cbn. rewrite elem_of_cons. intros [->|?]; [done|]. by apply IH.
Qed.


(** [find] against the tree: it answers [None] exactly when no node below
    the tag matches, and some node as soon as one does. *)
Lemma find_none_intro name p e :
  (forall d, d ∈ descendants e -> matches name p d = false) ->
  find name p e = None.
Proof.
  intros Hall. unfold find.
  destruct (List.find (matches name p) (descendants e)) as [a|] eqn:Hfind;
    [|done].
  apply find_some in Hfind as [Hin Hm].
  apply list_elem_of_In in Hin. by rewrite (Hall _ Hin) in Hm.
Qed.

Lemma find_some_intro name p e d :
  d ∈ descendants e -> matches name p d = true ->
  exists a, find name p e = Some a.
Proof.
  intros Hin Hm. unfold find.
  destruct (List.find (matches name p) (descendants e)) as [a|] eqn:Hfind;
    [by eexists|].
  apply list_elem_of_In in Hin.
  by rewrite (find_none _ _ Hfind _ Hin) in Hm.
Qed.

Lemma endswith_app (pre suffix : str) : endswith (pre ++ suffix) suffix = true.
Proof.
  unfold endswith. apply bool_decide_eq_true_2.
  rewrite length_app.
  replace (length pre + length suffix - length suffix)%nat
    with (length pre) by lia.
  by rewrite drop_app_length.
Qed.

Lemma endswith_inv (s suffix : str) :
  endswith s suffix = true -> exists pre, s = pre ++ suffix.
Proof.
  unfold endswith. intros Heq%bool_decide_eq_true_1.
  exists (take (length s - length suffix) s).
  rewrite <- Heq at 2. by rewrite take_drop.
Qed.

(** A tag is a stargazers link exactly when it is an [a] whose [href]
    ends with [/stargazers]. *)
Lemma stargazers_link attrs :
  stargazers_href attrs = true <->
  exists pre, attrs !! py "href" = Some (pre ++ py "/stargazers").
Proof.
  unfold stargazers_href. split.
  - destruct (attrs !! py "href") as [x|]; [|done].
    intros [_ Hend]%andb_true_iff.
    destruct (endswith_inv _ _ Hend) as [pre ->]. by exists pre.
  - intros [pre ->]. rewrite endswith_app.
    by destruct pre.
Qed.

Lemma text_of_string name attrs s :
  text (Tag name attrs [NavigableString s]) = s.
Proof. unfold text. cbn. by rewrite app_nil_r. Qed.

End Extractor.

(** *** What the specification states about the extractor *)

(** C1. Every record [parse_trending] returns has a non-empty [name]; the
    output holds exactly the rows whose name resolves to a non-empty
    value, the others being absent, so that there are at most as many
    records as row elements. *)
Theorem parse_trending_names_resolved (env : Env) (html : str) (w : World) :
  let rows := select_rows (BeautifulSoup env html) in
  exists repo_list,
    fst (parse_trending env html w) = Return repo_list /\
    (forall r, r ∈ repo_list -> name r <> []) /\
    repo_list = omap emitted rows /\
    (forall repo,
        is_Some (emitted repo) <->
        (exists n, resolved_name repo = Some n /\ n <> [])) /\
    (length repo_list <= length rows)%nat.
Proof.
  intros rows. exists (omap emitted rows).
  rewrite parse_trending_spec. cbn [fst].
  split; [done|]. split.
  - intros r (repo & _ & Hr)%list_elem_of_omap. by eapply emitted_name.
  - split; [done|]. split; [apply emitted_iff_name|apply length_omap_le].
Qed.

(** C3. A row whose name resolves is emitted whatever else it lacks, each
    optional field falling back on its own default: a row with no [p]
    element gets an empty [description], a row with no [span] whose
    [itemprop] is [programmingLanguage] an empty [language], a row with no
    [a] whose [href] ends with [/stargazers] gets ["0"] for [stars].  A row
    that has such a link never gets the default: its [stars] is the text
    of the first such link, trimmed, with every comma taken out, so that a
    link reading ["160,000"] gives ["160000"]. *)
Theorem parse_trending_field_defaults (env : Env) (html : str) (w : World) :
  exists repo_list,
    fst (parse_trending env html w) = Return repo_list /\
    forall repo n,
      repo ∈ select_rows (BeautifulSoup env html) ->
      resolved_name repo = Some n -> n <> [] ->
      exists r,
        r ∈ repo_list /\ emitted repo = Some r /\ name r = n /\
        (child (py "p") repo = None -> description r = []) /\
        (find (py "span") programming_language repo = None ->
         language r = []) /\
        (find (py "a") stargazers_href repo = None -> stars r = py "0") /\
        (forall a,
            find (py "a") stargazers_href repo = Some a ->
            stars r = replace_char COMMA [] (strip (text a)) /\
            (COMMA ∉ stars r) /\
            (text a = py "160,000" -> stars r = py "160000")) /\
        ((forall d attrs cs,
             d ∈ descendants repo -> d <> Tag (py "p") attrs cs) ->
         description r = []) /\
        ((forall d attrs cs,
             d ∈ descendants repo -> d = Tag (py "span") attrs cs ->
             attrs !! py "itemprop" <> Some (py "programmingLanguage")) ->
         language r = []) /\
        ((forall d attrs cs pre,
             d ∈ descendants repo -> d = Tag (py "a") attrs cs ->
             attrs !! py "href" <> Some (pre ++ py "/stargazers")) ->
         stars r = py "0") /\
        (forall d attrs cs pre,
            d ∈ descendants repo -> d = Tag (py "a") attrs cs ->
            attrs !! py "href" = Some (pre ++ py "/stargazers") ->
            exists a,
              find (py "a") stargazers_href repo = Some a /\
              stars r = replace_char COMMA [] (strip (text a))) /\
        (forall attrs,
            find (py "a") stargazers_href repo
            = Some (Tag (py "a") attrs [NavigableString (py "160,000")]) ->
            stars r = py "160000").
Proof.
  exists (omap emitted (select_rows (BeautifulSoup env html))).
  rewrite parse_trending_spec. cbn [fst]. split; [done|].
  intros repo n Hin Hn Hne.
  destruct (proj2 (emitted_iff_name repo)) as [r Hr]; [by eauto|].
  exists r. split; [apply list_elem_of_omap; by eauto|]. split; [done|].
  revert Hr Hn. unfold emitted, resolved_name.
  destruct (child (py "h2") repo) as [h2|]; [|done].
  cbn zeta. destruct (truthy _); [|done].
  intros [= <-] [= <-]. cbn [name description language stars].
  split; [done|].
  split; [by intros ->|]. split; [by intros ->|]. split; [by intros ->|].
  split.
  { intros a ->. cbn [stars_of]. split; [done|].
    split; [apply replace_char_removes|]. intros ->. by vm_compute. }
  split.
  { intros Hnone. unfold child at 1. rewrite find_none_intro; [done|].
    intros [nm attrs cs| |] Hd; [|done|done].
    unfold matches. case_bool_decide as Hnm; [|done]. subst nm.
    by destruct (Hnone _ attrs cs Hd). }
  split.
  { intros Hnone. rewrite find_none_intro; [done|].
    intros [nm attrs cs| |] Hd; [|done|done].
    unfold matches. case_bool_decide as Hnm; [|done]. subst nm.
    unfold programming_language. cbn [andb].
    apply bool_decide_eq_false_2. by apply (Hnone _ attrs cs Hd). }
  split.
  { intros Hnone. rewrite find_none_intro; [done|].
    intros [nm attrs cs| |] Hd; [|done|done].
    unfold matches. case_bool_decide as Hnm; [|done]. subst nm.
    cbn [andb]. apply not_true_is_false.
    intros [pre Hhref]%stargazers_link.
    by apply (Hnone _ attrs cs pre Hd). }
  split.
  { intros d attrs cs pre Hd -> Hhref.
    destruct (find_some_intro (py "a") stargazers_href repo _ Hd) as [a Ha].
    { unfold matches. rewrite bool_decide_eq_true_2 by done. cbn [andb].
      apply stargazers_link. by exists pre. }
    exists a. split; [done|]. by rewrite Ha. }
  intros attrs ->. cbn [stars_of]. rewrite text_of_string. by vm_compute.
Qed.

Lemma parse_trending_field_defaults_witness :
  let bare := Sample.MALFORMED_ROW in
  let full := Sample.LINUX_ROW in
  let link := Sample.LINUX_LINK in
  (bare ∈ select_rows (BeautifulSoup (Sample.env_of Sample.MALFORMED_SOUP) []) /\
   resolved_name bare = Some (py "incomplete/repo") /\
   child (py "p") bare = None /\
   find (py "span") programming_language bare = None /\
   find (py "a") stargazers_href bare = None /\
   exists r,
     emitted bare = Some r /\
     description r = [] /\ language r = [] /\ stars r = py "0") /\
  (full ∈ select_rows (BeautifulSoup (Sample.env_of Sample.SAMPLE_SOUP) []) /\
   resolved_name full = Some (py "torvalds/linux") /\
   find (py "a") stargazers_href full = Some link /\
   text link = py "160,000" /\
   exists r repo_list,
     emitted full = Some r /\
     fst (parse_trending (Sample.env_of Sample.SAMPLE_SOUP) [] Sample.world0)
     = Return repo_list /\
     r ∈ repo_list /\
     description r = py "Linux kernel source tree" /\
     language r = py "C" /\ stars r = py "160000").
Proof.
  intros bare full link. split.
  - set (env := Sample.env_of Sample.MALFORMED_SOUP).
    assert (bare ∈ select_rows (BeautifulSoup env [])) as Hin.
    { replace (select_rows (BeautifulSoup env [])) with [bare]
        by (vm_compute; reflexivity).
      apply list_elem_of_here. }
    assert (resolved_name bare = Some (py "incomplete/repo")) as Hn
        by (vm_compute; reflexivity).
    assert (py "incomplete/repo" <> []) as Hne by (vm_compute; discriminate).
    assert (child (py "p") bare = None) as Hp by (vm_compute; reflexivity).
    assert (find (py "span") programming_language bare = None) as Hspan
        by (vm_compute; reflexivity).
    assert (find (py "a") stargazers_href bare = None) as Hlink
        by (vm_compute; reflexivity).
    split; [exact Hin|]. split; [exact Hn|]. split; [exact Hp|].
    split; [exact Hspan|]. split; [exact Hlink|].
    destruct (parse_trending_field_defaults env [] Sample.world0)
      as (repo_list & _ & Hrows).
    destruct (Hrows bare _ Hin Hn Hne)
      as (r & _ & Hr & _ & Hd & Hl & Hs & _).
    exists r. split; [exact Hr|].
    split; [exact (Hd Hp)|]. split; [exact (Hl Hspan)|exact (Hs Hlink)].
  - set (env := Sample.env_of Sample.SAMPLE_SOUP).
    assert (full ∈ select_rows (BeautifulSoup env [])) as Hin.
    { replace (select_rows (BeautifulSoup env []))
        with [full; Sample.VSCODE_ROW; Sample.NO_LANGUAGE_ROW]
        by (vm_compute; reflexivity).
      apply list_elem_of_here. }
    assert (resolved_name full = Some (py "torvalds/linux")) as Hn
        by (vm_compute; reflexivity).
    assert (py "torvalds/linux" <> []) as Hne by (vm_compute; discriminate).
    assert (find (py "a") stargazers_href full = Some link) as Hlink
        by (vm_compute; reflexivity).
    assert (text link = py "160,000") as Htext by (vm_compute; reflexivity).
    split; [exact Hin|]. split; [exact Hn|]. split; [exact Hlink|].
    split; [exact Htext|].
    destruct (parse_trending_field_defaults env [] Sample.world0)
      as (repo_list & Hrun & Hrows).
    destruct (Hrows full _ Hin Hn Hne)
      as (r & Hmem & Hr & _ & _ & _ & _ & Hstars & _).
    destruct (Hstars link Hlink) as (_ & _ & Hcomma).
    exists r, repo_list. split; [exact Hr|].
    split; [exact Hrun|]. split; [exact Hmem|].
    assert (emitted full
            = Some (Sample.rec "torvalds/linux" "Linux kernel source tree"
                               "C" "160000")) as Hfull
        by (vm_compute; reflexivity).
    rewrite Hr in Hfull. injection Hfull as ->.
    split; [reflexivity|]. split; [reflexivity|exact (Hcomma Htext)].
Defined.

(** Once the tree is built the loop cannot fail: a page without row
    elements gives the empty list, and when the body of the loop raises on
    one row, a warning is logged, that row contributes nothing and the
    rows before and after it are processed as usual. *)
Lemma parse_trending_isolates_rows (env : Env) (html : str) (w : World) :
  let rows := select_rows (BeautifulSoup env html) in
  exists repo_list w',
    parse_trending env html w = (Return repo_list, w') /\
    (rows = [] -> repo_list = []) /\
    (forall before repo after e,
        rows = before ++ repo :: after ->
        row_body repo (omap emitted before) = Raise e ->
        repo_list = omap emitted before ++ omap emitted after /\
        (WARNING, py "Error parsing repository: " ++ exn_msg e) ∈ log w').
Proof.
  intros rows. eexists _, _. split; [apply parse_trending_spec|].
  fold rows. split; [by intros ->|].
  intros before repo after e -> Hraise.
  rewrite omap_app. cbn [omap list_omap].
  rewrite (row_body_raises _ _ _ Hraise). split; [done|].
  cbn [add_log log]. rewrite flat_map_app. cbn [flat_map].
  assert (row_warning repo =
          [(WARNING, py "Error parsing repository: " ++ exn_msg e)]) as ->.
  { unfold row_warning. revert Hraise. rewrite !row_body_emitted.
    destruct (child (py "h2") repo); [done|]. by intros [= <-]. }
  rewrite !elem_of_app, list_elem_of_singleton. set_solver.
Qed.

(** C4, as the code has it.  [parse_trending] builds the tree outside the
    [try] of its loop, so it raises what the parser raises on markup the
    parser rejects, and changes nothing then.  On every markup the parser
    accepts it returns: a page without row elements gives the empty list;
    and when the body of the loop raises on one row, a warning is logged,
    that row contributes nothing and the rows before and after it are
    processed as usual. *)
Theorem parse_trending_returns_on_accepted_markup
        (h : Host.host) (env : Env) (html : str) (w : World) :
  let rows := select_rows (BeautifulSoup env html) in
  (forall e, Host.parser_error h html = Some e ->
             Host.parse_trending h env html w = (Raise e, w)) /\
  (Host.parser_error h html = None ->
   exists repo_list w',
     Host.parse_trending h env html w = (Return repo_list, w') /\
     (rows = [] -> repo_list = []) /\
     (forall before repo after e,
         rows = before ++ repo :: after ->
         row_body repo (omap emitted before) = Raise e ->
         repo_list = omap emitted before ++ omap emitted after /\
         (WARNING, py "Error parsing repository: " ++ exn_msg e) ∈ log w')).
Proof.
  intros rows. unfold Host.parse_trending. split.
  - by intros e ->.
  - intros ->. apply parse_trending_isolates_rows.
Qed.

Lemma parse_trending_returns_on_accepted_markup_witness :
  let env := Sample.env_of Sample.MIXED_SOUP in
  let e := Exn AttributeError (py "'NoneType' object has no attribute 'a'") in
  Host.parser_error Sample.strict_parser [] = None /\
  select_rows (BeautifulSoup env [])
  = [Sample.FIRST_ROW] ++ Sample.HEADLESS_ROW :: [Sample.THIRD_ROW] /\
  row_body Sample.HEADLESS_ROW (omap emitted [Sample.FIRST_ROW]) = Raise e /\
  (exists repo_list w',
      Host.parse_trending Sample.strict_parser env [] Sample.world0
      = (Return repo_list, w') /\
      repo_list = [Sample.rec "first/repo" "First" "" "1000";
                   Sample.rec "third/repo" "Third" "Coq" "2"] /\
      (WARNING, py "Error parsing repository: " ++ exn_msg e) ∈ log w') /\
  (select_rows (BeautifulSoup (Sample.env_of Sample.EMPTY_SOUP) []) = [] /\
   fst (Host.parse_trending Sample.strict_parser
          (Sample.env_of Sample.EMPTY_SOUP) [] Sample.world0) = Return []).
Proof.
  intros env e.
  assert (Host.parser_error Sample.strict_parser [] = None) as Hok
      by (vm_compute; reflexivity).
  assert (select_rows (BeautifulSoup env [])
          = [Sample.FIRST_ROW] ++ Sample.HEADLESS_ROW :: [Sample.THIRD_ROW])
    as Hrows by (vm_compute; reflexivity).
  assert (row_body Sample.HEADLESS_ROW (omap emitted [Sample.FIRST_ROW])
          = Raise e) as Hraise by (vm_compute; reflexivity).
  split; [exact Hok|]. split; [exact Hrows|]. split; [exact Hraise|]. split.
  - destruct (parse_trending_returns_on_accepted_markup
                Sample.strict_parser env [] Sample.world0) as [_ Hret].
    destruct (Hret Hok) as (repo_list & w' & Hrun & _ & Hskip).
    destruct (Hskip _ _ _ _ Hrows Hraise) as [Hlist Hlog].
    exists repo_list, w'. split; [exact Hrun|]. split; [|exact Hlog].
    rewrite Hlist. vm_compute. reflexivity.
  - assert (select_rows (BeautifulSoup (Sample.env_of Sample.EMPTY_SOUP) [])
            = []) as Hnone by (vm_compute; reflexivity).
    split; [exact Hnone|].
    destruct (parse_trending_returns_on_accepted_markup
                Sample.strict_parser (Sample.env_of Sample.EMPTY_SOUP) []
                Sample.world0) as [_ Hret].
    destruct (Hret Hok) as (repo_list & w' & Hrun & Hempty & _).
    rewrite Hrun. cbn [fst]. by rewrite (Hempty Hnone).
Defined.

(** C4, as stated, fails: the markup [<![x]>] is
    rejected by the parser, and the exception leaves [parse_trending]
    before the loop is reached. *)
Lemma parse_trending_raises_on_rejected_markup :
  Host.parse_trending Sample.strict_parser
    (Sample.env_of Sample.EMPTY_SOUP) Sample.REJECTED Sample.world0
  = (Raise Sample.rejected_markup, Sample.world0) /\
  ~ (forall (h : Host.host) (env : Env) (html : str) (w : World),
        exists repo_list,
          fst (Host.parse_trending h env html w) = Return repo_list).
Proof.
  assert (Host.parse_trending Sample.strict_parser
            (Sample.env_of Sample.EMPTY_SOUP) Sample.REJECTED Sample.world0
          = (Raise Sample.rejected_markup, Sample.world0)) as Hraise
      by (vm_compute; reflexivity).
  split; [exact Hraise|]. intros Htotal.
  destruct (Htotal Sample.strict_parser (Sample.env_of Sample.EMPTY_SOUP)
                   Sample.REJECTED Sample.world0) as [repo_list Hret].
  rewrite Hraise in Hret. discriminate.
Qed.

(** C9. The records come in the document order of their rows; on the
    sample page of the test suite, three rows of which the last has no
    language element, the result is the three records in that order, the
    third with an empty [language] and ["1234"] for [stars]. *)
Theorem parse_trending_document_order (env : Env) (html : str) (w : World) :
  fst (parse_trending env html w)
  = Return (omap emitted (select_rows (BeautifulSoup env html))) /\
  (BeautifulSoup env html = Sample.SAMPLE_SOUP ->
   length (select_rows (BeautifulSoup env html)) = 3%nat /\
   fst (parse_trending env html w)
   = Return [Sample.rec "torvalds/linux" "Linux kernel source tree"
                        "C" "160000";
             Sample.rec "microsoft/vscode" "Visual Studio Code"
                        "TypeScript" "120000";
             Sample.rec "example/no-language"
                        "Repository with no language specified" "" "1234"]).
Proof.
  rewrite parse_trending_spec. cbn [fst]. split; [done|].
  intros ->. split; by vm_compute.
Qed.

Lemma parse_trending_document_order_witness :
  let env := Sample.env_of Sample.SAMPLE_SOUP in
  BeautifulSoup env Sample.SAMPLE_HTML = Sample.SAMPLE_SOUP /\
  exists r1 r2 r3,
    fst (parse_trending env Sample.SAMPLE_HTML Sample.world0)
    = Return [r1; r2; r3] /\
    name r1 = py "torvalds/linux" /\ name r2 = py "microsoft/vscode" /\
    name r3 = py "example/no-language" /\
    language r3 = [] /\ stars r3 = py "1234".
Proof.
  intros env.
  assert (BeautifulSoup env Sample.SAMPLE_HTML = Sample.SAMPLE_SOUP) as Hsoup
    by reflexivity.
  split; [exact Hsoup|].
  destruct (parse_trending_document_order env Sample.SAMPLE_HTML Sample.world0)
    as [_ Hsample].
  destruct (Hsample Hsoup) as [_ Hrun].
  eexists _, _, _. split; [exact Hrun|].
  repeat split; vm_compute; reflexivity.
Defined.

(** ** Properties of [fetch_trending] *)

Section Fetcher.

Variable env : Env.

Lemma sent_sent n m w : sent n (sent m w) = sent (m + n) w.
Proof.
  unfold sent; cbn. by rewrite <- app_assoc, <- replicate_add.
Qed.

Lemma request_sent w : request TRENDING_URL w = (Return tt, sent 1 w).
Proof. reflexivity. Qed.

Lemma is_retry_transient total status has_retry_after body :
  is_retry (S total) status has_retry_after
  = transient (Response status has_retry_after body).
Proof. reflexivity. Qed.

Lemma is_retry_exhausted status has_retry_after :
  is_retry 0 status has_retry_after
  = bool_decide (status ∈ status_forcelist).
Proof. unfold is_retry. cbn. by rewrite orb_false_r. Qed.

Lemma forcelist_transient status has_retry_after body :
  status ∈ status_forcelist ->
  transient (Response status has_retry_after body) = true.
Proof. intros H. cbn. by rewrite (bool_decide_eq_true_2 _ H). Qed.

Lemma transient_not_forcelist status has_retry_after body :
  transient (Response status has_retry_after body) = false ->
  status ∉ status_forcelist.
Proof.
  intros H Hin. by rewrite (forcelist_transient _ _ _ Hin) in H.
Qed.

(** The retry loop: [n] requests are sent, at most one more than the
    retries allowed; all but the last were answered by a transient
    failure, and the last one was too when the retries ran out. *)
Lemma session_get_spec total k w :
  exists n r,
    session_get env total k w = (r, sent n w) /\
    (1 <= n <= S total)%nat /\
    (forall j, (S j < n)%nat -> transient (transport env (k + j)) = true) /\
    ((n <= total)%nat -> transient (transport env (k + n - 1)) = false) /\
    settles total n (transport env (k + n - 1)) r.
Proof.
  revert k w. induction total as [|total IH]; intros k w.
  - exists 1%nat. cbn [session_get]. unfold bind at 1.
    rewrite request_sent.
    replace (k + 1 - 1)%nat with k by lia.
    destruct (transport env k) as [s ra body|c] eqn:Hk.
    + rewrite is_retry_exhausted. case_bool_decide as Hs.
      * eexists. split; [reflexivity|]. repeat split; try lia.
        all: rewrite ?Hk; cbn; auto.
      * eexists. split; [reflexivity|]. repeat split; try lia.
        all: rewrite ?Hk; cbn; auto.
    + eexists. split; [reflexivity|]. repeat split; try lia.
      all: rewrite ?Hk; cbn; auto.
  - cbn [session_get]. unfold bind at 1. rewrite request_sent.
    assert (forall r0,
               transport env k = r0 -> transient r0 = true ->
               exists n r,
                 session_get env total (S k) (sent 1 w) = (r, sent n w) /\
                 (1 <= n <= S (S total))%nat /\
                 (forall j, (S j < n)%nat ->
                            transient (transport env (k + j)) = true) /\
                 ((n <= S total)%nat ->
                  transient (transport env (k + n - 1)) = false) /\
                 settles (S total) n (transport env (k + n - 1)) r)
      as Hretry.
    { intros r0 Hk Htr.
      destruct (IH (S k) (sent 1 w)) as (n & r & Hrun & Hn & Hbefore & Hlast & Hset).
      exists (S n), r. rewrite Hrun, sent_sent.
      replace (k + S n - 1)%nat with (S k + n - 1)%nat by lia.
      split; [done|]. split; [lia|]. split; [|split].
      - intros [|j] Hj.
        + by rewrite Nat.add_0_r, Hk.
        + replace (k + S j)%nat with (S k + j)%nat by lia.
          apply Hbefore. lia.
      - intros Hle. apply Hlast. lia.
      - revert Hset. unfold settles.
        destruct (transport env (S k + n - 1)), r; intuition lia. }
    destruct (transport env k) as [s ra body|c] eqn:Hk.
    + rewrite (is_retry_transient total s ra body).
      destruct (transient (Response s ra body)) eqn:Htr.
      * by apply (Hretry _ eq_refl).
      * exists 1%nat. eexists. split; [reflexivity|].
        replace (k + 1 - 1)%nat with k by lia. rewrite Hk.
        split; [lia|]. split; [intros j; lia|]. split; [done|].
        split; [done|]. by eapply transient_not_forcelist.
    + by apply (Hretry _ eq_refl).
Qed.



End Fetcher.




(** ** Properties of [save_data] *)

Section Store.

Variable env : Env.
Local Abbreviation today := (utc_today env).
Local Abbreviation path := (artifact (utc_today env)).

Lemma makedirs_present w :
  day_dir today ∈ dirs w -> makedirs env (day_dir today) w = (Return tt, w).
Proof.
  intros Hin. unfold makedirs. by rewrite (bool_decide_eq_true_2 _ Hin).
Qed.

Lemma prepared_has_dir w :
  directory_ready env w -> day_dir today ∈ dirs (prepared env w).
Proof.
  unfold directory_ready, prepared, makedirs.
  case_bool_decide as Hin; [done|].
  destruct (makedirs_fault env); [done|]. intros _. cbn. set_solver.
Qed.

Lemma prepared_run w :
  directory_ready env w ->
  makedirs env (day_dir today) w = (Return tt, prepared env w).
Proof.
  unfold directory_ready, prepared.
  destruct (makedirs env (day_dir today) w) as [r w1]. cbn. by intros ->.
Qed.

Lemma prepared_opened w : opened (prepared env w) = opened w.
Proof.
  unfold prepared, makedirs. case_bool_decide; [done|].
  destruct (makedirs_fault env); [|done].
  by destruct (makedirs_made_parent env).
Qed.

(** The artifact is there: the call says so and writes nothing. *)
Lemma save_data_skip data w :
  directory_ready env w ->
  exists_on_disk path (prepared env w) = true ->
  let msg := py "File " ++ path ++ py " already exists. Skipping save." in
  save_data env data w
  = (Return false, printed msg (logged INFO msg (prepared env w))).
Proof.
  intros Hready Hex. unfold save_data.
  unfold bind at 1. fold (day_dir today). rewrite (prepared_run _ Hready).
  unfold bind at 1, path_exists. fold (artifact today).
  by rewrite Hex.
Qed.

(** The artifact is not there: the write is attempted, and its fault, if
    any, decides the result. *)
Lemma save_data_write data w :
  directory_ready env w ->
  exists_on_disk path (prepared env w) = false ->
  let w1 := prepared env w in
  let saved := py "Successfully saved " ++ of_nat (length data)
               ++ py " repositories to " ++ path in
  let failed cause :=
    printed (py "Error saving data: " ++ cause)
    ∘ logged ERROR (py "Error saving data to " ++ path ++ py ": " ++ cause)
  in
  save_data env data w =
    match write env with
    | NoFault =>
        (Return true,
         printed saved (logged INFO saved
                               (set_file path (Json.dumps data) w1)))
    | OpenFails cause => (Return false, failed cause w1)
    | DumpFails written cause =>
        (Return false,
         failed cause (set_file path (take written (Json.dumps data)) w1))
    end.
Proof.
  intros Hready Hex. unfold save_data.
  unfold bind at 1. fold (day_dir today). rewrite (prepared_run _ Hready).
  unfold bind at 1, path_exists. fold (artifact today).
  rewrite Hex. unfold try_except, bind at 1, open_and_dump.
  by destruct (write env).
Qed.

Lemma exists_on_disk_set_file content w :
  exists_on_disk path (set_file path content w) = true.
Proof.
  unfold exists_on_disk, set_file. cbn. apply orb_true_iff. right.
  apply bool_decide_eq_true_2. rewrite lookup_insert_eq. by eexists.
Qed.

End Store.

(** Once the directory and the artifact of a day are there, every call for
    that day returns [False] and leaves the disk as it is. *)
Lemma save_each_skips (today : str) calls w :
  day_dir today ∈ dirs w ->
  exists_on_disk (artifact today) w = true ->
  Forall (fun c => utc_today (fst c) = today) calls ->
  Forall (fun r => r = Return false) (fst (save_each calls w)) /\
  length (fst (save_each calls w)) = length calls /\
  files (snd (save_each calls w)) = files w /\
  dirs (snd (save_each calls w)) = dirs w /\
  opened (snd (save_each calls w)) = opened w.
Proof.
  intros Hdir Hex Hcalls. revert w Hdir Hex.
  induction Hcalls as [|[env data] calls Hday _ IH]; intros w Hdir Hex.
  - cbn. by repeat split.
  - cbn [save_each]. cbn [fst] in Hday. subst today.
    assert (directory_ready env w) as Hready.
    { unfold directory_ready. by rewrite makedirs_present. }
    assert (prepared env w = w) as Hprep.
    { unfold prepared. by rewrite makedirs_present. }
    rewrite save_data_skip by (by rewrite ?Hprep).
    rewrite Hprep.
    set (w1 := printed _ _).
    destruct (IH w1) as (Hrs & Hlen & Hf & Hd & Ho); [done|done|].
    destruct (save_each calls w1) as [rs w2]. cbn [fst snd] in *.
    split; [by constructor|]. split; [cbn; by rewrite Hlen|].
    by rewrite Hf, Hd, Ho.
Qed.

Lemma save_data_true_inv (env : Env) data w :
  fst (save_data env data w) = Return true ->
  directory_ready env w /\
  exists_on_disk (artifact (utc_today env)) (prepared env w) = false /\
  write env = NoFault.
Proof.
  intros Htrue.
  assert (directory_ready env w) as Hready.
  { revert Htrue. unfold save_data, directory_ready. unfold bind at 1.
    fold (day_dir (utc_today env)).
    by destruct (makedirs env (day_dir (utc_today env)) w) as [[[]|e] w1]. }
  split; [done|].
  destruct (exists_on_disk (artifact (utc_today env)) (prepared env w)) eqn:Hex.
  { by rewrite save_data_skip in Htrue. }
  split; [done|]. rewrite save_data_write in Htrue by done.
  by destruct (write env).
Qed.

Lemma save_data_returns_inv (env : Env) data w b :
  fst (save_data env data w) = Return b -> directory_ready env w.
Proof.
  unfold save_data, directory_ready. unfold bind at 1.
  fold (day_dir (utc_today env)).
  by destruct (makedirs env (day_dir (utc_today env)) w) as [[[]|e] w1].
Qed.

(** *** What the specification states about the snapshot store *)

(** C2, as amended.  When the first of two calls on the same UTC date
    returns and leaves the artifact on disk (it opened the file, or found
    it there), the second call, whatever its data, observes the artifact,
    returns [False] and writes nothing, so the content is the one the
    first call left: the snapshot of the first call when that call
    returned [True].  Over the two calls the artifact is opened for
    writing exactly once when it was not there before, never twice. *)
Theorem save_data_twice_writes_once
        (env1 env2 : Env) (data1 data2 : list RepositoryRecord) (w : World) :
  let path := artifact (utc_today env1) in
  let w1 := snd (save_data env1 data1 w) in
  let w2 := snd (save_data env2 data2 w1) in
  utc_today env1 = utc_today env2 ->
  (exists b, fst (save_data env1 data1 w) = Return b) ->
  exists_on_disk path w1 = true ->
  fst (save_data env2 data2 w1) = Return false /\
  files w2 = files w1 /\
  opened w2 = opened w1 /\
  (fst (save_data env1 data1 w) = Return true ->
   files w2 !! path = Some (Json.dumps data1)) /\
  (exists_on_disk path (prepared env1 w) = false ->
   writes_to path w2 = S (writes_to path w)) /\
  (writes_to path w2 <= S (writes_to path w))%nat.
Proof.
  intros path w1 w2 Hday [b Hret] Hleft.
  pose proof (save_data_returns_inv _ _ _ _ Hret) as Hready.
  assert (dirs w1 = dirs (prepared env1 w) /\
          (exists_on_disk path (prepared env1 w) = true ->
           opened w1 = opened w) /\
          (exists_on_disk path (prepared env1 w) = false ->
           opened w1 = opened w ++ [path])) as (Hdirs & Hold & Hnew).
  { unfold w1.
    destruct (exists_on_disk path (prepared env1 w)) eqn:Hex.
    - rewrite save_data_skip by done. cbn.
      split; [done|]. split; [|done]. intros _. apply prepared_opened.
    - revert Hleft. unfold w1. rewrite save_data_write by done. cbn zeta.
      destruct (write env1) as [|cause|n cause]; cbn [snd];
        intros Hleft; (split; [done|]); (split; [done|]); intros _.
      + cbn. by rewrite prepared_opened.
      + change (exists_on_disk path (prepared env1 w) = true) in Hleft.
        congruence.
      + cbn. by rewrite prepared_opened. }
  assert (day_dir (utc_today env1) ∈ dirs w1) as Hdir.
  { rewrite Hdirs. by apply prepared_has_dir. }
  destruct (save_each_skips (utc_today env1) [(env2, data2)] w1)
    as (Hrs & _ & Hf & _ & Ho); [done|done|by constructor|].
  cbn [save_each fst snd] in Hrs, Hf, Ho. fold w2 in Hf, Ho.
  destruct (save_data env2 data2 w1) as [r2 w2'] eqn:Hrun2.
  cbn [fst snd] in *. subst w2.
  apply Forall_cons in Hrs as [-> _].
  split; [done|]. split; [done|]. split; [done|]. split; [|split].
  - intros Htrue. rewrite Hf.
    destruct (save_data_true_inv _ _ _ Htrue) as (_ & Hex & Hwrite).
    unfold w1. rewrite save_data_write by done. rewrite Hwrite.
    cbn. by rewrite lookup_insert_eq.
  - intros Hex. unfold writes_to. rewrite Ho, (Hnew Hex).
    rewrite List.filter_app, length_app. cbn [List.filter].
    rewrite bool_decide_eq_true_2 by done. cbn [length]. lia.
  - unfold writes_to. rewrite Ho.
    destruct (exists_on_disk path (prepared env1 w)) eqn:Hex.
    + rewrite (Hold eq_refl). lia.
    + rewrite (Hnew eq_refl), List.filter_app, length_app. cbn [List.filter].
      rewrite bool_decide_eq_true_2 by done. cbn [length]. lia.
Qed.

Lemma save_data_twice_writes_once_witness :
  let env := Sample.env_io NoFault in
  let path := artifact (utc_today env) in
  let w1 := snd (save_data env Sample.linux Sample.world0) in
  let w2 := snd (save_data env Sample.vscode w1) in
  utc_today env = utc_today env /\
  (exists b, fst (save_data env Sample.linux Sample.world0) = Return b) /\
  exists_on_disk path w1 = true /\
  fst (save_data env Sample.vscode w1) = Return false /\
  files w2 !! path = Some (Json.dumps Sample.linux) /\
  writes_to path w2 = 1%nat.
Proof.
  intros env path w1 w2.
  assert (fst (save_data env Sample.linux Sample.world0) = Return true)
    as Htrue by (vm_compute; reflexivity).
  assert (exists b, fst (save_data env Sample.linux Sample.world0) = Return b)
    as Hret by (exists true; exact Htrue).
  assert (exists_on_disk path w1 = true) as Hleft
      by (vm_compute; reflexivity).
  assert (exists_on_disk path (prepared env Sample.world0) = false) as Hex
      by (vm_compute; reflexivity).
  split; [reflexivity|]. split; [exact Hret|]. split; [exact Hleft|].
  destruct (save_data_twice_writes_once env env Sample.linux Sample.vscode
              Sample.world0 eq_refl Hret Hleft)
    as (Hfalse & _ & _ & Hcontent & Hn & _).
  split; [exact Hfalse|]. split; [exact (Hcontent Htrue)|exact (Hn Hex)].
Defined.

(** C2, as stated, fails: when [open] is refused in the first call, no
    artifact is left, and a second call on the same date writes its own
    data and returns [True]. *)
Lemma save_data_second_call_writes :
  let first := Sample.env_io Sample.refused in
  let second := Sample.env_io NoFault in
  let path := artifact (utc_today first) in
  let w1 := snd (save_data first Sample.linux Sample.world0) in
  let w2 := snd (save_data second Sample.vscode w1) in
  utc_today first = utc_today second /\
  fst (save_data first Sample.linux Sample.world0) = Return false /\
  files w1 !! path = None /\
  fst (save_data second Sample.vscode w1) = Return true /\
  files w2 !! path = Some (Json.dumps Sample.vscode) /\
  opened w2 = [path].
Proof.
  cbn zeta. repeat split; vm_compute; reflexivity.
Qed.

(** C6. When the write of the snapshot fails, in [open] or while the text
    is written, [save_data] does not raise: it returns [False], its last
    log entry is the error with the cause, and the same cause is
    printed. *)
Theorem save_data_write_failure_caught
        (env : Env) (data : list RepositoryRecord) (w : World) (cause : str) :
  directory_ready env w ->
  exists_on_disk (artifact (utc_today env)) (prepared env w) = false ->
  (write env = OpenFails cause \/ exists n, write env = DumpFails n cause) ->
  exists w',
    save_data env data w = (Return false, w') /\
    last (log w')
    = Some (ERROR, py "Error saving data to " ++ artifact (utc_today env)
                   ++ py ": " ++ cause) /\
    last (stdout w') = Some (py "Error saving data: " ++ cause).
Proof.
  intros Hready Hex Hfault. rewrite save_data_write by done. cbn zeta.
  destruct Hfault as [->|[n ->]]; eexists; (split; [reflexivity|]);
    cbn; by rewrite !last_snoc.
Qed.

Lemma save_data_write_failure_caught_witness :
  let env := Sample.env_io Sample.disk_full in
  let cause := py "No space left on device" in
  directory_ready env Sample.world0 /\
  exists_on_disk (artifact (utc_today env)) (prepared env Sample.world0)
  = false /\
  (write env = OpenFails cause \/ exists n, write env = DumpFails n cause) /\
  fst (save_data env Sample.linux Sample.world0) = Return false /\
  last (log (snd (save_data env Sample.linux Sample.world0)))
  = Some (ERROR,
          py "Error saving data to data/2024-01-01/trending.json: No space left on device").
Proof.
  intros env cause.
  assert (directory_ready env Sample.world0) as Hready
      by (vm_compute; reflexivity).
  assert (exists_on_disk (artifact (utc_today env))
                         (prepared env Sample.world0) = false) as Hex
      by (vm_compute; reflexivity).
  assert (write env = OpenFails cause \/
          exists n, write env = DumpFails n cause) as Hfault
      by (right; exists 5%nat; reflexivity).
  split; [exact Hready|]. split; [exact Hex|]. split; [exact Hfault|].
  destruct (save_data_write_failure_caught env Sample.linux Sample.world0
              cause Hready Hex Hfault) as (w' & Hrun & Hlog & _).
  rewrite Hrun. cbn [fst snd]. split; [reflexivity|].
  rewrite Hlog. vm_compute. reflexivity.
Defined.

(** C10. [save_data] is not atomic.  When the file has been opened and
    the write fails after [n] characters, the call returns [False] and
    leaves the artifact on disk with the first [n] characters of the
    snapshot, an incomplete text when [n] is less than its length; from
    then on every call for the same UTC date returns [False] and writes
    nothing, so the artifact stays as the failure left it. *)
Theorem save_data_failed_write_blocks_day
        (env : Env) (data : list RepositoryRecord) (w : World)
        (n : nat) (cause : str) :
  directory_ready env w ->
  exists_on_disk (artifact (utc_today env)) (prepared env w) = false ->
  write env = DumpFails n cause ->
  let today := utc_today env in
  let text := Json.dumps data in
  let w1 := snd (save_data env data w) in
  fst (save_data env data w) = Return false /\
  files w1 !! artifact today = Some (take n text) /\
  take n text `prefix_of` text /\
  ((n < length text)%nat -> take n text <> text) /\
  forall calls,
    Forall (fun c => utc_today (fst c) = today) calls ->
    Forall (fun r => r = Return false) (fst (save_each calls w1)) /\
    length (fst (save_each calls w1)) = length calls /\
    files (snd (save_each calls w1)) = files w1 /\
    opened (snd (save_each calls w1)) = opened w1.
Proof.
  intros Hready Hex Hfault today text w1.
  assert (save_data env data w
          = (Return false,
             printed (py "Error saving data: " ++ cause)
               (logged ERROR
                  (py "Error saving data to " ++ artifact today ++ py ": "
                   ++ cause)
                  (set_file (artifact today) (take n text) (prepared env w)))))
    as Hrun.
  { rewrite save_data_write by done. by rewrite Hfault. }
  unfold w1. rewrite Hrun. cbn [fst snd].
  split; [done|]. split; [cbn; by rewrite lookup_insert_eq|].
  split; [apply prefix_take|]. split.
  - intros Hlt Heq. apply (f_equal length) in Heq.
    rewrite length_take in Heq. lia.
  - intros calls Hcalls.
    destruct (save_each_skips today calls
                (printed (py "Error saving data: " ++ cause)
                   (logged ERROR
                      (py "Error saving data to " ++ artifact today
                       ++ py ": " ++ cause)
                      (set_file (artifact today) (take n text)
                                (prepared env w)))))
      as (Hrs & Hlen & Hf & _ & Ho); [| |done|done].
    + cbn. by apply prepared_has_dir.
    + apply (exists_on_disk_set_file env).
Qed.

Lemma save_data_failed_write_blocks_day_witness :
  let env := Sample.env_io Sample.disk_full in
  let later := Sample.env_io NoFault in
  let w1 := snd (save_data env Sample.linux Sample.world0) in
  let calls := [(later, Sample.linux); (later, Sample.vscode)] in
  directory_ready env Sample.world0 /\
  exists_on_disk (artifact (utc_today env)) (prepared env Sample.world0)
  = false /\
  write env = DumpFails 5 (py "No space left on device") /\
  Forall (fun c => utc_today (fst c) = utc_today env) calls /\
  fst (save_data env Sample.linux Sample.world0) = Return false /\
  files w1 !! artifact (utc_today env) = Some (py "[" ++ [10] ++ py "  {") /\
  fst (save_each calls w1) = [Return false; Return false] /\
  files (snd (save_each calls w1)) = files w1.
Proof.
  intros env later w1 calls.
  assert (directory_ready env Sample.world0) as Hready
      by (vm_compute; reflexivity).
  assert (exists_on_disk (artifact (utc_today env))
                         (prepared env Sample.world0) = false) as Hex
      by (vm_compute; reflexivity).
  assert (write env = DumpFails 5 (py "No space left on device")) as Hfault
      by reflexivity.
  assert (Forall (fun c => utc_today (fst c) = utc_today env) calls) as Hcalls
      by (repeat constructor).
  split; [exact Hready|]. split; [exact Hex|]. split; [exact Hfault|].
  split; [exact Hcalls|].
  destruct (save_data_failed_write_blocks_day env Sample.linux Sample.world0
              _ _ Hready Hex Hfault) as (Hfalse & Hcontent & _ & _ & Hlater).
  destruct (Hlater calls Hcalls) as (Hrs & Hlen & Hf & _).
  split; [exact Hfalse|]. split; [exact Hcontent|]. split; [|exact Hf].
  fold w1 in Hrs, Hlen.
  destruct (fst (save_each calls w1)) as [|r1 [|r2 [|r3 rs]]];
    try discriminate Hlen.
  apply Forall_cons in Hrs as [-> Hrs].
  apply Forall_cons in Hrs as [-> _]. reflexivity.
Defined.

(** ** Properties of [can_fetch] and [main] *)

Lemma can_fetch_run (env : Env) (url user_agent : str) (w : World) :
  can_fetch env url user_agent w =
    match robots env user_agent url with
    | Return b => (Return b, snd (request ROBOTS_URL w))
    | Raise e =>
        (Return true,
         logged WARNING (py "Could not check robots.txt: " ++ exn_msg e)
                (snd (request ROBOTS_URL w)))
    end.
Proof.
  unfold can_fetch, try_except, bind, lift. cbn.
  by destruct (robots env user_agent url).
Qed.

(** C7.  What [can_fetch] returns for each way the request for robots.txt
    can end.  When the request or the decoding of the body raises,
    [can_fetch] fails open: it returns [True] and logs a warning with the
    cause.  When the server answers with an error status, nothing is
    raised inside [RobotFileParser], so the [except] clause is not
    entered and no warning is logged: 401, 403 and every status outside
    400..499, 503 among them, make [can_fetch] return [False], although
    robots.txt could not be read; the other statuses from 400 to 499 make
    it return [True].  When a body is read the rules decide, without a
    warning. *)
Theorem can_fetch_by_answer
        (env : Env) (allows : str -> str -> str -> bool)
        (answer : robots_txt) (url user_agent : str) (w : World) :
  robots env user_agent url = RobotFileParser allows answer user_agent url ->
  let r := fst (can_fetch env url user_agent w) in
  let w' := snd (can_fetch env url user_agent w) in
  wire w' = wire w ++ [ROBOTS_URL] /\
  match answer with
  | Unreachable e | Undecodable e =>
      r = Return true /\
      log w' = log w ++ [(WARNING,
                          py "Could not check robots.txt: " ++ exn_msg e)]
  | ErrorStatus code =>
      log w' = log w /\
      (code = 401%Z \/ code = 403%Z \/ ~ (400 <= code < 500)%Z ->
       r = Return false) /\
      ((400 <= code < 500)%Z -> code <> 401%Z -> code <> 403%Z ->
       r = Return true)
  | Rules text =>
      r = Return (allows text user_agent url) /\ log w' = log w
  end.
Proof.
  intros Hrobots. cbn zeta. rewrite can_fetch_run, Hrobots.
  destruct answer as [e|code|e|text]; cbn [RobotFileParser fst snd].
  - split; [done|]. split; done.
  - assert (code ∈ [401; 403]%Z <-> code = 401%Z \/ code = 403%Z) as Hin.
    { rewrite !elem_of_cons, elem_of_nil. tauto. }
    case_bool_decide as Hforbidden.
    + cbn [fst snd]. split; [done|]. split; [done|].
      split; [done|]. intros _ H1 H3. apply Hin in Hforbidden. tauto.
    + destruct ((400 <=? code) && (code <? 500))%Z eqn:Hrange;
        cbn [fst snd]; (split; [done|]); (split; [done|]).
      * apply andb_true_iff in Hrange as [?%Z.leb_le ?%Z.ltb_lt].
        split; [|done]. intros [?|[?|?]]; [tauto|tauto|lia].
      * split; [done|]. intros [? ?].
        apply andb_false_iff in Hrange as [?%Z.leb_gt|?%Z.ltb_ge]; lia.
  - split; [done|]. split; done.
  - split; [done|]. split; done.
Qed.

Lemma can_fetch_by_answer_witness :
  let down := Sample.env_robots_txt Sample.server_down in
  let lost := Sample.env_robots_txt (Unreachable Sample.dns_failure) in
  (robots down USER_AGENT TRENDING_URL
   = RobotFileParser (fun _ _ _ => true) Sample.server_down
                     USER_AGENT TRENDING_URL /\
   fst (can_fetch down TRENDING_URL USER_AGENT Sample.world0) = Return false /\
   log (snd (can_fetch down TRENDING_URL USER_AGENT Sample.world0)) = []) /\
  (robots lost USER_AGENT TRENDING_URL
   = RobotFileParser (fun _ _ _ => true) (Unreachable Sample.dns_failure)
                     USER_AGENT TRENDING_URL /\
   fst (can_fetch lost TRENDING_URL USER_AGENT Sample.world0) = Return true /\
   log (snd (can_fetch lost TRENDING_URL USER_AGENT Sample.world0))
   = [(WARNING, py "Could not check robots.txt: "
                ++ exn_msg Sample.dns_failure)]).
Proof.
  intros down lost. split.
  - assert (robots down USER_AGENT TRENDING_URL
            = RobotFileParser (fun _ _ _ => true) Sample.server_down
                              USER_AGENT TRENDING_URL) as Hrobots
        by reflexivity.
    split; [exact Hrobots|].
    destruct (can_fetch_by_answer down _ Sample.server_down TRENDING_URL
                USER_AGENT Sample.world0 Hrobots) as (_ & Hlog & Hdeny & _).
    split; [|exact Hlog]. apply Hdeny. right. right. lia.
  - assert (robots lost USER_AGENT TRENDING_URL
            = RobotFileParser (fun _ _ _ => true)
                              (Unreachable Sample.dns_failure)
                              USER_AGENT TRENDING_URL) as Hrobots
        by reflexivity.
    split; [exact Hrobots|].
    destruct (can_fetch_by_answer lost _ (Unreachable Sample.dns_failure)
                TRENDING_URL USER_AGENT Sample.world0 Hrobots)
      as (_ & Hret & Hlog).
    split; [exact Hret|exact Hlog].
Defined.

Lemma try_finally_run {A} (m : M A) (l : level) (msg line : str) (w : World) :
  try_finally m (logging l msg;; print line) w
  = (fst (m w), printed line (logged l msg (snd (m w)))).
Proof. unfold try_finally. by destruct (m w) as [r w1]. Qed.

(** A [try] whose handlers return always returns. *)
Lemma try_except_unit (m : M unit) (h : exn -> M unit) (w : World) :
  (forall e w1, exists w2, h e w1 = (Return tt, w2)) ->
  exists w', try_except m h w = (Return tt, w').
Proof.
  intros Hh. unfold try_except. destruct (m w) as [[[]|e] w1]; [by eexists|].
  apply Hh.
Qed.

(** [main] is its [try] block run after the two opening messages and
    followed by the two closing ones. *)
Lemma main_run (env : Env) (w : World) :
  let w0 := printed (py "Starting GitHub trending scraper...")
              (logged INFO (py "Starting GitHub trending scraper") w) in
  main env w
  = (fst (try_except (scrape env) report w0),
     printed (py "Scraper finished.")
       (logged INFO (py "Scraper finished")
               (snd (try_except (scrape env) report w0)))).
Proof.
  cbn zeta. unfold main. unfold bind at 1 2. cbn [logging print].
  by rewrite try_finally_run.
Qed.

(** After a denial the block ends with the warning. *)
Lemma scrape_denied (env : Env) (w : World) :
  robots env USER_AGENT TRENDING_URL = Return false ->
  scrape env w
  = (Return tt,
     printed (CROSS ++ py "Scraping not allowed by robots.txt")
       (logged WARNING (py "Scraping not allowed by robots.txt")
               (snd (request ROBOTS_URL w)))).
Proof.
  intros Hdeny. unfold scrape. unfold bind at 1.
  by rewrite can_fetch_run, Hdeny.
Qed.

Lemma report_returns (e : exn) (w : World) :
  exists w', report e w = (Return tt, w').
Proof.
  unfold report. destruct (is_RequestException (exn_cls e)); by eexists.
Qed.


(** ** Further properties of [parse_trending] *)

Section Stripping.

Variable p : N -> bool.

Lemma lstrip_with_split s :
  exists pre, s = pre ++ lstrip_with p s /\ Forall (fun c => p c = true) pre.
Proof.
  induction s as [|c s (pre & Hs & Hpre)]; cbn [lstrip_with].
  - by exists [].
  - destruct (p c) eqn:Hc.
    + exists (c :: pre). split; [cbn; congruence|by constructor].
    + by exists [].
Qed.

Lemma lstrip_with_head s c t : lstrip_with p s = c :: t -> p c = false.
Proof.
  induction s as [|c' s IH]; cbn [lstrip_with]; [done|].
  destruct (p c') eqn:Hc; [done|]. by intros [= <- _].
Qed.

Lemma rstrip_with_split s :
  exists post,
    s = rstrip_with p s ++ post /\ Forall (fun c => p c = true) post.
Proof.
  unfold rstrip_with.
  destruct (lstrip_with_split (rev s)) as (pre & Hs & Hpre).
  exists (rev pre). split.
  - rewrite <- rev_app_distr, <- Hs. by rewrite rev_involutive.
  - by apply Forall_rev.
Qed.

Lemma rstrip_with_last s c t : rstrip_with p s = t ++ [c] -> p c = false.
Proof.
  unfold rstrip_with. intros H. apply (f_equal (@rev N)) in H.
  rewrite rev_involutive, rev_app_distr in H. cbn in H.
  by eapply lstrip_with_head.
Qed.

(** Stripping takes characters of [p] from both ends, as many as there
    are, and nothing else. *)
Lemma strip_with_split s :
  exists pre post,
    s = pre ++ strip_with p s ++ post /\
    Forall (fun c => p c = true) pre /\ Forall (fun c => p c = true) post.
Proof.
  unfold strip_with.
  destruct (lstrip_with_split s) as (pre & Hs & Hpre).
  destruct (rstrip_with_split (lstrip_with p s)) as (post & Ht & Hpost).
  exists pre, post. split; [|done]. by rewrite <- Ht.
Qed.

Lemma strip_with_head s c t : strip_with p s = c :: t -> p c = false.
Proof.
  unfold strip_with. intros H.
  destruct (rstrip_with_split (lstrip_with p s)) as (post & Ht & _).
  rewrite H in Ht. by eapply lstrip_with_head.
Qed.

Lemma strip_with_last s c t : strip_with p s = t ++ [c] -> p c = false.
Proof. unfold strip_with. apply rstrip_with_last. Qed.

End Stripping.

Lemma mem_slash c : mem c (py "/") = true <-> c = SLASH.
Proof.
  unfold mem. cbn. rewrite orb_false_r. apply N.eqb_eq.
Qed.

Lemma emitted_row repo r :
  emitted repo = Some r ->
  exists h2 a,
    child (py "h2") repo = Some h2 /\ child (py "a") h2 = Some a /\
    r = mkRecord (strip_chars (py "/") (get a (py "href") []))
                 (desc_of (child (py "p") repo))
                 (lang_of (find (py "span") programming_language repo))
                 (stars_of (find (py "a") stargazers_href repo)).
Proof.
  unfold emitted. destruct (child (py "h2") repo) as [h2|]; [|done].
  cbn zeta. destruct (child (py "a") h2) as [a|] eqn:Ha;
    cbn [name_of truthy]; [|done].
  destruct (truthy _); [|done]. intros [= <-].
  exists h2, a. by repeat split.
Qed.

Lemma parse_trending_returns env html w :
  fst (parse_trending env html w) = Return (records env html).
Proof. by rewrite parse_trending_spec. Qed.

(** X1. The name of a record is the [href] of the first link of the row's
    heading without its leading and trailing slashes: the slashes inside
    are kept, and the name neither starts nor ends with one. *)
Theorem parse_trending_name_is_stripped_href
        (env : Env) (html : str) (w : World) (r : RepositoryRecord) :
  fst (parse_trending env html w) = Return (records env html) /\
  (r ∈ records env html ->
   exists repo h2 a pre post,
     repo ∈ select_rows (BeautifulSoup env html) /\
     child (py "h2") repo = Some h2 /\ child (py "a") h2 = Some a /\
     get a (py "href") [] = pre ++ name r ++ post /\
     Forall (fun c => c = SLASH) pre /\ Forall (fun c => c = SLASH) post /\
     (forall s, name r <> SLASH :: s) /\
     (forall s, name r <> s ++ [SLASH])).
Proof.
  split; [apply parse_trending_returns|].
  intros (repo & Hin & Hr)%list_elem_of_omap.
  destruct (emitted_row _ _ Hr) as (h2 & a & Hh2 & Ha & ->).
  cbn [name]. unfold strip_chars.
  destruct (strip_with_split (fun c => mem c (py "/")) (get a (py "href") []))
    as (pre & post & Hsplit & Hpre & Hpost).
  exists repo, h2, a, pre, post.
  split; [done|]. split; [done|]. split; [done|]. split; [done|].
  split; [|split; [|split]].
  - eapply Forall_impl; [exact Hpre|]. intros c. apply mem_slash.
  - eapply Forall_impl; [exact Hpost|]. intros c. apply mem_slash.
  - intros s Hs. apply strip_with_head in Hs.
    by rewrite (proj2 (mem_slash SLASH)) in Hs.
  - intros s Hs. apply strip_with_last in Hs.
    by rewrite (proj2 (mem_slash SLASH)) in Hs.
Qed.

Lemma parse_trending_name_is_stripped_href_witness :
  let env := Sample.env_of Sample.SAMPLE_SOUP in
  let r := Sample.rec "torvalds/linux" "Linux kernel source tree"
                      "C" "160000" in
  r ∈ records env Sample.SAMPLE_HTML /\
  exists a pre post,
    get a (py "href") [] = pre ++ py "torvalds/linux" ++ post /\
    Forall (fun c => c = SLASH) pre /\ Forall (fun c => c = SLASH) post.
Proof.
  intros env r.
  assert (r ∈ records env Sample.SAMPLE_HTML) as Hin.
  { replace (records env Sample.SAMPLE_HTML)
      with [r; Sample.rec "microsoft/vscode" "Visual Studio Code"
                          "TypeScript" "120000";
            Sample.rec "example/no-language"
                       "Repository with no language specified" "" "1234"]
      by (vm_compute; reflexivity).
    apply list_elem_of_here. }
  split; [exact Hin|].
  destruct (parse_trending_name_is_stripped_href env Sample.SAMPLE_HTML
              Sample.world0 r) as [_ Hname].
  destruct (Hname Hin)
    as (_ & _ & a & pre & post & _ & _ & _ & Hhref & Hpre & Hpost & _).
  exists a, pre, post. split; [exact Hhref|]. split; [exact Hpre|exact Hpost].
Defined.

(** X2. The [description] and the [language] of a record neither start
    nor end with a whitespace character. *)
Theorem parse_trending_fields_trimmed
        (env : Env) (html : str) (w : World) (r : RepositoryRecord) :
  fst (parse_trending env html w) = Return (records env html) /\
  (r ∈ records env html ->
   (forall c s, description r = c :: s -> isspace c = false) /\
   (forall c s, description r = s ++ [c] -> isspace c = false) /\
   (forall c s, language r = c :: s -> isspace c = false) /\
   (forall c s, language r = s ++ [c] -> isspace c = false)).
Proof.
  split; [apply parse_trending_returns|].
  intros (repo & _ & Hr)%list_elem_of_omap.
  destruct (emitted_row _ _ Hr) as (h2 & a & _ & _ & ->).
  cbn [description language]. unfold desc_of, lang_of, strip.
  destruct (child (py "p") repo) as [p|];
    destruct (find (py "span") programming_language repo) as [l|];
    repeat split; intros c s Hs;
    first [ exact (strip_with_head _ _ _ _ Hs)
          | exact (strip_with_last _ _ _ _ Hs)
          | discriminate Hs
          | by destruct s ].
Qed.

Lemma parse_trending_fields_trimmed_witness :
  let env := Sample.env_of Sample.SAMPLE_SOUP in
  let r := Sample.rec "torvalds/linux" "Linux kernel source tree"
                      "C" "160000" in
  r ∈ records env Sample.SAMPLE_HTML /\
  isspace 76 = false /\ isspace 67 = false.
Proof.
  intros env r.
  assert (r ∈ records env Sample.SAMPLE_HTML) as Hin.
  { replace (records env Sample.SAMPLE_HTML)
      with [r; Sample.rec "microsoft/vscode" "Visual Studio Code"
                          "TypeScript" "120000";
            Sample.rec "example/no-language"
                       "Repository with no language specified" "" "1234"]
      by (vm_compute; reflexivity).
    apply list_elem_of_here. }
  split; [exact Hin|].
  destruct (parse_trending_fields_trimmed env Sample.SAMPLE_HTML
              Sample.world0 r) as [_ Htrim].
  destruct (Htrim Hin) as (Hd & _ & Hl & _).
  split.
  - apply (Hd 76 (py "inux kernel source tree")). vm_compute. reflexivity.
  - apply (Hl 67 []). vm_compute. reflexivity.
Defined.

Lemma replace_char_digits s :
  Forall (fun c => isdigit c = true \/ c = COMMA) s ->
  Forall (fun c => isdigit c = true) (replace_char COMMA [] s).
Proof.
  unfold replace_char. induction 1 as [|c s Hc _ IH]; cbn [flat_map].
  - constructor.
  - destruct (N.eqb_spec c COMMA) as [->|Hne]; [done|].
    cbn. constructor; [|done]. by destruct Hc.
Qed.

(** X3. When the text of the stargazers link, stripped, is made of digits
    and commas, the [stars] of the row's record is made of digits only. *)
Theorem parse_trending_stars_digits
        (env : Env) (html : str) (w : World)
        (repo a : PageElement) (r : RepositoryRecord) :
  repo ∈ select_rows (BeautifulSoup env html) ->
  emitted repo = Some r ->
  find (py "a") stargazers_href repo = Some a ->
  Forall (fun c => isdigit c = true \/ c = COMMA) (strip (text a)) ->
  (exists repo_list,
      fst (parse_trending env html w) = Return repo_list /\ r ∈ repo_list) /\
  Forall (fun c => isdigit c = true) (stars r).
Proof.
  intros Hin Hr Ha Hdigits. split.
  - exists (records env html). split; [apply parse_trending_returns|].
    apply list_elem_of_omap. by exists repo.
  - destruct (emitted_row _ _ Hr) as (h2 & a' & _ & _ & ->).
    cbn [stars]. rewrite Ha. cbn [stars_of]. by apply replace_char_digits.
Qed.

Lemma parse_trending_stars_digits_witness :
  let env := Sample.env_of Sample.MIXED_SOUP in
  let repo := Sample.FIRST_ROW in
  exists a r,
    repo ∈ select_rows (BeautifulSoup env []) /\
    emitted repo = Some r /\
    find (py "a") stargazers_href repo = Some a /\
    Forall (fun c => isdigit c = true \/ c = COMMA) (strip (text a)) /\
    Forall (fun c => isdigit c = true) (stars r).
Proof.
  intros env repo.
  destruct (find (py "a") stargazers_href repo) as [a|] eqn:Ha;
    [|by vm_compute in Ha].
  destruct (emitted repo) as [r|] eqn:Hr; [|by vm_compute in Hr].
  assert (repo ∈ select_rows (BeautifulSoup env [])) as Hin.
  { replace (select_rows (BeautifulSoup env []))
      with [repo; Sample.HEADLESS_ROW; Sample.THIRD_ROW]
      by (vm_compute; reflexivity).
    apply list_elem_of_here. }
  assert (Forall (fun c => isdigit c = true \/ c = COMMA) (strip (text a)))
    as Hdigits.
  { vm_compute in Ha. injection Ha as <-. vm_compute.
    repeat (constructor; [first [left; reflexivity|right; reflexivity]|]).
    constructor. }
  exists a, r. split; [exact Hin|]. split; [reflexivity|].
  split; [reflexivity|]. split; [exact Hdigits|].
  exact (proj2 (parse_trending_stars_digits env [] Sample.world0 repo a r
                  Hin Hr Ha Hdigits)).
Defined.

Lemma row_warnings_count rows :
  flat_map row_warning rows
  = replicate (length (List.filter headless rows))
      (WARNING,
       py "Error parsing repository: 'NoneType' object has no attribute 'a'").
Proof.
  induction rows as [|repo rows IH]; [done|].
  cbn [flat_map List.filter]. rewrite IH.
  unfold row_warning, headless. rewrite row_body_emitted.
  by destruct (child (py "h2") repo).
Qed.

(** X4. [parse_trending] touches nothing but the log.  It logs the number
    of rows found, then one warning for each row that has no heading, then
    the number of records it returns. *)
Theorem parse_trending_only_logs (env : Env) (html : str) (w : World) :
  let rows := select_rows (BeautifulSoup env html) in
  let w' := snd (parse_trending env html w) in
  fst (parse_trending env html w) = Return (records env html) /\
  dirs w' = dirs w /\ files w' = files w /\ stdout w' = stdout w /\
  wire w' = wire w /\ opened w' = opened w /\
  log w' =
    log w
    ++ [(INFO, py "Found " ++ of_nat (length rows)
               ++ py " repositories on trending page")]
    ++ replicate (length (List.filter headless rows))
         (WARNING,
          py "Error parsing repository: 'NoneType' object has no attribute 'a'")
    ++ [(INFO, py "Successfully parsed "
               ++ of_nat (length (records env html)) ++ py " repositories")].
Proof.
  cbn zeta. rewrite parse_trending_spec. cbn [fst snd add_log dirs files
    stdout wire opened log].
  by rewrite row_warnings_count.
Qed.

Lemma row_kinds repo :
  (length (option_list (emitted repo))
   + (if headless repo then 1 else 0) + (if nameless repo then 1 else 0)
   = 1)%nat.
Proof.
  unfold emitted, headless, nameless, resolved_name.
  destruct (child (py "h2") repo) as [h2|]; [|done].
  cbn zeta. by destruct (name_of (child (py "a") h2)).
Qed.

(** X5. Every row is accounted for in exactly one way: it gives a record,
    or it has no heading (and is logged), or it has a heading but an empty
    name (and is dropped without a word). *)
Theorem parse_trending_accounts_for_rows
        (env : Env) (html : str) (w : World) :
  let rows := select_rows (BeautifulSoup env html) in
  exists repo_list,
    fst (parse_trending env html w) = Return repo_list /\
    length rows
    = (length repo_list + length (List.filter headless rows)
       + length (List.filter nameless rows))%nat.
Proof.
  cbn zeta. exists (records env html).
  split; [apply parse_trending_returns|]. unfold records.
  induction (select_rows (BeautifulSoup env html)) as [|repo rows IH];
    [done|].
  cbn [omap list_omap List.filter length].
  pose proof (row_kinds repo) as Hk.
  destruct (emitted repo), (headless repo), (nameless repo);
    cbn [length]; cbn in Hk; lia.
Qed.

(** ** Further properties of [fetch_trending] *)

(** [fetch_trending] in terms of the retry loop. *)
Lemma fetch_trending_run (env : Env) (w : World) :
  let w0 := add_log w [(INFO, py "Fetching trending page from "
                              ++ TRENDING_URL)] in
  fetch_trending env w =
    match session_get env MAX_RETRIES 0 w0 with
    | (Raise e, w1) => (Raise e, w1)
    | (Return response, w1) =>
        if ((400 <=? fst response) && (fst response <? 600))%Z
        then (Raise (Exn HTTPError
                         (of_Z (fst response) ++ py " Error for url: "
                          ++ TRENDING_URL)), w1)
        else (Return (snd response),
              add_log w1 [(INFO, py "Successfully fetched trending page")])
    end.
Proof.
  cbn zeta. unfold fetch_trending. unfold bind at 1.
  rewrite logging_add_log. unfold bind at 1.
  destruct (session_get env MAX_RETRIES 0 _) as [[response|e] w1]; [|done].
  unfold bind at 1, raise_for_status.
  by destruct ((400 <=? fst response) && (fst response <? 600))%Z.
Qed.


(** X6. A body that [fetch_trending] returns is the body of the last
    response received, whose status is not an error status (400 to 599);
    every request before it was answered by a transient failure, and the
    success message is the last log entry. *)
Theorem fetch_trending_returns_last_body
        (env : Env) (w : World) (body : str) :
  fst (fetch_trending env w) = Return body ->
  exists k status has_retry_after,
    (k <= MAX_RETRIES)%nat /\
    transport env k = Response status has_retry_after body /\
    ~ (400 <= status < 600)%Z /\
    (forall j, (j < k)%nat -> transient (transport env j) = true) /\
    wire (snd (fetch_trending env w))
    = wire w ++ replicate (S k) TRENDING_URL /\
    last (log (snd (fetch_trending env w)))
    = Some (INFO, py "Successfully fetched trending page").
Proof.
  rewrite fetch_trending_run. cbn zeta.
  set (w0 := add_log w _).
  destruct (session_get_spec env MAX_RETRIES 0 w0)
    as (n & r0 & Hrun & Hn & Hbefore & _ & Hset).
  cbn [Nat.add] in Hbefore, Hset. rewrite Hrun.
  destruct r0 as [[s body0]|e]; [|done]. cbn [fst snd].
  destruct ((400 <=? s) && (s <? 600))%Z eqn:Herr; [done|].
  cbn [fst snd]. intros [= ->].
  unfold settles in Hset.
  destruct (transport env (n - 1)) as [s' ra body'|c] eqn:Hlast; [|done].
  destruct Hset as [[= <- <-] _].
  exists (n - 1)%nat, s, ra. split; [lia|]. split; [done|].
  split; [apply andb_false_iff in Herr; lia|].
  split; [intros j Hj; apply Hbefore; lia|].
  replace (S (n - 1)) with n by lia. split; [done|].
  cbn. by rewrite last_snoc.
Qed.

Lemma fetch_trending_returns_last_body_witness :
  let env := Sample.env_net Sample.busy_then_ok in
  fst (fetch_trending env Sample.world0) = Return Sample.PAGE /\
  exists k status,
    (k <= MAX_RETRIES)%nat /\ ~ (400 <= status < 600)%Z /\
    wire (snd (fetch_trending env Sample.world0))
    = replicate (S k) TRENDING_URL.
Proof.
  intros env.
  assert (fst (fetch_trending env Sample.world0) = Return Sample.PAGE)
    as Hret by (vm_compute; reflexivity).
  split; [exact Hret|].
  destruct (fetch_trending_returns_last_body env Sample.world0 _ Hret)
    as (k & s & ra & Hk & _ & Hs & _ & Hwire & _).
  exists k, s. split; [exact Hk|]. split; [exact Hs|exact Hwire].
Defined.



Lemma session_get_ext (env1 env2 : Env) total k w :
  (forall j, (j <= total)%nat ->
             transport env1 (k + j) = transport env2 (k + j)) ->
  session_get env1 total k w = session_get env2 total k w.
Proof.
  revert k w. induction total as [|total IH]; intros k w Hsame;
    cbn [session_get]; unfold bind; rewrite !request_sent;
    pose proof (Hsame 0%nat (Nat.le_0_l _)) as H0;
    rewrite Nat.add_0_r in H0; rewrite <- H0; [done|].
  assert (session_get env1 total (S k) (sent 1 w)
          = session_get env2 total (S k) (sent 1 w)) as Hrec.
  { apply IH. intros j Hj.
    replace (S k + j)%nat with (k + S j)%nat by lia. apply Hsame. lia. }
  destruct (transport env1 k) as [s ra body|c]; [|done].
  by destruct (is_retry (S total) s ra).
Qed.

(** X8. [fetch_trending] never looks beyond the first [MAX_RETRIES + 1]
    answers of the transport: two transports that agree on them give the
    same result and the same world. *)
Theorem fetch_trending_bounded (env1 env2 : Env) (w : World) :
  (forall k, (k <= MAX_RETRIES)%nat -> transport env1 k = transport env2 k) ->
  fetch_trending env1 w = fetch_trending env2 w.
Proof.
  intros Hsame. rewrite !fetch_trending_run. cbn zeta.
  by rewrite (session_get_ext env1 env2).
Qed.

Lemma fetch_trending_bounded_witness :
  let env1 := Sample.env_net Sample.busy_then_ok in
  let env2 := Sample.env_net
                (fun k => if (k <? 4)%nat then Sample.busy_then_ok k
                          else ConnectionFailure []) in
  (forall k, (k <= MAX_RETRIES)%nat -> transport env1 k = transport env2 k) /\
  transport env1 4 <> transport env2 4 /\
  fetch_trending env1 Sample.world0 = fetch_trending env2 Sample.world0.
Proof.
  intros env1 env2.
  assert (forall k, (k <= MAX_RETRIES)%nat ->
                    transport env1 k = transport env2 k) as Hsame.
  { intros k Hk. unfold MAX_RETRIES in Hk. cbn.
    destruct k as [|[|[|[|k]]]]; try reflexivity. lia. }
  split; [exact Hsame|]. split; [discriminate|].
  exact (fetch_trending_bounded env1 env2 Sample.world0 Hsame).
Defined.

(** X9. [fetch_trending] touches neither the disk nor the console; to the
    log it adds the opening message and, exactly when it returns, the
    success message. *)
Theorem fetch_trending_only_logs_and_requests (env : Env) (w : World) :
  let w' := snd (fetch_trending env w) in
  dirs w' = dirs w /\ files w' = files w /\ stdout w' = stdout w /\
  opened w' = opened w /\
  log w' =
    log w
    ++ [(INFO, py "Fetching trending page from " ++ TRENDING_URL)]
    ++ match fst (fetch_trending env w) with
       | Return _ => [(INFO, py "Successfully fetched trending page")]
       | Raise _ => []
       end.
Proof.
  rewrite fetch_trending_run. cbn zeta.
  set (w0 := add_log w _).
  destruct (session_get_spec env MAX_RETRIES 0 w0)
    as (n & r0 & Hrun & _).
  rewrite Hrun. destruct r0 as [response|e]; cbn [fst snd].
  - destruct ((400 <=? fst response) && (fst response <? 600))%Z;
      cbn [fst snd]; repeat split; cbn; by rewrite <- ?app_assoc, ?app_nil_r.
  - by repeat split.
Qed.

(** ** Further properties of [save_data] *)

Lemma path_join_relative a b :
  (forall t, b <> SLASH :: t) ->
  path_join a b
  = if negb (truthy a) || endswith a (py "/") then a ++ b
    else a ++ py "/" ++ b.
Proof.
  intros Hb. unfold path_join. destruct b as [|c b]; [done|].
  destruct (N.eq_dec c SLASH) as [->|Hc]; [by destruct (Hb b)|].
  destruct c as [|p]; [done|].
  do 6 (try destruct p as [p|p|]); done.
Qed.

Lemma artifact_unfold today :
  artifact today
  = if negb (truthy (day_dir today)) || endswith (day_dir today) (py "/")
    then day_dir today ++ py "trending.json"
    else day_dir today ++ py "/" ++ py "trending.json".
Proof. reflexivity. Qed.

Lemma artifact_length today :
  (length (day_dir today) + 13 <= length (artifact today))%nat.
Proof.
  rewrite artifact_unfold.
  destruct (negb _ || _); rewrite !length_app; cbn; lia.
Qed.

Lemma artifact_no_directory today :
  artifact today ∉ ({[ py "data"; day_dir today ]} : gset str).
Proof.
  pose proof (artifact_length today) as Hlen.
  rewrite elem_of_union, !elem_of_singleton. intros [Heq|Heq].
  - rewrite Heq in Hlen. cbn in Hlen. lia.
  - rewrite Heq in Hlen. lia.
Qed.

(** Making the directory does not make the artifact. *)
Lemma exists_prepared (env : Env) (w : World) :
  exists_on_disk (artifact (utc_today env)) (prepared env w)
  = exists_on_disk (artifact (utc_today env)) w.
Proof.
  pose proof (artifact_no_directory (utc_today env)) as Hno.
  unfold prepared, makedirs. case_bool_decide as Hin; [done|].
  destruct (makedirs_fault env).
  - destruct (makedirs_made_parent env); [|done].
    unfold exists_on_disk, with_parent. cbn [snd dirs files]. f_equal.
    apply bool_decide_ext. rewrite elem_of_union, elem_of_singleton.
    rewrite elem_of_union, !elem_of_singleton in Hno. tauto.
  - unfold exists_on_disk. cbn [snd dirs files]. f_equal.
    apply bool_decide_ext. rewrite elem_of_union. tauto.
Qed.

Lemma save_data_no_directory (env : Env) data w cause :
  day_dir (utc_today env) ∉ dirs w ->
  makedirs_fault env = Some cause ->
  save_data env data w
  = (Raise (Exn OSError cause),
     if makedirs_made_parent env then with_parent w else w).
Proof.
  intros Hdir Hfault. unfold save_data. unfold bind at 1.
  fold (day_dir (utc_today env)). unfold makedirs.
  by rewrite (bool_decide_eq_false_2 _ Hdir), Hfault.
Qed.

Lemma directory_ready_dec (env : Env) (w : World) :
  directory_ready env w \/
  (exists cause,
      (day_dir (utc_today env) ∉ dirs w) /\ makedirs_fault env = Some cause).
Proof.
  unfold directory_ready, makedirs. case_bool_decide as Hin; [by left|].
  destruct (makedirs_fault env) as [cause|]; [|by left].
  right. by exists cause.
Qed.

Lemma directory_ready_intro (env : Env) (w : World) :
  day_dir (utc_today env) ∈ dirs w \/ makedirs_fault env = None ->
  directory_ready env w.
Proof.
  unfold directory_ready, makedirs. intros [Hin| ->].
  - by rewrite (bool_decide_eq_true_2 _ Hin).
  - by case_bool_decide.
Qed.

Lemma prepared_files' (env : Env) (w : World) :
  files (prepared env w) = files w.
Proof.
  unfold prepared, makedirs. case_bool_decide; [done|].
  destruct (makedirs_fault env); [|done].
  by destruct (makedirs_made_parent env).
Qed.

Lemma prepared_wire (env : Env) (w : World) :
  wire (prepared env w) = wire w.
Proof.
  unfold prepared, makedirs. case_bool_decide; [done|].
  destruct (makedirs_fault env); [|done].
  by destruct (makedirs_made_parent env).
Qed.

Lemma prepared_dirs (env : Env) (w : World) : dirs w ⊆ dirs (prepared env w).
Proof.
  unfold prepared, makedirs. case_bool_decide; [done|].
  destruct (makedirs_fault env).
  - destruct (makedirs_made_parent env); [|done]. cbn. set_solver.
  - cbn. set_solver.
Qed.

(** The day's directory is never [data] itself. *)
Lemma day_dir_not_data (today : str) : day_dir today <> py "data".
Proof.
  unfold day_dir. destruct today as [|c t]; [by vm_compute|].
  destruct (N.eq_dec c SLASH) as [->|Hc]; [by vm_compute|].
  rewrite path_join_relative by (intros t' [= ? _]; done).
  replace (negb (truthy (py "data")) || endswith (py "data") (py "/"))
    with false by (vm_compute; reflexivity).
  intros Heq. apply (f_equal length) in Heq.
  rewrite !length_app in Heq. cbn in Heq. lia.
Qed.

(** X10. The directory is made outside the [try]: when the day's
    directory is missing and cannot be made, [save_data] raises the
    [OSError] instead of returning [False].  No file is written and nothing
    is logged or printed; the day's directory is not there afterwards, and
    the only trace the call can leave on disk is the parent [data], made
    before the day's directory was refused. *)
Theorem save_data_makedirs_failure_raises
        (env : Env) (data : list RepositoryRecord) (w : World) (cause : str) :
  day_dir (utc_today env) ∉ dirs w ->
  makedirs_fault env = Some cause ->
  let w' := snd (save_data env data w) in
  fst (save_data env data w) = Raise (Exn OSError cause) /\
  dirs w' = (if makedirs_made_parent env then dirs w ∪ {[ py "data" ]}
             else dirs w) /\
  (day_dir (utc_today env) ∉ dirs w') /\
  files w' = files w /\ opened w' = opened w /\
  log w' = log w /\ stdout w' = stdout w /\ wire w' = wire w.
Proof.
  intros Hdir Hfault. cbn zeta.
  rewrite (save_data_no_directory _ _ _ _ Hdir Hfault). cbn [fst snd].
  split; [done|].
  pose proof (day_dir_not_data (utc_today env)) as Hne.
  destruct (makedirs_made_parent env); cbn [with_parent dirs files opened log
                                            stdout wire].
  - split; [done|]. split; [|done].
    rewrite elem_of_union, elem_of_singleton. tauto.
  - split; [done|]. split; [done|]. done.
Qed.

Lemma save_data_makedirs_failure_raises_witness :
  let env := mkEnv (fun _ _ => Return true) (fun _ => Response 200 false [])
                   (fun _ => Sample.SAMPLE_SOUP) (py "2024-01-01")
                   (Some (py "Permission denied")) true NoFault in
  let w' := snd (save_data env Sample.linux Sample.world0) in
  (day_dir (utc_today env) ∉ dirs Sample.world0) /\
  makedirs_fault env = Some (py "Permission denied") /\
  fst (save_data env Sample.linux Sample.world0)
  = Raise (Exn OSError (py "Permission denied")) /\
  dirs w' = dirs Sample.world0 ∪ {[ py "data" ]} /\
  files w' = files Sample.world0.
Proof.
  intros env w'.
  assert (day_dir (utc_today env) ∉ dirs Sample.world0) as Hdir
      by apply not_elem_of_empty.
  split; [exact Hdir|]. split; [reflexivity|].
  destruct (save_data_makedirs_failure_raises env Sample.linux Sample.world0
              _ Hdir eq_refl) as (Hr & Hd & _ & Hf & _).
  split; [exact Hr|]. split; [exact Hd|exact Hf].
Defined.

(** What a call of [save_data] may touch. *)
Lemma save_data_touches
      (env : Env) (data : list RepositoryRecord) (w : World) :
  let path := artifact (utc_today env) in
  let w' := snd (save_data env data w) in
  (forall p, p <> path -> files w' !! p = files w !! p) /\
  dirs w ⊆ dirs w' /\
  wire w' = wire w /\
  (opened w' = opened w \/ opened w' = opened w ++ [path]).
Proof.
  cbn zeta.
  destruct (directory_ready_dec env w) as [Hready|(cause & Hdir & Hfault)].
  2: { rewrite (save_data_no_directory _ _ _ _ Hdir Hfault). cbn [snd].
       destruct (makedirs_made_parent env);
         cbn [with_parent dirs files opened wire].
       - split; [done|]. split; [set_solver|]. split; [done|by left].
       - split; [done|]. split; [done|]. split; [done|by left]. }
  destruct (exists_on_disk (artifact (utc_today env)) (prepared env w))
    eqn:Hex.
  - rewrite save_data_skip by done. cbn.
    split; [intros p _; by rewrite prepared_files'|].
    split; [apply prepared_dirs|]. split; [apply prepared_wire|].
    left. apply prepared_opened.
  - rewrite save_data_write by done. cbn zeta.
    destruct (write env) as [|c|n c]; cbn.
    + split; [intros p Hp; by rewrite lookup_insert_ne, prepared_files'|].
      split; [apply prepared_dirs|]. split; [apply prepared_wire|].
      right. by rewrite prepared_opened.
    + split; [intros p _; by rewrite prepared_files'|].
      split; [apply prepared_dirs|]. split; [apply prepared_wire|].
      left. apply prepared_opened.
    + split; [intros p Hp; by rewrite lookup_insert_ne, prepared_files'|].
      split; [apply prepared_dirs|]. split; [apply prepared_wire|].
      right. by rewrite prepared_opened.
Qed.

(** X11. [save_data] changes no file but the artifact of the day, removes
    no directory, sends nothing, and opens for writing the artifact at
    most, once at most. *)
Theorem save_data_frame
        (env : Env) (data : list RepositoryRecord) (w : World) :
  let path := artifact (utc_today env) in
  let w' := snd (save_data env data w) in
  (forall p, p <> path -> files w' !! p = files w !! p) /\
  dirs w ⊆ dirs w' /\
  wire w' = wire w /\
  (opened w' = opened w \/ opened w' = opened w ++ [path]).
Proof. apply save_data_touches. Qed.

(** X12. [save_data] returns [True] exactly when the directory is there
    or could be made, the artifact was not on disk and the write went
    through; the artifact then holds the whole snapshot, and the last log
    entry tells how many records were saved. *)
Theorem save_data_true_means_written
        (env : Env) (data : list RepositoryRecord) (w : World) :
  let path := artifact (utc_today env) in
  let w' := snd (save_data env data w) in
  (fst (save_data env data w) = Return true ->
   exists_on_disk path w = false /\ write env = NoFault /\
   files w' !! path = Some (Json.dumps data) /\
   opened w' = opened w ++ [path] /\
   last (log w')
   = Some (INFO, py "Successfully saved " ++ of_nat (length data)
                 ++ py " repositories to " ++ path)) /\
  (directory_ready env w -> exists_on_disk path w = false ->
   write env = NoFault ->
   fst (save_data env data w) = Return true).
Proof.
  cbn zeta. split.
  - intros Htrue.
    destruct (save_data_true_inv _ _ _ Htrue) as (Hready & Hex & Hwrite).
    rewrite save_data_write by done. rewrite Hwrite. cbn zeta. cbn [snd].
    rewrite exists_prepared in Hex.
    split; [done|]. split; [done|]. split; [|split].
    + cbn. by rewrite lookup_insert_eq.
    + cbn. by rewrite prepared_opened.
    + cbn. by rewrite last_snoc.
  - intros Hready Hex Hwrite. rewrite <- exists_prepared in Hex.
    rewrite save_data_write by done. by rewrite Hwrite.
Qed.

Lemma save_data_true_means_written_witness :
  let env := Sample.env_io NoFault in
  let path := artifact (utc_today env) in
  directory_ready env Sample.world0 /\
  exists_on_disk path Sample.world0 = false /\
  write env = NoFault /\
  fst (save_data env Sample.linux Sample.world0) = Return true /\
  files (snd (save_data env Sample.linux Sample.world0)) !! path
  = Some (Json.dumps Sample.linux).
Proof.
  intros env path.
  assert (directory_ready env Sample.world0) as Hready
      by (vm_compute; reflexivity).
  assert (exists_on_disk path Sample.world0 = false) as Hex
      by (vm_compute; reflexivity).
  split; [exact Hready|]. split; [exact Hex|]. split; [reflexivity|].
  destruct (save_data_true_means_written env Sample.linux Sample.world0)
    as [Hthen Hwhen].
  pose proof (Hwhen Hready Hex eq_refl) as Htrue.
  split; [exact Htrue|].
  destruct (Hthen Htrue) as (_ & _ & Hcontent & _). exact Hcontent.
Defined.

Lemma endswith_slash_snoc (s : str) c :
  c <> SLASH -> endswith (s ++ [c]) (py "/") = false.
Proof.
  intros Hc. unfold endswith. change (py "/") with [SLASH].
  apply bool_decide_eq_false_2.
  rewrite length_app. cbn [length].
  replace (length s + 1 - 1)%nat with (length s) by lia.
  rewrite drop_app_length. congruence.
Qed.

(** The path of the artifact of a well-formed date. *)
Lemma artifact_plain today :
  plain_date today ->
  day_dir today = py "data/" ++ today /\
  artifact today = py "data/" ++ today ++ py "/trending.json".
Proof.
  intros [Hne Hslash].
  assert (forall t, today <> SLASH :: t) as Hhead.
  { intros t ->. apply Hslash. apply list_elem_of_here. }
  assert (day_dir today = py "data/" ++ today) as Hdir.
  { unfold day_dir. by rewrite path_join_relative. }
  split; [done|]. rewrite artifact_unfold, Hdir.
  destruct today as [|c t _] using rev_ind; [done|].
  assert (c <> SLASH) as Hc.
  { intros ->. apply Hslash. apply elem_of_app. right. apply list_elem_of_here. }
  rewrite (app_assoc (py "data/") t [c]) at 1 2.
  rewrite (endswith_slash_snoc _ _ Hc).
  replace (truthy ((py "data/" ++ t) ++ [c])) with true; [|done].
  cbn [negb orb]. by rewrite <- !app_assoc.
Qed.

(** X13. For a date as the clock gives it, the artifact is
    [data/<date>/trending.json], so that the artifacts of two different
    dates are different files. *)
Theorem artifact_per_day (d1 d2 : str) :
  plain_date d1 -> plain_date d2 ->
  artifact d1 = py "data/" ++ d1 ++ py "/trending.json" /\
  (d1 <> d2 -> artifact d1 <> artifact d2).
Proof.
  intros H1 H2.
  destruct (artifact_plain _ H1) as [_ Ha1].
  destruct (artifact_plain _ H2) as [_ Ha2].
  split; [done|]. intros Hne. rewrite Ha1, Ha2.
  intros Heq%app_inv_head%app_inv_tail. done.
Qed.

Lemma artifact_per_day_witness :
  plain_date (py "2024-01-01") /\ plain_date (py "2024-01-02") /\
  artifact (py "2024-01-01") = py "data/2024-01-01/trending.json" /\
  artifact (py "2024-01-01") <> artifact (py "2024-01-02").
Proof.
  assert (plain_date (py "2024-01-01")) as H1.
  { split; [discriminate|].
    apply (proj1 (bool_decide_eq_false _)). vm_compute. reflexivity. }
  assert (plain_date (py "2024-01-02")) as H2.
  { split; [discriminate|].
    apply (proj1 (bool_decide_eq_false _)). vm_compute. reflexivity. }
  split; [exact H1|]. split; [exact H2|].
  destruct (artifact_per_day _ _ H1 H2) as [Hpath Hdiff].
  split; [exact Hpath|]. apply Hdiff. discriminate.
Defined.

Lemma exists_on_disk_false path w :
  exists_on_disk path w = false ->
  (path ∉ dirs w) /\ files w !! path = None.
Proof.
  unfold exists_on_disk. intros [Hd Hf]%orb_false_iff.
  apply bool_decide_eq_false_1 in Hd. apply bool_decide_eq_false_1 in Hf.
  split; [done|]. by apply eq_None_not_Some.
Qed.

Lemma exists_on_disk_false_intro path w :
  path ∉ dirs w -> files w !! path = None -> exists_on_disk path w = false.
Proof.
  intros Hd Hf. unfold exists_on_disk.
  rewrite (bool_decide_eq_false_2 _ Hd), Hf. reflexivity.
Qed.

Lemma prepared_dirs_in (env : Env) (w : World) p :
  p ∈ dirs (prepared env w) ->
  p ∈ dirs w \/ p = py "data" \/ p = day_dir (utc_today env).
Proof.
  unfold prepared, makedirs. case_bool_decide; [by left|].
  destruct (makedirs_fault env).
  - destruct (makedirs_made_parent env); [|by left]. cbn.
    rewrite elem_of_union, elem_of_singleton. tauto.
  - cbn. rewrite !elem_of_union, !elem_of_singleton. tauto.
Qed.

(** X14. The snapshots of two days live side by side: after the snapshot
    of one day has been written, a call on another day whose artifact is
    not there writes its own file and leaves the first one as it is. *)
Theorem save_data_days_coexist
        (env1 env2 : Env) (data1 data2 : list RepositoryRecord) (w : World) :
  let d1 := utc_today env1 in
  let d2 := utc_today env2 in
  let w1 := snd (save_data env1 data1 w) in
  let w2 := snd (save_data env2 data2 w1) in
  plain_date d1 -> plain_date d2 -> d1 <> d2 ->
  fst (save_data env1 data1 w) = Return true ->
  exists_on_disk (artifact d2) w = false ->
  makedirs_fault env2 = None -> write env2 = NoFault ->
  fst (save_data env2 data2 w1) = Return true /\
  files w2 !! artifact d1 = Some (Json.dumps data1) /\
  files w2 !! artifact d2 = Some (Json.dumps data2).
Proof.
  intros d1 d2 w1 w2 Hd1 Hd2 Hne Htrue Habsent Hmk Hwrite2.
  subst d1 d2. set (d1 := utc_today env1) in *. set (d2 := utc_today env2) in *.
  destruct (save_data_true_inv _ _ _ Htrue) as (Hready & Hex & Hwrite).
  fold d1 in Hex.
  destruct (artifact_plain _ Hd1) as [Hdir1 Hart1].
  destruct (artifact_plain _ Hd2) as [Hdir2 Hart2].
  assert (artifact d1 <> artifact d2) as Hpaths.
  { rewrite Hart1, Hart2.
    by intros Heq%app_inv_head%app_inv_tail. }
  destruct (exists_on_disk_false _ _ Habsent) as [Hnodir Hnofile].
  assert (dirs w1 = dirs (prepared env1 w) /\
          files w1 = <[artifact d1 := Json.dumps data1]> (files w))
    as [Hdirs1 Hfiles1].
  { unfold w1. rewrite save_data_write by done. rewrite Hwrite. cbn.
    by rewrite prepared_files'. }
  assert (exists_on_disk (artifact d2) w1 = false) as Hex2.
  { apply exists_on_disk_false_intro.
    - rewrite Hdirs1. intros [Hin|[Heq|Heq]]%prepared_dirs_in; [done| |].
      + pose proof (artifact_length d2) as Hlen. rewrite Heq in Hlen.
        cbn in Hlen. lia.
      + fold d1 in Heq. rewrite Hart2, Hdir1 in Heq.
        apply app_inv_head in Heq. destruct Hd1 as [_ Hslash].
        apply Hslash. rewrite <- Heq. apply elem_of_app. right.
        apply list_elem_of_here.
    - rewrite Hfiles1. by rewrite lookup_insert_ne. }
  assert (directory_ready env2 w1) as Hready2
      by (apply directory_ready_intro; by right).
  assert (save_data env2 data2 w1
          = (Return true,
             printed (py "Successfully saved " ++ of_nat (length data2)
                      ++ py " repositories to " ++ artifact d2)
               (logged INFO
                  (py "Successfully saved " ++ of_nat (length data2)
                   ++ py " repositories to " ++ artifact d2)
                  (set_file (artifact d2) (Json.dumps data2)
                            (prepared env2 w1))))) as Hrun2.
  { rewrite save_data_write by (by rewrite ?exists_prepared).
    by rewrite Hwrite2. }
  unfold w2. rewrite Hrun2. cbn [fst snd]. split; [done|].
  cbn. rewrite prepared_files', Hfiles1. split.
  - rewrite lookup_insert_ne by done. by rewrite lookup_insert_eq.
  - by rewrite lookup_insert_eq.
Qed.

Lemma save_data_days_coexist_witness :
  let env1 := Sample.env_io NoFault in
  let env2 := mkEnv (fun _ _ => Return true)
                    (fun _ => Response 200 false Sample.PAGE)
                    (fun _ => Sample.SAMPLE_SOUP) (py "2024-01-02")
                    None true NoFault in
  let w1 := snd (save_data env1 Sample.linux Sample.world0) in
  let w2 := snd (save_data env2 Sample.vscode w1) in
  plain_date (utc_today env1) /\ plain_date (utc_today env2) /\
  utc_today env1 <> utc_today env2 /\
  fst (save_data env1 Sample.linux Sample.world0) = Return true /\
  exists_on_disk (artifact (utc_today env2)) Sample.world0 = false /\
  files w2 !! py "data/2024-01-01/trending.json"
  = Some (Json.dumps Sample.linux) /\
  files w2 !! py "data/2024-01-02/trending.json"
  = Some (Json.dumps Sample.vscode).
Proof.
  intros env1 env2 w1 w2.
  assert (plain_date (utc_today env1)) as H1.
  { split; [discriminate|].
    apply (proj1 (bool_decide_eq_false _)). vm_compute. reflexivity. }
  assert (plain_date (utc_today env2)) as H2.
  { split; [discriminate|].
    apply (proj1 (bool_decide_eq_false _)). vm_compute. reflexivity. }
  assert (utc_today env1 <> utc_today env2) as Hne by discriminate.
  assert (fst (save_data env1 Sample.linux Sample.world0) = Return true)
    as Htrue by (vm_compute; reflexivity).
  assert (exists_on_disk (artifact (utc_today env2)) Sample.world0 = false)
    as Habsent by (vm_compute; reflexivity).
  split; [exact H1|]. split; [exact H2|]. split; [exact Hne|].
  split; [exact Htrue|]. split; [exact Habsent|].
  destruct (save_data_days_coexist env1 env2 Sample.linux Sample.vscode
              Sample.world0 H1 H2 Hne Htrue Habsent eq_refl eq_refl)
    as (_ & Hf1 & Hf2).
  split; [exact Hf1|exact Hf2].
Defined.

(** ** Further properties of [can_fetch] and [main] *)

(** The retry loop does the same in every world. *)
Lemma session_get_uniform (env : Env) total k :
  exists n r, forall w, session_get env total k w = (r, sent n w).
Proof.
  revert k. induction total as [|total IH]; intros k.
  - exists 1%nat. cbn [session_get]. unfold bind.
    destruct (transport env k) as [s ra body|c].
    + destruct (is_retry 0 s ra); eexists; intros w; by rewrite request_sent.
    + eexists; intros w; by rewrite request_sent.
  - destruct (IH (S k)) as (n & r & Hrec).
    cbn [session_get]. unfold bind.
    destruct (transport env k) as [s ra body|c].
    + destruct (is_retry (S total) s ra).
      * exists (S n), r. intros w.
        by rewrite request_sent, Hrec, sent_sent.
      * exists 1%nat. eexists. intros w. by rewrite request_sent.
    + exists (S n), r. intros w. by rewrite request_sent, Hrec, sent_sent.
Qed.

Lemma sent_count n m w : sent n w = sent m w -> n = m.
Proof.
  intros H. apply (f_equal wire) in H. cbn in H.
  apply app_inv_head in H. apply (f_equal length) in H.
  by rewrite !length_replicate in H.
Qed.

(** [fetch_trending] does the same in every world: its result is
    [fetch_outcome], and it sends between one and [MAX_RETRIES + 1]
    requests. *)
Lemma fetch_trending_uniform (env : Env) :
  exists n,
    (1 <= n <= S MAX_RETRIES)%nat /\
    forall w, fetch_trending env w = (fetch_outcome env, fetched env n w).
Proof.
  destruct (session_get_uniform env MAX_RETRIES 0) as (n & r0 & Hu).
  exists n. split.
  { destruct (session_get_spec env MAX_RETRIES 0 blank)
      as (n' & r' & Hrun & Hn & _).
    rewrite Hu in Hrun. assert (sent n blank = sent n' blank) as Hw
        by congruence.
    apply sent_count in Hw. lia. }
  assert (forall w,
             fetch_trending env w =
               match r0 with
               | Raise e => (Raise e, fetched env n w)
               | Return response =>
                   if ((400 <=? fst response) && (fst response <? 600))%Z
                   then (Raise (Exn HTTPError
                                    (of_Z (fst response)
                                     ++ py " Error for url: "
                                     ++ TRENDING_URL)), fetched env n w)
                   else (Return (snd response), fetched env n w)
               end) as Hall.
  { assert (forall w, fst (fetch_trending env w)
                      = match r0 with
                        | Raise e => Raise e
                        | Return response =>
                            if ((400 <=? fst response)
                                && (fst response <? 600))%Z
                            then Raise (Exn HTTPError
                                            (of_Z (fst response)
                                             ++ py " Error for url: "
                                             ++ TRENDING_URL))
                            else Return (snd response)
                        end) as Hfst.
    { intros w. rewrite fetch_trending_run. cbn zeta. rewrite Hu.
      destruct r0 as [response|e]; [|done].
      by destruct ((400 <=? fst response) && (fst response <? 600))%Z. }
    intros w. unfold fetched, fetch_outcome. rewrite (Hfst blank).
    rewrite fetch_trending_run. cbn zeta. rewrite Hu.
    destruct r0 as [response|e].
    - destruct ((400 <=? fst response) && (fst response <? 600))%Z;
        unfold sent, add_log;
        cbn [dirs files log stdout wire opened fst snd];
        by rewrite <- ?app_assoc, ?app_nil_r.
    - unfold sent, add_log. cbn [dirs files log stdout wire opened fst snd].
      reflexivity. }
  intros w. rewrite Hall. unfold fetch_outcome. rewrite (Hall blank).
  destruct r0 as [response|e]; [|done].
  by destruct ((400 <=? fst response) && (fst response <? 600))%Z.
Qed.

Lemma fetch_outcome_raise (env : Env) e :
  fetch_outcome env = Raise e -> is_RequestException (exn_cls e) = true.
Proof.
  unfold fetch_outcome. rewrite fetch_trending_run. cbn zeta.
  set (w0 := add_log blank _).
  destruct (session_get_spec env MAX_RETRIES 0 w0)
    as (n & r0 & Hrun & _ & _ & _ & Hset).
  rewrite Hrun. unfold settles in Hset.
  destruct r0 as [response|e0]; cbn [fst].
  - destruct ((400 <=? fst response) && (fst response <? 600))%Z;
      cbn [fst]; [|done]. by intros [= <-].
  - intros [= ->].
    destruct (transport env (0 + n - 1)) as [s ra body|c].
    + destruct Hset as (Hcls & _). by rewrite Hcls.
    + destruct Hset as [-> _]. done.
Qed.

Lemma checked_wire (env : Env) w :
  wire (checked env w) = wire w ++ [ROBOTS_URL].
Proof.
  unfold checked. rewrite can_fetch_run.
  by destruct (robots env USER_AGENT TRENDING_URL).
Qed.

Lemma checked_disk (env : Env) w : same_disk w (checked env w).
Proof.
  unfold checked. rewrite can_fetch_run.
  by destruct (robots env USER_AGENT TRENDING_URL).
Qed.

Lemma parsed_run (env : Env) html w :
  parse_trending env html w = (Return (records env html), parsed env html w).
Proof. unfold parsed. by rewrite parse_trending_spec. Qed.

Lemma parsed_disk (env : Env) html w : same_disk w (parsed env html w).
Proof. unfold parsed. by rewrite parse_trending_spec. Qed.

Lemma parsed_wire (env : Env) html w : wire (parsed env html w) = wire w.
Proof. unfold parsed. by rewrite parse_trending_spec. Qed.

Lemma same_disk_trans w1 w2 w3 :
  same_disk w1 w2 -> same_disk w2 w3 -> same_disk w1 w3.
Proof. unfold same_disk. intros (-> & -> & ->) (-> & -> & ->). done. Qed.

(** The [try] block once the robots check has let the run go on. *)
Lemma scrape_goes_on (env : Env) (w : World) :
  goes_on env ->
  scrape env w
  = (let* html := fetch_trending env in
     let* trending_repos := parse_trending env html in
     after_parse env trending_repos) (checked env w).
Proof.
  intros Hgo. unfold scrape, checked. unfold bind at 1.
  rewrite can_fetch_run. unfold goes_on in Hgo.
  by destruct (robots env USER_AGENT TRENDING_URL) as [[|]|e].
Qed.

Lemma scrape_fetch_failed (env : Env) (w : World) e :
  goes_on env -> fetch_outcome env = Raise e ->
  exists n,
    (1 <= n <= S MAX_RETRIES)%nat /\
    scrape env w = (Raise e, fetched env n (checked env w)).
Proof.
  intros Hgo Hfetch. destruct (fetch_trending_uniform env) as (n & Hn & Hrun).
  exists n. split; [done|]. rewrite scrape_goes_on by done.
  unfold bind at 1. by rewrite Hrun, Hfetch.
Qed.

Lemma scrape_fetched (env : Env) (w : World) html :
  goes_on env -> fetch_outcome env = Return html ->
  exists n,
    (1 <= n <= S MAX_RETRIES)%nat /\
    scrape env w
    = after_parse env (records env html)
        (parsed env html (fetched env n (checked env w))).
Proof.
  intros Hgo Hfetch. destruct (fetch_trending_uniform env) as (n & Hn & Hrun).
  exists n. split; [done|]. rewrite scrape_goes_on by done.
  unfold bind at 1. rewrite Hrun, Hfetch.
  unfold bind at 1. by rewrite parsed_run.
Qed.

Lemma main_started (env : Env) (w : World) :
  main env w
  = (fst (try_except (scrape env) report (started w)),
     finished (snd (try_except (scrape env) report (started w)))).
Proof. apply main_run. Qed.

Lemma report_run (e : exn) (w : World) :
  let msg := (if is_RequestException (exn_cls e)
              then py "Network error: " else py "Unexpected error: ")
             ++ exn_msg e in
  report e w = (Return tt, printed (CROSS ++ msg) (logged ERROR msg w)).
Proof.
  cbn zeta. unfold report. by destruct (is_RequestException (exn_cls e)).
Qed.

(** What the end of the [try] block, with the handlers, may touch. *)
Lemma after_parse_touches (env : Env) l (w : World) :
  let path := artifact (utc_today env) in
  exists w',
    try_except (after_parse env l) report w = (Return tt, w') /\
    (forall p, p <> path -> files w' !! p = files w !! p) /\
    dirs w ⊆ dirs w' /\
    wire w' = wire w /\
    (opened w' = opened w \/ opened w' = opened w ++ [path]).
Proof.
  cbn zeta. unfold try_except. destruct l as [|r l].
  - cbn [after_parse]. eexists. split; [reflexivity|]. cbn.
    split; [done|]. split; [done|]. split; [done|]. by left.
  - cbn [after_parse]. unfold bind at 1.
    pose proof (save_data_touches env (r :: l) w) as Htouch. cbn zeta in Htouch.
    destruct (save_data env (r :: l) w) as [[[|]|e] w1]; cbn [snd] in Htouch.
    + eexists. split; [reflexivity|]. exact Htouch.
    + eexists. split; [reflexivity|]. exact Htouch.
    + rewrite report_run. eexists. split; [reflexivity|]. exact Htouch.
Qed.

Lemma try_except_same {A} (m m' : M A) h w w' :
  m w = m' w' -> try_except m h w = try_except m' h w'.
Proof. unfold try_except. by intros ->. Qed.

Lemma try_except_raised {A} (m : M A) h w e w1 :
  m w = (Raise e, w1) -> try_except m h w = h e w1.
Proof. unfold try_except. by intros ->. Qed.

Lemma main_world_goes_on (env : Env) (w : World) :
  goes_on env ->
  exists n wt,
    main env w = (Return tt, finished wt) /\
    (1 <= n <= S MAX_RETRIES)%nat /\
    ((exists e,
         fetch_outcome env = Raise e /\
         wt = snd (report e (fetched env n (checked env (started w))))) \/
     (exists html,
         fetch_outcome env = Return html /\
         try_except (after_parse env (records env html)) report
           (parsed env html (fetched env n (checked env (started w))))
         = (Return tt, wt))).
Proof.
  intros Hgo. rewrite main_started.
  destruct (fetch_outcome env) as [html|e] eqn:Hfetch.
  - destruct (scrape_fetched env (started w) html Hgo Hfetch)
      as (n & Hn & Hrun).
    destruct (after_parse_touches env (records env html)
                (parsed env html (fetched env n (checked env (started w)))))
      as (wt & Hwt & _).
    exists n, wt. rewrite (try_except_same _ _ _ _ _ Hrun), Hwt.
    split; [done|]. split; [done|]. right. by exists html.
  - destruct (scrape_fetch_failed env (started w) e Hgo Hfetch)
      as (n & Hn & Hrun).
    exists n. eexists. rewrite (try_except_raised _ _ _ _ _ Hrun), report_run.
    split; [reflexivity|]. split; [done|]. left. exists e.
    split; [done|]. by rewrite report_run.
Qed.

(** The three ways a run goes: the robots rules deny; the page cannot be
    fetched; the page is fetched and parsed. *)
Lemma main_world (env : Env) (w : World) :
  exists n wt,
    main env w = (Return tt, finished wt) /\
    ((robots env USER_AGENT TRENDING_URL = Return false /\ n = 0%nat /\
      wt = printed (CROSS ++ py "Scraping not allowed by robots.txt")
             (logged WARNING (py "Scraping not allowed by robots.txt")
                     (snd (request ROBOTS_URL (started w))))) \/
     (goes_on env /\ (1 <= n <= S MAX_RETRIES)%nat /\
      ((exists e,
           fetch_outcome env = Raise e /\
           wt = snd (report e (fetched env n (checked env (started w))))) \/
       (exists html,
           fetch_outcome env = Return html /\
           try_except (after_parse env (records env html)) report
             (parsed env html (fetched env n (checked env (started w))))
           = (Return tt, wt))))).
Proof.
  assert (robots env USER_AGENT TRENDING_URL = Return false \/ goes_on env)
    as [Hdeny|Hgo].
  { unfold goes_on.
    destruct (robots env USER_AGENT TRENDING_URL) as [[|]|e];
      [by right|by left|by right]. }
  - exists 0%nat. eexists. rewrite main_started. unfold try_except.
    rewrite (scrape_denied _ _ Hdeny). cbn [fst snd]. split; [reflexivity|].
    left. split; [exact Hdeny|]. split; reflexivity.
  - destruct (main_world_goes_on env w Hgo) as (n & wt & Hrun & Hn & Hcases).
    exists n, wt. split; [exact Hrun|]. right.
    split; [exact Hgo|]. split; [exact Hn|exact Hcases].
Qed.

Lemma started_disk w : same_disk w (started w).
Proof. done. Qed.

Lemma fetched_disk (env : Env) n w : same_disk w (fetched env n w).
Proof. done. Qed.

(** What a run may touch, and what it sends. *)
Lemma main_touches (env : Env) (w : World) :
  let path := artifact (utc_today env) in
  let w' := snd (main env w) in
  exists n,
    (n <= MAX_RETRIES + 1)%nat /\
    wire w' = wire w ++ ROBOTS_URL :: replicate n TRENDING_URL /\
    (n = 0%nat <-> robots env USER_AGENT TRENDING_URL = Return false) /\
    (forall p, p <> path -> files w' !! p = files w !! p) /\
    dirs w ⊆ dirs w' /\
    (opened w' = opened w \/ opened w' = opened w ++ [path]).
Proof.
  cbn zeta.
  destruct (main_world env w) as (n & wt & Hrun & Hcases).
  rewrite Hrun. cbn [snd]. exists n.
  destruct Hcases as [(Hdeny & -> & ->)|(Hgo & Hn & Hcases)].
  - split; [lia|]. split; [done|]. split; [done|].
    split; [done|]. split; [done|]. by left.
  - split; [lia|].
    assert (n = 0%nat <-> robots env USER_AGENT TRENDING_URL = Return false)
      as Hzero by (split; [lia|by intros ?]).
    destruct Hcases as [(e & _ & ->)|(html & _ & Hwt)].
    + rewrite report_run.
      cbn [snd finished printed logged print logging wire files dirs opened
               fetched].
      rewrite checked_wire. destruct (checked_disk env (started w))
        as (Hd & Hf & Ho).
      rewrite Hd, Hf, Ho. cbn [started printed logged print logging snd wire
                               files dirs opened].
      split; [by rewrite <- app_assoc|]. split; [done|].
      split; [done|]. split; [done|]. by left.
    + destruct (after_parse_touches env (records env html)
                  (parsed env html (fetched env n (checked env (started w)))))
        as (wt' & Hwt' & Hfiles & Hdirs & Hwire & Hopened).
      rewrite Hwt in Hwt'. injection Hwt' as <-.
      destruct (parsed_disk env html (fetched env n (checked env (started w))))
        as (Hd & Hf & Ho).
      destruct (checked_disk env (started w)) as (Hd' & Hf' & Ho').
      rewrite Hd in Hdirs. rewrite Ho in Hopened.
      cbn [fetched dirs opened] in Hdirs, Hopened.
      rewrite Hd' in Hdirs. rewrite Ho' in Hopened.
      cbn [finished printed logged print logging snd wire files dirs opened].
      split.
      { rewrite Hwire, parsed_wire. cbn [fetched wire].
        rewrite checked_wire. by rewrite <- app_assoc. }
      split; [done|]. split.
      { intros p Hp. rewrite (Hfiles p Hp), Hf. cbn [fetched files].
        by rewrite Hf'. }
      split; [exact Hdirs|exact Hopened].
Qed.

(** X17. A run changes no file but the artifact of the day, removes no
    directory, and opens for writing the artifact at most, once at most. *)
Theorem main_frame (env : Env) (w : World) :
  let path := artifact (utc_today env) in
  let w' := snd (main env w) in
  (forall p, p <> path -> files w' !! p = files w !! p) /\
  dirs w ⊆ dirs w' /\
  (opened w' = opened w \/ opened w' = opened w ++ [path]).
Proof.
  cbn zeta.
  destruct (main_touches env w) as (n & _ & _ & _ & Hfiles & Hdirs & Ho).
  done.
Qed.

Lemma main_after_fetch (env : Env) (w : World) html :
  goes_on env -> fetch_outcome env = Return html ->
  exists n wt,
    main env w = (Return tt, finished wt) /\
    try_except (after_parse env (records env html)) report
      (parsed env html (fetched env n (checked env (started w))))
    = (Return tt, wt).
Proof.
  intros Hgo Hfetch.
  destruct (main_world_goes_on env w Hgo) as (n & wt & Hrun & _ & Hcases).
  exists n, wt. split; [done|].
  destruct Hcases as [(e & He & _)|(html' & Hhtml & Hwt)]; [congruence|].
  assert (html' = html) as -> by congruence. done.
Qed.

Lemma main_fetch_failed (env : Env) (w : World) e :
  goes_on env -> fetch_outcome env = Raise e ->
  exists n,
    main env w
    = (Return tt,
       finished (snd (report e (fetched env n (checked env (started w)))))).
Proof.
  intros Hgo Hfetch.
  destruct (main_world_goes_on env w Hgo) as (n & wt & Hrun & _ & Hcases).
  exists n. rewrite Hrun.
  destruct Hcases as [(e' & He & ->)|(html' & Hhtml & _)]; [|congruence].
  assert (e' = e) as -> by congruence. done.
Qed.

(** The world in which [save_data] is called has the disk of the start. *)
Lemma before_save_disk (env : Env) html n w :
  same_disk w (parsed env html (fetched env n (checked env (started w)))).
Proof.
  eapply same_disk_trans; [|apply parsed_disk].
  eapply same_disk_trans; [|apply fetched_disk].
  eapply same_disk_trans; [apply started_disk|apply checked_disk].
Qed.

Lemma exists_on_disk_same path w w' :
  same_disk w w' -> exists_on_disk path w' = exists_on_disk path w.
Proof. intros (Hd & Hf & _). unfold exists_on_disk. by rewrite Hd, Hf. Qed.

Lemma directory_ready_same (env : Env) w w' :
  same_disk w w' ->
  day_dir (utc_today env) ∈ dirs w \/ makedirs_fault env = None ->
  directory_ready env w'.
Proof.
  intros (Hd & _ & _) H. apply directory_ready_intro. by rewrite Hd.
Qed.

Lemma finished_log w : log (finished w) = log w ++ [FINISHED].
Proof. reflexivity. Qed.

(** X18. When the page holds no record, the run ends with a warning and
    leaves the disk as it was: not even the directory of the day is
    made. *)
Theorem main_empty_page_writes_nothing (env : Env) (w : World) (html : str) :
  goes_on env ->
  fetch_outcome env = Return html ->
  records env html = [] ->
  fst (main env w) = Return tt /\
  same_disk w (snd (main env w)) /\
  (WARNING, py "No repositories found on trending page")
    ∈ log (snd (main env w)).
Proof.
  intros Hgo Hfetch Hempty.
  destruct (main_after_fetch env w html Hgo Hfetch) as (n & wt & Hrun & Hwt).
  rewrite Hempty in Hwt. unfold try_except in Hwt. cbn [after_parse] in Hwt.
  rewrite Hrun. cbn [fst snd]. split; [done|].
  injection Hwt as <-.
  destruct (before_save_disk env html n w) as (Hd & Hf & Ho).
  split; [by split|].
  rewrite finished_log. apply elem_of_app. left.
  cbn. apply elem_of_app. right. apply list_elem_of_here.
Qed.

Lemma main_empty_page_writes_nothing_witness :
  let env := Sample.env_of Sample.EMPTY_SOUP in
  goes_on env /\ fetch_outcome env = Return [] /\ records env [] = [] /\
  files (snd (main env Sample.world0)) = ∅ /\
  dirs (snd (main env Sample.world0)) = ∅.
Proof.
  intros env.
  assert (goes_on env) as Hgo by discriminate.
  assert (fetch_outcome env = Return []) as Hfetch
      by (vm_compute; reflexivity).
  assert (records env [] = []) as Hempty by (vm_compute; reflexivity).
  split; [exact Hgo|]. split; [exact Hfetch|]. split; [exact Hempty|].
  destruct (main_empty_page_writes_nothing env Sample.world0 [] Hgo Hfetch
              Hempty) as (_ & (Hd & Hf & _) & _).
  split; [exact Hf|exact Hd].
Defined.

(** X19. When the page cannot be fetched, the run reports a network error
    with the cause, in the log and on the console, and leaves the disk as
    it was. *)
Theorem main_network_error_reported (env : Env) (w : World) (e : exn) :
  goes_on env ->
  fetch_outcome env = Raise e ->
  let w' := snd (main env w) in
  fst (main env w) = Return tt /\
  same_disk w w' /\
  (ERROR, py "Network error: " ++ exn_msg e) ∈ log w' /\
  (CROSS ++ py "Network error: " ++ exn_msg e) ∈ stdout w'.
Proof.
  intros Hgo Hfetch. cbn zeta.
  destruct (main_fetch_failed env w e Hgo Hfetch) as (n & Hrun).
  rewrite Hrun, report_run, (fetch_outcome_raise _ _ Hfetch).
  cbn [fst snd]. split; [done|].
  destruct (checked_disk env (started w)) as (Hd & Hf & Ho).
  split; [by split|]. split.
  - rewrite finished_log. apply elem_of_app. left.
    cbn [log printed logged print logging snd].
    apply elem_of_app. right. apply list_elem_of_here.
  - cbn [finished stdout printed logged print logging snd].
    apply elem_of_app. left. apply elem_of_app. right. apply list_elem_of_here.
Qed.

Lemma main_network_error_reported_witness :
  let env := Sample.env_net Sample.not_found in
  let e := Exn HTTPError
               (py "404 Error for url: https://github.com/trending") in
  goes_on env /\ fetch_outcome env = Raise e /\
  files (snd (main env Sample.world0)) = ∅ /\
  (ERROR, py "Network error: " ++ exn_msg e)
    ∈ log (snd (main env Sample.world0)).
Proof.
  intros env e.
  assert (goes_on env) as Hgo by discriminate.
  assert (fetch_outcome env = Raise e) as Hfetch by (vm_compute; reflexivity).
  split; [exact Hgo|]. split; [exact Hfetch|].
  destruct (main_network_error_reported env Sample.world0 e Hgo Hfetch)
    as (_ & (_ & Hf & _) & Hlog & _).
  split; [exact Hf|exact Hlog].
Defined.

(** [save_data] as [main] calls it, in terms of the disk at the start. *)
Lemma save_in_main (env : Env) html n w :
  let wp := parsed env html (fetched env n (checked env (started w))) in
  (day_dir (utc_today env) ∈ dirs w \/ makedirs_fault env = None ->
   directory_ready env wp) /\
  exists_on_disk (artifact (utc_today env)) (prepared env wp)
  = exists_on_disk (artifact (utc_today env)) w /\
  ((day_dir (utc_today env) ∉ dirs w) -> day_dir (utc_today env) ∉ dirs wp) /\
  same_disk w wp.
Proof.
  cbn zeta. pose proof (before_save_disk env html n w) as Hsame.
  split; [by apply directory_ready_same|].
  split; [by rewrite exists_prepared, (exists_on_disk_same _ _ _ Hsame)|].
  split; [|done]. destruct Hsame as (Hd & _). by rewrite Hd.
Qed.

(** X20. A run that finds records on the page, with the artifact of the
    day not yet on disk and no fault, writes the records of the page to
    the artifact, opens no other file, and logs the completion with their
    number. *)
Theorem main_writes_snapshot (env : Env) (w : World) (html : str) :
  goes_on env ->
  fetch_outcome env = Return html ->
  records env html <> [] ->
  day_dir (utc_today env) ∈ dirs w \/ makedirs_fault env = None ->
  exists_on_disk (artifact (utc_today env)) w = false ->
  write env = NoFault ->
  let w' := snd (main env w) in
  fst (main env w) = Return tt /\
  files w' !! artifact (utc_today env)
  = Some (Json.dumps (records env html)) /\
  opened w' = opened w ++ [artifact (utc_today env)] /\
  (INFO, py "Scraping completed successfully. Found "
         ++ of_nat (length (records env html)) ++ py " repositories.")
    ∈ log w'.
Proof.
  intros Hgo Hfetch Hrecords Hdir Habsent Hwrite. cbn zeta.
  destruct (main_after_fetch env w html Hgo Hfetch) as (n & wt & Hrun & Hwt).
  destruct (save_in_main env html n w) as (Hready & Hex & _ & Hsame).
  rewrite Hrun. cbn [fst snd]. split; [done|].
  revert Hwt. unfold try_except.
  destruct (records env html) as [|r l] eqn:Hl; [done|].
  cbn [after_parse]. unfold bind at 1.
  rewrite save_data_write by (by rewrite ?Hex; auto).
  rewrite Hwrite. cbn zeta. intros [= <-].
  destruct Hsame as (_ & Hf & Ho).
  split; [|split].
  - cbn [finished printed logged print logging bind set_file fst snd files].
    by rewrite lookup_insert_eq.
  - cbn [finished printed logged print logging bind set_file fst snd opened].
    by rewrite prepared_opened, Ho.
  - rewrite finished_log. apply elem_of_app. left.
    cbn [log printed logged print logging snd bind fst].
    apply elem_of_app. right. apply list_elem_of_here.
Qed.

Lemma main_writes_snapshot_witness :
  let env := Sample.env_io NoFault in
  goes_on env /\ fetch_outcome env = Return Sample.PAGE /\
  records env Sample.PAGE <> [] /\
  (day_dir (utc_today env) ∈ dirs Sample.world0 \/
   makedirs_fault env = None) /\
  exists_on_disk (artifact (utc_today env)) Sample.world0 = false /\
  write env = NoFault /\
  files (snd (main env Sample.world0)) !! artifact (utc_today env)
  = Some (Json.dumps (records env Sample.PAGE)) /\
  length (records env Sample.PAGE) = 3%nat.
Proof.
  intros env.
  assert (goes_on env) as Hgo by discriminate.
  assert (fetch_outcome env = Return Sample.PAGE) as Hfetch
      by (vm_compute; reflexivity).
  assert (records env Sample.PAGE <> []) as Hrecords
      by (vm_compute; discriminate).
  assert (day_dir (utc_today env) ∈ dirs Sample.world0 \/
          makedirs_fault env = None) as Hdir by (right; reflexivity).
  assert (exists_on_disk (artifact (utc_today env)) Sample.world0 = false)
    as Habsent by (vm_compute; reflexivity).
  split; [exact Hgo|]. split; [exact Hfetch|]. split; [exact Hrecords|].
  split; [exact Hdir|]. split; [exact Habsent|]. split; [reflexivity|].
  destruct (main_writes_snapshot env Sample.world0 Sample.PAGE Hgo Hfetch
              Hrecords Hdir Habsent eq_refl) as (_ & Hcontent & _).
  split; [exact Hcontent|]. vm_compute. reflexivity.
Defined.

(** X22. The directory of the day is made outside every [try] of
    [save_data]: when it is missing and cannot be made, the run reports an
    unexpected error with the cause, not a network error, as its last
    entry before the closing one.  No file is written and the day's
    directory is not there afterwards; the only trace the run can leave on
    disk is the parent [data], made before the day's directory was
    refused. *)
Theorem main_directory_failure_reported
        (env : Env) (w : World) (html cause : str) :
  goes_on env ->
  fetch_outcome env = Return html ->
  records env html <> [] ->
  day_dir (utc_today env) ∉ dirs w ->
  makedirs_fault env = Some cause ->
  let w' := snd (main env w) in
  fst (main env w) = Return tt /\
  dirs w' = (if makedirs_made_parent env then dirs w ∪ {[ py "data" ]}
             else dirs w) /\
  (day_dir (utc_today env) ∉ dirs w') /\
  files w' = files w /\ opened w' = opened w /\
  exists l, log w' = l ++ [(ERROR, py "Unexpected error: " ++ cause);
                           FINISHED].
Proof.
  intros Hgo Hfetch Hrecords Hdir Hfault. cbn zeta.
  destruct (main_after_fetch env w html Hgo Hfetch) as (n & wt & Hrun & Hwt).
  destruct (save_in_main env html n w) as (_ & _ & Hnodir & Hsame).
  rewrite Hrun. cbn [fst snd]. split; [done|].
  revert Hwt. unfold try_except.
  destruct (records env html) as [|r l]; [done|].
  cbn [after_parse]. unfold bind at 1.
  rewrite (save_data_no_directory _ _ _ _ (Hnodir Hdir) Hfault).
  rewrite report_run. cbn [exn_cls is_RequestException exn_msg].
  intros [= <-].
  destruct Hsame as (Hd & Hf & Ho).
  pose proof (day_dir_not_data (utc_today env)) as Hne.
  set (wp := parsed env html (fetched env n (checked env (started w)))) in *.
  destruct (makedirs_made_parent env).
  - cbn [finished printed logged print logging snd dirs files opened log
         with_parent].
    rewrite Hd, Hf, Ho. split; [done|]. split.
    { rewrite elem_of_union, elem_of_singleton. tauto. }
    split; [done|]. split; [done|].
    exists (log wp). by rewrite <- app_assoc.
  - cbn [finished printed logged print logging snd dirs files opened log].
    rewrite Hd, Hf, Ho. split; [done|]. split; [done|].
    split; [done|]. split; [done|].
    exists (log wp). by rewrite <- app_assoc.
Qed.

Lemma main_directory_failure_reported_witness :
  let env := mkEnv (fun _ _ => Return true)
                   (fun _ => Response 200 false Sample.PAGE)
                   (fun _ => Sample.SAMPLE_SOUP) (py "2024-01-01")
                   (Some (py "Permission denied")) true NoFault in
  let w' := snd (main env Sample.world0) in
  goes_on env /\ fetch_outcome env = Return Sample.PAGE /\
  records env Sample.PAGE <> [] /\
  (day_dir (utc_today env) ∉ dirs Sample.world0) /\
  makedirs_fault env = Some (py "Permission denied") /\
  fst (main env Sample.world0) = Return tt /\
  dirs w' = dirs Sample.world0 ∪ {[ py "data" ]} /\
  files w' = files Sample.world0 /\
  exists l, log w' = l ++ [(ERROR, py "Unexpected error: Permission denied");
                           FINISHED].
Proof.
  intros env w'.
  assert (goes_on env) as Hgo by discriminate.
  assert (fetch_outcome env = Return Sample.PAGE) as Hfetch
      by (vm_compute; reflexivity).
  assert (records env Sample.PAGE <> []) as Hrecords
      by (vm_compute; discriminate).
  assert (day_dir (utc_today env) ∉ dirs Sample.world0) as Hdir
      by apply not_elem_of_empty.
  split; [exact Hgo|]. split; [exact Hfetch|]. split; [exact Hrecords|].
  split; [exact Hdir|]. split; [reflexivity|].
  destruct (main_directory_failure_reported env Sample.world0 Sample.PAGE
              _ Hgo Hfetch Hrecords Hdir eq_refl)
    as (Hret & Hd & _ & Hf & _ & Hlog).
  split; [exact Hret|]. split; [exact Hd|]. split; [exact Hf|exact Hlog].
Defined.

Lemma before_save_stdout (env : Env) html n w :
  stdout (parsed env html (fetched env n (checked env (started w))))
  = stdout w ++ [py "Starting GitHub trending scraper...";
                 CHECK ++ py "Robots.txt check passed"].
Proof.
  unfold parsed. rewrite parse_trending_spec.
  cbn [snd add_log stdout fetched]. unfold checked. rewrite can_fetch_run.
  destruct (robots env USER_AGENT TRENDING_URL);
    cbn [snd stdout printed logged print logging request started];
    by rewrite <- app_assoc.
Qed.

Lemma prepared_stdout (env : Env) w : stdout (prepared env w) = stdout w.
Proof.
  unfold prepared, makedirs. case_bool_decide; [done|].
  destruct (makedirs_fault env); [|done].
  by destruct (makedirs_made_parent env).
Qed.

(** X23. When the artifact cannot be opened for writing, the run still
    ends normally; the failure is printed, and after it the note that the
    data of the day already exists, although no artifact is on disk. *)
Theorem main_refused_write_prints_note
        (env : Env) (w : World) (html cause : str) :
  goes_on env ->
  fetch_outcome env = Return html ->
  records env html <> [] ->
  day_dir (utc_today env) ∈ dirs w \/ makedirs_fault env = None ->
  exists_on_disk (artifact (utc_today env)) w = false ->
  write env = OpenFails cause ->
  let w' := snd (main env w) in
  fst (main env w) = Return tt /\
  exists_on_disk (artifact (utc_today env)) w' = false /\
  files w' = files w /\ opened w' = opened w /\
  stdout w' =
    stdout w ++ [py "Starting GitHub trending scraper...";
                 CHECK ++ py "Robots.txt check passed";
                 py "Error saving data: " ++ cause;
                 NOTE ++ py "Data already exists for today.";
                 py "Scraper finished."].
Proof.
  intros Hgo Hfetch Hrecords Hdir Habsent Hwrite. cbn zeta.
  destruct (main_after_fetch env w html Hgo Hfetch) as (n & wt & Hrun & Hwt).
  destruct (save_in_main env html n w) as (Hready & Hex & _ & Hsame).
  rewrite Hrun. cbn [fst snd]. split; [done|].
  revert Hwt. unfold try_except.
  destruct (records env html) as [|r l]; [done|].
  cbn [after_parse]. unfold bind at 1.
  rewrite save_data_write by (by rewrite ?Hex; auto).
  rewrite Hwrite. cbn zeta. intros [= <-].
  destruct Hsame as (_ & Hf & Ho).
  split; [|split; [|split]].
  - rewrite <- Habsent, <- Hex. apply exists_on_disk_same. by split.
  - cbn [finished printed logged print logging snd files compose].
    by rewrite prepared_files'.
  - cbn [finished printed logged print logging snd opened compose].
    by rewrite prepared_opened.
  - cbn [finished printed logged print logging snd stdout compose].
    rewrite prepared_stdout, before_save_stdout.
    by rewrite <- !app_assoc.
Qed.

Lemma main_refused_write_prints_note_witness :
  let env := Sample.env_io Sample.refused in
  goes_on env /\ fetch_outcome env = Return Sample.PAGE /\
  records env Sample.PAGE <> [] /\
  (day_dir (utc_today env) ∈ dirs Sample.world0 \/
   makedirs_fault env = None) /\
  exists_on_disk (artifact (utc_today env)) Sample.world0 = false /\
  write env = OpenFails (py "Permission denied") /\
  files (snd (main env Sample.world0)) = ∅ /\
  (NOTE ++ py "Data already exists for today.")
    ∈ stdout (snd (main env Sample.world0)).
Proof.
  intros env.
  assert (goes_on env) as Hgo by discriminate.
  assert (fetch_outcome env = Return Sample.PAGE) as Hfetch
      by (vm_compute; reflexivity).
  assert (records env Sample.PAGE <> []) as Hrecords
      by (vm_compute; discriminate).
  assert (day_dir (utc_today env) ∈ dirs Sample.world0 \/
          makedirs_fault env = None) as Hdir by (right; reflexivity).
  assert (exists_on_disk (artifact (utc_today env)) Sample.world0 = false)
    as Habsent by (vm_compute; reflexivity).
  split; [exact Hgo|]. split; [exact Hfetch|]. split; [exact Hrecords|].
  split; [exact Hdir|]. split; [exact Habsent|]. split; [reflexivity|].
  destruct (main_refused_write_prints_note env Sample.world0 Sample.PAGE _
              Hgo Hfetch Hrecords Hdir Habsent eq_refl)
    as (_ & _ & Hf & _ & Hout).
  split; [exact Hf|]. rewrite Hout.
  do 3 apply list_elem_of_further. apply list_elem_of_here.
Defined.

(** ** The text of the artifact *)

Lemma unhex_hex_digit d : d < 16 -> unhex (Json.hex_digit d) = d.
Proof.
  intros Hd. unfold unhex, Json.hex_digit.
  destruct (N.ltb_spec d 10).
  - destruct (N.ltb_spec (48 + d) 58); lia.
  - destruct (N.ltb_spec (87 + d) 58); lia.
Qed.

Lemma escape_cases c :
  (c = 34 /\ Json.escape c = [92; 34]) \/
  (c = 92 /\ Json.escape c = [92; 92]) \/
  (c = 10 /\ Json.escape c = [92; 110]) \/
  (c = 13 /\ Json.escape c = [92; 114]) \/
  (c = 9 /\ Json.escape c = [92; 116]) \/
  (c = 8 /\ Json.escape c = [92; 98]) \/
  (c = 12 /\ Json.escape c = [92; 102]) \/
  (c < 32 /\
   Json.escape c
   = [92; 117; 48; 48; Json.hex_digit (c / 16); Json.hex_digit (c mod 16)]) \/
  (c <> 34 /\ c <> 92 /\ Json.escape c = [c]).
Proof.
  unfold Json.escape.
  destruct (N.eqb_spec c 34) as [->|H34]; [by left|]. right.
  destruct (N.eqb_spec c 92) as [->|H92]; [by left|]. right.
  destruct (N.eqb_spec c 10) as [->|H10]; [by left|]. right.
  destruct (N.eqb_spec c 13) as [->|H13]; [by left|]. right.
  destruct (N.eqb_spec c 9) as [->|H9]; [by left|]. right.
  destruct (N.eqb_spec c 8) as [->|H8]; [by left|]. right.
  destruct (N.eqb_spec c 12) as [->|H12]; [by left|]. right.
  destruct (N.ltb_spec c 32) as [Hlt|Hge]; [by left|]. right. done.
Qed.

(** Reading undoes escaping, one character at a time. *)
Lemma read_string_escape c tail v rest :
  read_string tail = Some (v, rest) ->
  read_string (Json.escape c ++ tail) = Some (c :: v, rest).
Proof.
  intros Htail.
  destruct (escape_cases c)
    as [[-> ->]|[[-> ->]|[[-> ->]|[[-> ->]|[[-> ->]|[[-> ->]|[[-> ->]|
        [[Hlt ->]|(H34 & H92 & ->)]]]]]]]];
    try (cbn; by rewrite Htail).
  - cbn [app read_string]. cbn [N.eqb Pos.eqb]. rewrite Htail. cbn [push].
    rewrite !unhex_hex_digit.
    + f_equal. f_equal. f_equal. symmetry. apply N.div_mod. lia.
    + apply N.mod_lt. lia.
    + apply N.Div0.div_lt_upper_bound. lia.
  - cbn [app read_string].
    rewrite (proj2 (N.eqb_neq c 34) H34), (proj2 (N.eqb_neq c 92) H92).
    by rewrite Htail.
Qed.

Lemma read_string_quoted s rest :
  read_string (flat_map Json.escape s ++ [34] ++ rest) = Some (s, rest).
Proof.
  induction s as [|c s IH]; [done|].
  cbn [flat_map]. rewrite <- app_assoc. by apply read_string_escape.
Qed.

(** Two quoted strings that begin two equal texts are equal, and so are
    the texts after them. *)
Lemma quoted_inj s1 s2 rest1 rest2 :
  flat_map Json.escape s1 ++ [34] ++ rest1
  = flat_map Json.escape s2 ++ [34] ++ rest2 ->
  s1 = s2 /\ rest1 = rest2.
Proof.
  intros H. apply (f_equal read_string) in H.
  rewrite !read_string_quoted in H. by injection H.
Qed.

Lemma object_form r tail :
  Json.object r ++ tail
  = (py "  {" ++ [10] ++ py "    " ++ [34]
       ++ flat_map Json.escape (py "name") ++ [34] ++ py ": " ++ [34])
    ++ flat_map Json.escape (name r) ++ [34]
    ++ ((py "," ++ [10] ++ py "    " ++ [34]
           ++ flat_map Json.escape (py "description") ++ [34]
           ++ py ": " ++ [34])
        ++ flat_map Json.escape (description r) ++ [34]
        ++ ((py "," ++ [10] ++ py "    " ++ [34]
               ++ flat_map Json.escape (py "language") ++ [34]
               ++ py ": " ++ [34])
            ++ flat_map Json.escape (language r) ++ [34]
            ++ ((py "," ++ [10] ++ py "    " ++ [34]
                   ++ flat_map Json.escape (py "stars") ++ [34]
                   ++ py ": " ++ [34])
                ++ flat_map Json.escape (stars r) ++ [34]
                ++ ([10] ++ py "  }" ++ tail)))).
Proof.
  unfold Json.object, Json.member, Json.quote.
  by rewrite <- !app_assoc.
Qed.

(** An object that begins a text determines its record and the text after
    it. *)
Lemma object_inj r1 r2 tail1 tail2 :
  Json.object r1 ++ tail1 = Json.object r2 ++ tail2 ->
  r1 = r2 /\ tail1 = tail2.
Proof.
  rewrite !object_form. intros H.
  apply app_inv_head in H. apply quoted_inj in H as [Hn H].
  apply app_inv_head in H. apply quoted_inj in H as [Hd H].
  apply app_inv_head in H. apply quoted_inj in H as [Hl H].
  apply app_inv_head in H. apply quoted_inj in H as [Hs H].
  do 2 apply app_inv_head in H.
  destruct r1, r2. cbn in *. by subst.
Qed.

Lemma objects_cons r data tail :
  Json.objects (r :: data) ++ tail
  = Json.object r
    ++ match data with
       | [] => tail
       | _ :: _ => py "," ++ [10] ++ Json.objects data ++ tail
       end.
Proof.
  cbn [Json.objects]. destruct data; [done|]. by rewrite <- !app_assoc.
Qed.

Lemma objects_inj data1 data2 :
  Json.objects data1 ++ [10] ++ py "]" = Json.objects data2 ++ [10] ++ py "]" ->
  data1 <> [] -> data2 <> [] ->
  data1 = data2.
Proof.
  revert data2. induction data1 as [|r1 data1 IH];
    [intros data2 _ H; by destruct H|].
  intros [|r2 data2] H _ H2; [by destruct H2|].
  rewrite !objects_cons in H. apply object_inj in H as [-> H].
  destruct data1 as [|r1' data1], data2 as [|r2' data2];
    [done|discriminate H|discriminate H|].
  do 2 apply app_inv_head in H. f_equal. by apply IH.
Qed.

(** X24. The text written to the artifact determines the records: two
    lists of records with the same text are the same list. *)
Theorem dumps_injective (data1 data2 : list RepositoryRecord) :
  Json.dumps data1 = Json.dumps data2 -> data1 = data2.
Proof.
  unfold Json.dumps.
  destruct data1 as [|r1 data1], data2 as [|r2 data2];
    [done|discriminate|discriminate|].
  intros H. do 2 apply app_inv_head in H. by apply objects_inj.
Qed.

Lemma dumps_injective_witness :
  let data1 := Sample.linux ++ Sample.vscode in
  let data2 := [Sample.rec "torvalds/linux" "Linux kernel source tree"
                           "C" "160000";
                Sample.rec "microsoft/vscode" "Visual Studio Code"
                           "TypeScript" "120000"] in
  Json.dumps data1 = Json.dumps data2 /\ data1 = data2 /\
  Json.dumps Sample.linux <> Json.dumps Sample.vscode.
Proof.
  intros data1 data2.
  assert (Json.dumps data1 = Json.dumps data2) as Hsame
      by (vm_compute; reflexivity).
  split; [exact Hsame|]. split; [exact (dumps_injective _ _ Hsame)|].
  intros H. apply dumps_injective in H. discriminate H.
Defined.

(** ** The run on a host whose console or parser can fail *)


Lemma can_print_all (h : Host.host) (msg : str) :
  (forall c, Host.encodes h c = true) -> Host.can_print h msg = true.
Proof.
  intros Hall. unfold Host.can_print. apply forallb_forall.
  intros c _. apply Hall.
Qed.


Lemma host_print_run (h : Host.host) (msg : str) (w : World) :
  Host.print h msg w
  = if Host.can_print h msg then (Return tt, printed msg w)
    else (Raise Host.encode_error, w).
Proof. unfold Host.print. by destruct (Host.can_print h msg). Qed.

Lemma host_print_ideal (msg : str) (w : World) :
  Host.print Host.ideal msg w = print msg w.
Proof.
  rewrite host_print_run, can_print_all; [done|].
  intros c. unfold Host.encodes. apply orb_true_r.
Qed.

(** *** What sends nothing *)

Lemma keeps_wire_ret {A} (a : A) : keeps_wire (ret a).
Proof. by intros w. Qed.

Lemma keeps_wire_raise {A} (e : exn) : keeps_wire (@raise A e).
Proof. by intros w. Qed.

Lemma keeps_wire_logging l msg : keeps_wire (logging l msg).
Proof. by intros w. Qed.

Lemma keeps_wire_print (h : Host.host) msg : keeps_wire (Host.print h msg).
Proof.
  intros w. rewrite host_print_run. by destruct (Host.can_print h msg).
Qed.

Lemma keeps_wire_bind {A B} (m : M A) (k : A -> M B) :
  keeps_wire m -> (forall a, keeps_wire (k a)) -> keeps_wire (bind m k).
Proof.
  intros Hm Hk w. unfold bind. specialize (Hm w).
  destruct (m w) as [[a|e] w1]; cbn [snd] in *; [|done].
  by rewrite Hk.
Qed.

Lemma keeps_wire_try_except {A} (m : M A) (handler : exn -> M A) :
  keeps_wire m -> (forall e, keeps_wire (handler e)) ->
  keeps_wire (try_except m handler).
Proof.
  intros Hm Hh w. unfold try_except. specialize (Hm w).
  destruct (m w) as [[a|e] w1]; cbn [snd] in *; [done|].
  by rewrite Hh.
Qed.

Lemma keeps_wire_makedirs (env : Env) dir_path :
  keeps_wire (makedirs env dir_path).
Proof.
  intros w. unfold makedirs. case_bool_decide; [done|].
  destruct (makedirs_fault env); [|done].
  by destruct (makedirs_made_parent env).
Qed.

Lemma keeps_wire_open_and_dump (env : Env) path data :
  keeps_wire (open_and_dump env path data).
Proof. intros w. unfold open_and_dump. by destruct (write env). Qed.

Lemma keeps_wire_save_data (h : Host.host) (env : Env) data :
  keeps_wire (Host.save_data h env data).
Proof.
  unfold Host.save_data.
  apply keeps_wire_bind; [apply keeps_wire_makedirs|]. intros _.
  apply keeps_wire_bind; [by intros w|]. intros [|].
  - repeat (apply keeps_wire_bind; [|intros _]);
      auto using keeps_wire_logging, keeps_wire_print, keeps_wire_ret.
  - apply keeps_wire_try_except; [|intros e];
      repeat (apply keeps_wire_bind; [|intros _]);
      auto using keeps_wire_logging, keeps_wire_print, keeps_wire_ret,
                 keeps_wire_open_and_dump.
Qed.

Lemma keeps_wire_parse_trending (h : Host.host) (env : Env) html :
  keeps_wire (Host.parse_trending h env html).
Proof.
  intros w. unfold Host.parse_trending.
  destruct (Host.parser_error h html); [done|]. apply parsed_wire.
Qed.

Lemma keeps_wire_after_parse (h : Host.host) (env : Env) l :
  keeps_wire (Host.after_parse h env l).
Proof.
  destruct l as [|r l]; cbn [Host.after_parse].
  - apply keeps_wire_bind; [apply keeps_wire_logging|]. intros _.
    apply keeps_wire_print.
  - apply keeps_wire_bind; [apply keeps_wire_save_data|]. intros [|].
    + apply keeps_wire_bind; [apply keeps_wire_print|]. intros _.
      apply keeps_wire_logging.
    + apply keeps_wire_print.
Qed.

Lemma keeps_wire_report (h : Host.host) e : keeps_wire (Host.report h e).
Proof.
  unfold Host.report. destruct (is_RequestException (exn_cls e));
    (apply keeps_wire_bind; [apply keeps_wire_logging|]); intros _;
    apply keeps_wire_print.
Qed.

(** *** The shape of a run *)

(** [main] is its [try] block run after the two opening messages and
    followed by the two closing ones, which are ASCII and always
    printed. *)
Lemma host_main_run (h : Host.host) (env : Env) (w : World) :
  Host.main h env w
  = (fst (try_except (Host.scrape h env) (Host.report h) (started w)),
     finished (snd (try_except (Host.scrape h env) (Host.report h)
                               (started w)))).
Proof.
  unfold Host.main.
  change (Host.print h (py "Starting GitHub trending scraper..."))
    with (print (py "Starting GitHub trending scraper...")).
  change (Host.print h (py "Scraper finished."))
    with (print (py "Scraper finished.")).
  unfold bind at 1 2. cbn [logging print].
  by rewrite try_finally_run.
Qed.

Lemma host_report_run (h : Host.host) (e : exn) (w : World) :
  let msg := (if is_RequestException (exn_cls e)
              then py "Network error: " else py "Unexpected error: ")
             ++ exn_msg e in
  Host.report h e w = Host.print h (CROSS ++ msg) (logged ERROR msg w).
Proof.
  cbn zeta. unfold Host.report. by destruct (is_RequestException (exn_cls e)).
Qed.




(** After a denial the block ends with the warning, printed or not. *)
Lemma host_scrape_denied (h : Host.host) (env : Env) (w : World) :
  robots env USER_AGENT TRENDING_URL = Return false ->
  Host.scrape h env w
  = Host.print h (CROSS ++ py "Scraping not allowed by robots.txt")
      (logged WARNING (py "Scraping not allowed by robots.txt")
              (snd (request ROBOTS_URL w))).
Proof.
  intros Hdeny. unfold Host.scrape. unfold bind at 1.
  by rewrite can_fetch_run, Hdeny.
Qed.

(** When the check lets the run go on, the line that says so comes
    first; the page is fetched only if it could be printed. *)
Lemma host_scrape_goes_on (h : Host.host) (env : Env) (w : World) :
  goes_on env ->
  Host.scrape h env w
  = if Host.can_print h (CHECK ++ py "Robots.txt check passed")
    then (let* html := fetch_trending env in
          let* trending_repos := Host.parse_trending h env html in
          Host.after_parse h env trending_repos) (checked env w)
    else (Raise Host.encode_error,
          logged INFO (py "Robots.txt check passed")
                 (snd (can_fetch env TRENDING_URL USER_AGENT w))).
Proof.
  intros Hgo. unfold Host.scrape, checked. unfold bind at 1.
  rewrite can_fetch_run. unfold goes_on in Hgo.
  destruct (robots env USER_AGENT TRENDING_URL) as [[|]|e]; [|done|];
    cbn [negb]; unfold bind at 1; cbn [logging];
    unfold bind at 1; rewrite host_print_run;
    by destruct (Host.can_print h _).
Qed.

Lemma robots_deny_or_go_on (env : Env) :
  robots env USER_AGENT TRENDING_URL = Return false \/ goes_on env.
Proof.
  unfold goes_on.
  destruct (robots env USER_AGENT TRENDING_URL) as [[|]|e];
    [by right|by left|by right].
Qed.

(** What a run on a host sends. *)
Lemma host_main_wire (h : Host.host) (env : Env) (w : World) :
  exists n,
    (n <= MAX_RETRIES + 1)%nat /\
    wire (snd (Host.main h env w))
    = wire w ++ ROBOTS_URL :: replicate n TRENDING_URL /\
    (n = 0%nat <->
     robots env USER_AGENT TRENDING_URL = Return false \/
     Host.can_print h (CHECK ++ py "Robots.txt check passed") = false).
Proof.
  rewrite host_main_run. cbn [snd]. unfold finished.
  cbn [printed logged print logging snd wire].
  destruct (robots_deny_or_go_on env) as [Hdeny|Hgo].
  - exists 0%nat. split; [lia|]. split; [|by split; [left|]].
    unfold try_except. rewrite (host_scrape_denied _ _ _ Hdeny).
    rewrite host_print_run. destruct (Host.can_print h _).
    + done.
    + by rewrite keeps_wire_report.
  - destruct (Host.can_print h (CHECK ++ py "Robots.txt check passed"))
      eqn:Hprint.
    + destruct (fetch_trending_uniform env) as (n & Hn & Hfetch).
      exists n. split; [unfold MAX_RETRIES in *; lia|]. split.
      2: { split; [lia|]. intros [Hdeny|?]; [|done].
           unfold goes_on in Hgo. by rewrite Hdeny in Hgo. }
      unfold try_except. rewrite (host_scrape_goes_on _ _ _ Hgo), Hprint.
      unfold bind at 1. rewrite Hfetch.
      assert (wire (fetched env n (checked env (started w)))
              = wire w ++ ROBOTS_URL :: replicate n TRENDING_URL) as Hsent.
      { cbn [fetched wire]. rewrite checked_wire. cbn [started printed logged
          print logging snd wire]. by rewrite <- app_assoc. }
      destruct (fetch_outcome env) as [html|e].
      * pose proof (keeps_wire_bind _ _
                      (keeps_wire_parse_trending h env html)
                      (keeps_wire_after_parse h env)
                      (fetched env n (checked env (started w)))) as Hrest.
        destruct (bind _ _ _) as [[[]|e] w1]; cbn [snd] in *.
        -- by rewrite Hrest.
        -- by rewrite keeps_wire_report, Hrest.
      * by rewrite keeps_wire_report.
    + exists 0%nat. split; [lia|]. split; [|by split; [right|]].
      unfold try_except. rewrite (host_scrape_goes_on _ _ _ Hgo), Hprint.
      rewrite keeps_wire_report. cbn [logged logging snd wire].
      rewrite can_fetch_run.
      by destruct (robots env USER_AGENT TRENDING_URL).
Qed.

(** On the ideal host the run is the run of [main]. *)
Lemma host_save_data_ideal (env : Env) data (w : World) :
  Host.save_data Host.ideal env data w = save_data env data w.
Proof.
  unfold Host.save_data, save_data, bind, try_except, path_exists, ret.
  destruct (makedirs env _ w) as [[[]|e] w1]; [|done].
  destruct (exists_on_disk _ w1).
  - cbn [logging]. by rewrite host_print_ideal.
  - destruct (open_and_dump env _ data w1) as [[[]|e] w2];
      cbn [logging]; by rewrite host_print_ideal.
Qed.

Lemma host_after_parse_ideal (env : Env) l (w : World) :
  Host.after_parse Host.ideal env l w = after_parse env l w.
Proof.
  destruct l as [|r l]; cbn [Host.after_parse after_parse]; unfold bind.
  - cbn [logging]. by rewrite host_print_ideal.
  - rewrite host_save_data_ideal.
    destruct (save_data env (r :: l) w) as [[[|]|e] w1]; [|by rewrite host_print_ideal|done].
    rewrite host_print_ideal. done.
Qed.

Lemma host_report_ideal (e : exn) (w : World) :
  Host.report Host.ideal e w = report e w.
Proof.
  rewrite host_report_run, report_run. cbn zeta. by rewrite host_print_ideal.
Qed.

Lemma bind_ext {A B} (m : M A) (k k' : A -> M B) (w : World) :
  (forall a w1, k a w1 = k' a w1) -> bind m k w = bind m k' w.
Proof.
  intros Hk. unfold bind. destruct (m w) as [[a|e] w1]; [apply Hk|done].
Qed.

Lemma host_scrape_ideal (env : Env) (w : World) :
  Host.scrape Host.ideal env w = scrape env w.
Proof.
  destruct (robots_deny_or_go_on env) as [Hdeny|Hgo].
  - by rewrite host_scrape_denied, scrape_denied, host_print_ideal.
  - rewrite host_scrape_goes_on, scrape_goes_on by done.
    rewrite can_print_all by (intros c; apply orb_true_r).
    apply bind_ext. intros html w1.
    change (Host.parse_trending Host.ideal env html)
      with (parse_trending env html).
    apply bind_ext. intros l w2. apply host_after_parse_ideal.
Qed.

Lemma host_main_ideal (env : Env) (w : World) :
  Host.main Host.ideal env w = main env w.
Proof.
  rewrite host_main_run, main_started. unfold try_except.
  rewrite host_scrape_ideal.
  destruct (scrape env (started w)) as [[[]|e] w1]; [done|].
  by rewrite host_report_ideal.
Qed.







(** X16. A run sends one request for robots.txt, first, and then the
    request for the page at most [MAX_RETRIES + 1] times.  It sends none
    exactly when the robots check answers [False] or the console cannot
    print the line that says the check passed, which ends the [try] block
    before the page is fetched; it sends at least one otherwise, also when
    the check raised and [can_fetch] let the run go on. *)
Theorem main_request_budget (h : Host.host) (env : Env) (w : World) :
  exists n,
    (n <= MAX_RETRIES + 1)%nat /\
    wire (snd (Host.main h env w))
    = wire w ++ ROBOTS_URL :: replicate n TRENDING_URL /\
    (n = 0%nat <->
     robots env USER_AGENT TRENDING_URL = Return false \/
     Host.can_print h (CHECK ++ py "Robots.txt check passed") = false).
Proof. apply host_main_wire. Qed.

(** X25. When the parser rejects the page that was fetched, the exception
    leaves [parse_trending] and reaches the second [except] clause of
    [main]: it is logged as an unexpected error, last before the closing
    entry, nothing on disk is touched, and the run returns normally if the
    console can print the line of the handler. *)
Theorem main_rejected_markup_reported
        (h : Host.host) (env : Env) (w : World) (html : str) (e : exn) :
  goes_on env ->
  Host.can_print h (CHECK ++ py "Robots.txt check passed") = true ->
  fetch_outcome env = Return html ->
  Host.parser_error h html = Some e ->
  is_RequestException (exn_cls e) = false ->
  let w' := snd (Host.main h env w) in
  same_disk w w' /\
  (exists l, log w' = l ++ [(ERROR, py "Unexpected error: " ++ exn_msg e);
                            FINISHED]) /\
  (Host.can_print h (CROSS ++ py "Unexpected error: " ++ exn_msg e) = true ->
   fst (Host.main h env w) = Return tt).
Proof.
  intros Hgo Hprint Hfetch Hreject Hclass. cbn zeta.
  set (msg := py "Unexpected error: " ++ exn_msg e).
  assert (exists n,
             try_except (Host.scrape h env) (Host.report h) (started w)
             = Host.print h (CROSS ++ msg)
                 (logged ERROR msg (fetched env n (checked env (started w)))))
    as (n & Htry).
  { destruct (fetch_trending_uniform env) as (n & _ & Hrun). exists n.
    unfold try_except. rewrite (host_scrape_goes_on _ _ _ Hgo), Hprint.
    unfold bind at 1. rewrite Hrun, Hfetch.
    unfold bind at 1. unfold Host.parse_trending. rewrite Hreject.
    cbn [raise]. rewrite host_report_run. cbn zeta. by rewrite Hclass. }
  rewrite host_main_run, Htry, host_print_run.
  destruct (checked_disk env (started w)) as (Hd & Hf & Ho).
  destruct (Host.can_print h (CROSS ++ msg));
    cbn [fst snd]; unfold same_disk, finished;
    cbn [printed logged print logging dirs files opened log snd fetched];
    rewrite Hd, Hf, Ho.
  - split; [done|]. split; [|done]. eexists. by rewrite <- app_assoc.
  - split; [done|]. split; [|done]. eexists. by rewrite <- app_assoc.
Qed.

Lemma main_rejected_markup_reported_witness :
  let env := Sample.env_net (fun _ => Response 200 false Sample.REJECTED) in
  let run := Host.main Sample.strict_parser env Sample.world0 in
  goes_on env /\
  Host.can_print Sample.strict_parser (CHECK ++ py "Robots.txt check passed")
  = true /\
  fetch_outcome env = Return Sample.REJECTED /\
  Host.parser_error Sample.strict_parser Sample.REJECTED
  = Some Sample.rejected_markup /\
  fst run = Return tt /\
  files (snd run) = ∅ /\
  exists l,
    log (snd run)
    = l ++ [(ERROR, py "Unexpected error: unexpected '[' char in declaration");
            FINISHED].
Proof.
  intros env run.
  assert (goes_on env) as Hgo by discriminate.
  assert (Host.can_print Sample.strict_parser
            (CHECK ++ py "Robots.txt check passed") = true) as Hprint
      by (vm_compute; reflexivity).
  assert (fetch_outcome env = Return Sample.REJECTED) as Hfetch
      by (vm_compute; reflexivity).
  assert (Host.parser_error Sample.strict_parser Sample.REJECTED
          = Some Sample.rejected_markup) as Hreject
      by (vm_compute; reflexivity).
  split; [exact Hgo|]. split; [exact Hprint|]. split; [exact Hfetch|].
  split; [exact Hreject|].
  destruct (main_rejected_markup_reported Sample.strict_parser env
              Sample.world0 _ _ Hgo Hprint Hfetch Hreject eq_refl)
    as ((_ & Hfiles & _) & Hlog & Hret).
  split; [apply Hret; vm_compute; reflexivity|].
  split; [exact Hfiles|exact Hlog].
Defined.

(** *** What leaves the snapshot of the day alone *)

Lemma same_disk_refl w : same_disk w w.
Proof. done. Qed.

Lemma snapshot_there_same today w w' :
  same_disk w w' -> snapshot_there today w -> snapshot_there today w'.
Proof.
  intros (Hd & Hf & _) [Hdir Hex]. split; [by rewrite Hd|].
  unfold exists_on_disk in *. by rewrite Hd, Hf.
Qed.

Lemma keeps_snapshot_quiet today {A} (m : M A) :
  (forall w, same_disk w (snd (m w))) -> keeps_snapshot today m.
Proof. intros Hm w _. apply Hm. Qed.

Lemma keeps_snapshot_bind today {A B} (m : M A) (k : A -> M B) :
  keeps_snapshot today m -> (forall a, keeps_snapshot today (k a)) ->
  keeps_snapshot today (bind m k).
Proof.
  intros Hm Hk w Hw. unfold bind. specialize (Hm w Hw).
  destruct (m w) as [[a|e] w1]; cbn [snd] in *; [|done].
  eapply same_disk_trans; [exact Hm|].
  apply Hk. by apply (snapshot_there_same _ w).
Qed.

Lemma keeps_snapshot_try_except today {A} (m : M A) (handler : exn -> M A) :
  keeps_snapshot today m -> (forall e, keeps_snapshot today (handler e)) ->
  keeps_snapshot today (try_except m handler).
Proof.
  intros Hm Hh w Hw. unfold try_except. specialize (Hm w Hw).
  destruct (m w) as [[a|e] w1]; cbn [snd] in *; [done|].
  eapply same_disk_trans; [exact Hm|].
  apply Hh. by apply (snapshot_there_same _ w).
Qed.

Lemma keeps_snapshot_logging today l msg :
  keeps_snapshot today (logging l msg).
Proof. by apply keeps_snapshot_quiet. Qed.

Lemma keeps_snapshot_print today (h : Host.host) msg :
  keeps_snapshot today (Host.print h msg).
Proof.
  apply keeps_snapshot_quiet. intros w. rewrite host_print_run.
  by destruct (Host.can_print h msg).
Qed.

Lemma keeps_snapshot_can_fetch today (env : Env) url user_agent :
  keeps_snapshot today (can_fetch env url user_agent).
Proof.
  apply keeps_snapshot_quiet. intros w. rewrite can_fetch_run.
  by destruct (robots env user_agent url).
Qed.

Lemma keeps_snapshot_fetch_trending today (env : Env) :
  keeps_snapshot today (fetch_trending env).
Proof.
  apply keeps_snapshot_quiet. intros w.
  destruct (fetch_trending_uniform env) as (n & _ & Hrun).
  rewrite Hrun. apply fetched_disk.
Qed.

Lemma keeps_snapshot_parse_trending today (h : Host.host) (env : Env) html :
  keeps_snapshot today (Host.parse_trending h env html).
Proof.
  apply keeps_snapshot_quiet. intros w. unfold Host.parse_trending.
  destruct (Host.parser_error h html); [done|]. apply parsed_disk.
Qed.

(** With the snapshot there, [save_data] finds it and skips the write. *)
Lemma keeps_snapshot_save_data (h : Host.host) (env : Env) data :
  keeps_snapshot (utc_today env) (Host.save_data h env data).
Proof.
  intros w [Hdir Hex]. unfold Host.save_data. unfold bind at 1.
  fold (day_dir (utc_today env)). rewrite (makedirs_present _ _ Hdir).
  unfold bind at 1, path_exists. fold (artifact (utc_today env)).
  rewrite Hex. unfold bind at 1. cbn [logging]. unfold bind at 1.
  rewrite host_print_run. by destruct (Host.can_print h _).
Qed.

Lemma keeps_snapshot_after_parse (h : Host.host) (env : Env) l :
  keeps_snapshot (utc_today env) (Host.after_parse h env l).
Proof.
  destruct l as [|r l]; cbn [Host.after_parse].
  - apply keeps_snapshot_bind; [apply keeps_snapshot_logging|]. intros _.
    apply keeps_snapshot_print.
  - apply keeps_snapshot_bind; [apply keeps_snapshot_save_data|]. intros [|].
    + apply keeps_snapshot_bind; [apply keeps_snapshot_print|]. intros _.
      apply keeps_snapshot_logging.
    + apply keeps_snapshot_print.
Qed.

Lemma keeps_snapshot_scrape (h : Host.host) (env : Env) :
  keeps_snapshot (utc_today env) (Host.scrape h env).
Proof.
  unfold Host.scrape.
  apply keeps_snapshot_bind; [apply keeps_snapshot_can_fetch|]. intros [|];
    cbn [negb].
  - apply keeps_snapshot_bind; [apply keeps_snapshot_logging|]. intros _.
    apply keeps_snapshot_bind; [apply keeps_snapshot_print|]. intros _.
    apply keeps_snapshot_bind; [apply keeps_snapshot_fetch_trending|].
    intros html.
    apply keeps_snapshot_bind; [apply keeps_snapshot_parse_trending|].
    intros l. apply keeps_snapshot_after_parse.
  - apply keeps_snapshot_bind; [apply keeps_snapshot_logging|]. intros _.
    apply keeps_snapshot_print.
Qed.

Lemma keeps_snapshot_report today (h : Host.host) e :
  keeps_snapshot today (Host.report h e).
Proof.
  unfold Host.report. destruct (is_RequestException (exn_cls e));
    (apply keeps_snapshot_bind; [apply keeps_snapshot_logging|]); intros _;
    apply keeps_snapshot_print.
Qed.

(** X21. Once the directory and the artifact of the day are on disk, a
    run leaves directories, files and the trace of writes exactly as they
    are, whatever the page now holds and whatever goes wrong: a denial, a
    failed fetch, a page the parser rejects, a line the console cannot
    print. *)
Theorem main_keeps_snapshot (h : Host.host) (env : Env) (w : World) :
  day_dir (utc_today env) ∈ dirs w ->
  exists_on_disk (artifact (utc_today env)) w = true ->
  same_disk w (snd (Host.main h env w)).
Proof.
  intros Hdir Hpresent. rewrite host_main_run. cbn [snd].
  assert (snapshot_there (utc_today env) (started w)) as Hstarted by done.
  pose proof (keeps_snapshot_try_except _ _ _
                (keeps_snapshot_scrape h env)
                (keeps_snapshot_report (utc_today env) h)
                (started w) Hstarted) as (Hd & Hf & Ho).
  unfold same_disk, finished.
  cbn [printed logged print logging snd dirs files opened].
  by rewrite Hd, Hf, Ho.
Qed.

Lemma main_keeps_snapshot_witness :
  let w1 := snd (main (Sample.env_io NoFault) Sample.world0) in
  let env := Sample.env_of Sample.MIXED_SOUP in
  let w2 := snd (Host.main Sample.ascii_console env w1) in
  day_dir (utc_today env) ∈ dirs w1 /\
  exists_on_disk (artifact (utc_today env)) w1 = true /\
  files w2 = files w1 /\ dirs w2 = dirs w1 /\ opened w2 = opened w1 /\
  is_Some (files w1 !! artifact (utc_today env)).
Proof.
  intros w1 env w2.
  assert (day_dir (utc_today env) ∈ dirs w1) as Hdir.
  { apply (proj1 (bool_decide_eq_true _)). vm_compute. reflexivity. }
  assert (exists_on_disk (artifact (utc_today env)) w1 = true) as Hpresent
      by (vm_compute; reflexivity).
  split; [exact Hdir|]. split; [exact Hpresent|].
  destruct (main_keeps_snapshot Sample.ascii_console env w1 Hdir Hpresent)
    as (Hd & Hf & Ho).
  split; [exact Hf|]. split; [exact Hd|]. split; [exact Ho|].
  apply (proj1 (bool_decide_eq_true _)). vm_compute. reflexivity.
Defined.
